(** * Document intelligence pipeline: section segmenter, subsection splitter,
      persona profiler and relevance ranker

    A shallow embedding of the Python sources
    [section_extractor.py], [persona_analyzer.py], [relevance_ranker.py],
    [document_processor.py] and the pipeline of [main.py], with the
    properties the specification states about them and further properties
    of the code.

    Conventions of the embedding.
    - A Python [str] is a [string]; the text is taken to be ASCII, so the
      character classes below are those of Python on code points below 128.
      The non-ASCII literals of the source (the bullets U+2022 and U+00B7 and
      the mis-encoded bullet of the ranker) cannot occur in such text and are
      left out of the literal lists, with a remark where this happens.
    - A Python [float] is a primitive binary64 [float]: literals are rounded
      to the nearest double and the operations round to nearest even, as
      CPython does.  [min(a, b)] is [if b < a then b else a].  The built-in
      [sum] adds left to right; CPython 3.12 and later compensate the
      rounding error, which [PyFloat.sum_compensated] follows.
    - A Python [set] is a [gset string]; [list(set(l))] is [elements], whose
      order is as unspecified as the order of iteration of a Python set.
    - A regular expression is a list of atoms ([Re.regex]); every quantifier
      of the source applies to one character class, which lets the
      backtracking matcher recurse on the text alone.
    - [list.sort(key, reverse=True)] and [sorted] are a stable insertion sort
      on the key; on keys that are totally ordered (no NaN) this is the one
      stable descending arrangement, which is what Python returns.
    - The two similarity collaborators of the ranker (sentence embeddings
      and TF-IDF) are parameters of its definitions.
    - What PyMuPDF reads of a PDF file is data ([fitz_page]); the directory
      of the PDF files is a parameter of the pipeline, and the time stamp
      of its output is left out.
    - A Python [int] that can be negative is a [Z]; a [while] loop runs on
      fuel, and a call returns a value, raises, or is not finished when the
      fuel is used up.
    - A call that can raise returns an [option]: [None] is the exception
      that escapes it.  The one such exception of the profiler is the
      [ValueError] of [int] on more than 4300 digits (the default of
      [sys.int_max_str_digits]); it escapes [_extract_requirements],
      [create_persona_profile] and [process_collection]. *)

From Stdlib Require Import ZArith NArith List String Ascii Bool Floats Uint63 Lia.
From Stdlib Require Import DecimalString Sorted.
From stdpp Require Import base list strings gmap.
Import ListNotations.

Set Warnings "-inexact-float".

Local Open Scope string_scope.
Local Open Scope nat_scope.

(* ------------------------------------------------------------------ *)
(** ** Python strings *)

Module PyStr.

Definition code (c : ascii) : nat := nat_of_ascii c.

Definition in_range (lo hi : nat) (c : ascii) : bool :=
  (lo <=? code c) && (code c <=? hi).

Definition is_upper (c : ascii) : bool := in_range 65 90 c.
Definition is_lower (c : ascii) : bool := in_range 97 122 c.
Definition is_alpha (c : ascii) : bool := is_upper c || is_lower c.
Definition is_digit (c : ascii) : bool := in_range 48 57 c.

(** [\w]: letters, digits and the underscore. *)
Definition is_word (c : ascii) : bool :=
  is_alpha c || is_digit c || (code c =? 95).

(** [str.isspace] and [\s]: tab, LF, VT, FF, CR, the separators
    0x1c-0x1f and the space. *)
Definition is_space (c : ascii) : bool :=
  in_range 9 13 c || in_range 28 31 c || (code c =? 32).

Definition is_char (x : ascii) (c : ascii) : bool := Ascii.eqb x c.

Definition lower_char (c : ascii) : ascii :=
  if is_upper c then ascii_of_nat (code c + 32) else c.

(** [s.lower()] *)
Fixpoint lower (s : string) : string :=
  match s with
  | EmptyString => EmptyString
  | String c s' => String (lower_char c) (lower s')
  end.

Definition is_empty (s : string) : bool :=
  match s with EmptyString => true | _ => false end.

(** [len(s)] *)
Definition len (s : string) : nat := String.length s.

Fixpoint lstrip (s : string) : string :=
  match s with
  | EmptyString => EmptyString
  | String c s' => if is_space c then lstrip s' else s
  end.

Fixpoint rstrip (s : string) : string :=
  match s with
  | EmptyString => EmptyString
  | String c s' =>
      let r := rstrip s' in
      if is_space c && is_empty r then EmptyString else String c r
  end.

(** [s.strip()] *)
Definition strip (s : string) : string := rstrip (lstrip s).

(** [s.startswith(p)] *)
Fixpoint startswith (p s : string) : bool :=
  match p, s with
  | EmptyString, _ => true
  | String a p', String b s' => Ascii.eqb a b && startswith p' s'
  | String _ _, EmptyString => false
  end.

(** [p in s] for strings: [p] occurs in [s] as a contiguous run. *)
Fixpoint contains (p s : string) : bool :=
  startswith p s ||
  match s with
  | EmptyString => false
  | String _ s' => contains p s'
  end.

(** [any(w in s for w in ws)] *)
Definition any_in (ws : list string) (s : string) : bool :=
  existsb (fun w => contains w s) ws.

(** [s.endswith(c)] for a one-character suffix. *)
Fixpoint ends_with_char (x : ascii) (s : string) : bool :=
  match s with
  | EmptyString => false
  | String c EmptyString => Ascii.eqb x c
  | String _ s' => ends_with_char x s'
  end.

(** [s.count(c)] for a one-character pattern. *)
Fixpoint count_char (x : ascii) (s : string) : nat :=
  match s with
  | EmptyString => 0
  | String c s' => (if Ascii.eqb x c then 1 else 0) + count_char x s'
  end.

Fixpoint drop (n : nat) (s : string) : string :=
  match n, s with
  | 0, _ => s
  | S _, EmptyString => EmptyString
  | S n', String _ s' => drop n' s'
  end.

Fixpoint take (n : nat) (s : string) : string :=
  match n, s with
  | 0, _ => EmptyString
  | S _, EmptyString => EmptyString
  | S n', String c s' => String c (take n' s')
  end.

(** The text accumulated so far is kept reversed while scanning. *)
Fixpoint rev_onto (acc s : string) : string :=
  match s with
  | EmptyString => acc
  | String c s' => rev_onto (String c acc) s'
  end.

Definition rev (s : string) : string := rev_onto EmptyString s.

(** [s.split(sep)] for a non-empty separator: pieces between successive
    non-overlapping occurrences of [sep], found left to right.  [skip]
    counts the characters of a separator still to be passed over and [cur]
    is the current piece, reversed. *)
Fixpoint split_go (sep : string) (skip : nat) (cur : string) (s : string)
  : list string :=
  match s with
  | EmptyString => [rev cur]
  | String c s' =>
      match skip with
      | S k => split_go sep k cur s'
      | 0 =>
          if startswith sep s
          then rev cur :: split_go sep (len sep - 1) EmptyString s'
          else split_go sep 0 (String c cur) s'
      end
  end.

Definition split (sep : string) (s : string) : list string :=
  split_go sep 0 EmptyString s.

(** [s.split()]: the maximal runs of characters that are not white space. *)
Fixpoint split_ws_go (cur : string) (s : string) : list string :=
  match s with
  | EmptyString => if is_empty cur then [] else [rev cur]
  | String c s' =>
      if is_space c
      then (if is_empty cur then split_ws_go EmptyString s'
            else rev cur :: split_ws_go EmptyString s')
      else split_ws_go (String c cur) s'
  end.

Definition split_ws (s : string) : list string := split_ws_go EmptyString s.

(** [sep.join(l)] *)
Fixpoint join (sep : string) (l : list string) : string :=
  match l with
  | [] => EmptyString
  | [x] => x
  | x :: rest => x ++ sep ++ join sep rest
  end.

(** [s.isupper()]: no lowercase character and at least one uppercase one. *)
Fixpoint isupper_go (cased : bool) (s : string) : bool :=
  match s with
  | EmptyString => cased
  | String c s' =>
      if is_lower c then false
      else isupper_go (cased || is_upper c) s'
  end.

Definition isupper (s : string) : bool := isupper_go false s.

(** [s.istitle()]: uppercase characters follow uncased ones only, lowercase
    characters follow cased ones only, and there is a cased character. *)
Fixpoint istitle_go (cased prev_cased : bool) (s : string) : bool :=
  match s with
  | EmptyString => cased
  | String c s' =>
      if is_upper c then
        if prev_cased then false else istitle_go true true s'
      else if is_lower c then
        if prev_cased then istitle_go true true s' else false
      else istitle_go cased false s'
  end.

Definition istitle (s : string) : bool := istitle_go false false s.

(** The value of a run of decimal digits. *)
Fixpoint int_go (acc : N) (s : string) : N :=
  match s with
  | EmptyString => acc
  | String c s' => int_go (acc * 10 + N.of_nat (code c - 48))%N s'
  end.

(** The default of [sys.int_max_str_digits]. *)
Definition int_max_str_digits : nat := 4300.

(** [int(s)] on a run of decimal digits: its value, or [None] for the
    [ValueError] that CPython raises when the run has more digits than the
    limit (leading zeros count). *)
Definition int (s : string) : option N :=
  if int_max_str_digits <? len s then None else Some (int_go 0%N s).

(** [x in l] for a list of strings. *)
Definition mem (x : string) (l : list string) : bool :=
  existsb (String.eqb x) l.

End PyStr.

(* ------------------------------------------------------------------ *)
(** ** Regular expressions of the source, as data *)

Module Re.

Definition cls := ascii -> bool.

Inductive atom : Type :=
| One (p : cls)                            (* [...] : one character *)
| Rep (p : cls) (lo : nat) (hi : option nat) (* [...]{lo,hi}, greedy *)
| Lit (w : string)                         (* literal text *)
| Alt (ws : list string)                   (* (w1|w2|...) *)
| End.                                     (* $ *)

Definition regex := list atom.

Definition plus (p : cls) : atom := Rep p 1 None.
Definition star (p : cls) : atom := Rep p 0 None.
Definition opt (p : cls) : atom := Rep p 0 (Some 1).
Definition rep (p : cls) (lo hi : nat) : atom := Rep p lo (Some hi).
Definition at_least (p : cls) (lo : nat) : atom := Rep p lo None.

Definition union (p q : cls) : cls := fun c => p c || q c.

Definition may_take (hi : option nat) : bool :=
  match hi with Some 0 => false | _ => true end.

Definition dec (hi : option nat) : option nat :=
  match hi with Some n => Some (pred n) | None => None end.

(** Greedy repetition of a class followed by the continuation [k]: take as
    many characters as allowed, and give one back at a time while [k]
    fails. *)
Fixpoint greedy (p : cls) (k : string -> option string)
         (lo : nat) (hi : option nat) (s : string) : option string :=
  let stop := if lo =? 0 then k s else None in
  match s with
  | EmptyString => stop
  | String c s' =>
      if p c && may_take hi then
        match greedy p k (pred lo) (dec hi) s' with
        | Some r => Some r
        | None => stop
        end
      else stop
  end.

Fixpoint strip_prefix (w s : string) : option string :=
  match w, s with
  | EmptyString, _ => Some s
  | String a w', String b s' =>
      if Ascii.eqb a b then strip_prefix w' s' else None
  | String _ _, EmptyString => None
  end.

Fixpoint first_alt (k : string -> option string) (ws : list string)
         (s : string) : option string :=
  match ws with
  | [] => None
  | w :: ws' =>
      match strip_prefix w s with
      | Some s' =>
          match k s' with
          | Some r => Some r
          | None => first_alt k ws' s
          end
      | None => first_alt k ws' s
      end
  end.

(** [$] holds at the end of the text and before a final newline. *)
Definition at_end (s : string) : bool :=
  match s with
  | EmptyString => true
  | String c EmptyString => PyStr.code c =? 10
  | _ => false
  end.

(** The match of [r] at the start of [s] that the backtracking matcher
    finds first; the result is the text left after the match. *)
Fixpoint run (r : regex) (s : string) : option string :=
  match r with
  | [] => Some s
  | One p :: r' =>
      match s with
      | String c s' => if p c then run r' s' else None
      | EmptyString => None
      end
  | Rep p lo hi :: r' => greedy p (run r') lo hi s
  | Lit w :: r' =>
      match strip_prefix w s with
      | Some s' => run r' s'
      | None => None
      end
  | Alt ws :: r' => first_alt (run r') ws s
  | End :: r' => if at_end s then run r' s else None
  end.

(** [re.match(r, s)] as a truth value. *)
Definition matches (r : regex) (s : string) : bool :=
  match run r s with Some _ => true | None => false end.

(** [re.search(r, s)] as a truth value. *)
Fixpoint search (r : regex) (s : string) : bool :=
  matches r s ||
  match s with
  | EmptyString => false
  | String _ s' => search r s'
  end.

(** [re.search(r, s)]: the text from the leftmost match on, and the text
    left after that match. *)
Fixpoint find (r : regex) (s : string) : option (string * string) :=
  match run r s with
  | Some rest => Some (s, rest)
  | None =>
      match s with
      | EmptyString => None
      | String _ s' => find r s'
      end
  end.

(** [re.split(r, s)] for a pattern without groups that matches no empty
    text: the pieces between successive matches. *)
Fixpoint split_go (r : regex) (skip : nat) (cur : string) (s : string)
  : list string :=
  match s with
  | EmptyString => [PyStr.rev cur]
  | String c s' =>
      match skip with
      | S k => split_go r k cur s'
      | 0 =>
          match run r s with
          | Some rest =>
              PyStr.rev cur ::
              split_go r (PyStr.len s - PyStr.len rest - 1) EmptyString s'
          | None => split_go r 0 (String c cur) s'
          end
      end
  end.

Definition split (r : regex) (s : string) : list string :=
  split_go r 0 EmptyString s.

(** [re.sub(r, by, s)] for such a pattern. *)
Definition sub (r : regex) (by_ : string) (s : string) : string :=
  PyStr.join by_ (split r s).

End Re.

(* ------------------------------------------------------------------ *)
(** ** Python floats and sorting *)

Module PyFloat.

(** [float(n)] for a length or a count (exact below [2^53]). *)
Definition of_nat (n : nat) : float :=
  PrimFloat.of_uint63 (Uint63.of_Z (Z.of_nat n)).

(** [min(a, b)]: the first argument unless the second is smaller. *)
Definition min (a b : float) : float :=
  if PrimFloat.ltb b a then b else a.

(** [sum(l)]: the additions left to right, from [0] (CPython before
    3.12). *)
Definition sum (l : list float) : float :=
  fold_left PrimFloat.add l 0%float.

(** [sum(l)] from CPython 3.12 on: the same additions, with the rounding
    errors accumulated in [c] (Neumaier) and added at the end when [c] is
    finite and not zero. *)
Definition sum_compensated (l : list float) : float :=
  let '(f_result, c) :=
    fold_left
      (fun '(f_result, c) x =>
         let t := (f_result + x)%float in
         if PrimFloat.leb (PrimFloat.abs x) (PrimFloat.abs f_result)
         then (t, (c + ((f_result - t) + x))%float)
         else (t, (c + ((x - t) + f_result))%float))
      l (0%float, 0%float) in
  if negb (PrimFloat.eqb c 0) && PrimFloat.is_finite c
  then (f_result + c)%float
  else f_result.

(** [a > b] *)
Definition gt (a b : float) : bool := PrimFloat.ltb b a.

End PyFloat.

Module PySort.
Section Sort.
Context {A : Type} (key : A -> float).

Fixpoint insert_desc (x : A) (l : list A) : list A :=
  match l with
  | [] => [x]
  | y :: l' =>
      if PrimFloat.ltb (key x) (key y)
      then y :: insert_desc x l'
      else x :: l
  end.

(** [sorted(l, key=key, reverse=True)]: elements with equal keys keep
    their order. *)
Definition sort_desc (l : list A) : list A :=
  fold_right insert_desc [] l.
End Sort.
End PySort.

(* ------------------------------------------------------------------ *)
(** ** Data model *)

Inductive origin : Type := explicit | implicit.

(** A section dictionary; [relevance_score] is the key the ranker adds. *)
Record section : Type := mk_section {
  document : string;
  title : string;
  content : string;
  page_number : nat;
  type : origin;
  relevance_score : option float
}.

(** A header candidate of a page, as the document processor records it. *)
Record header : Type := mk_header {
  h_title : string;
  h_position : list float;
  h_page : nat
}.

Record page : Type := mk_page {
  p_page_number : nat;
  p_text : string;
  p_sections : list header
}.

Record doc_content : Type := mk_doc {
  total_pages : nat;
  pages : list page;
  full_text : string
}.

Record weights : Type := mk_weights {
  instructional : float;
  descriptive : float;
  analytical : float;
  reference : float
}.

Record requirements : Type := mk_requirements {
  dietary : list string;
  req_size : option N;   (* the key ['size'] *)
  duration : option string;
  special_needs : list string
}.

(** The persona profile ([persona_context] in the ranker and the
    extractor). *)
Record profile : Type := mk_profile {
  persona : string;
  persona_type : string;
  job_task : string;
  job_actions : list string;
  domain_keywords : list string;
  reqs : requirements;
  priority_areas : list string;
  context_weight : weights
}.

Record subsection : Type := mk_subsection {
  sub_document : string;
  sub_content : string;
  sub_page_number : nat;
  sub_relevance_score : float;
  subsection_index : nat
}.

Definition nl : string := String (ascii_of_nat 10) EmptyString.

(* ------------------------------------------------------------------ *)
(** ** section_extractor.py *)

Module SectionExtractor.
Import PyStr.

Definition min_section_length : nat := 50.
Definition max_section_length : nat := 2000.
Definition min_subsection_length : nat := 100.
Definition max_subsections_per_section : nat := 3.

Definition colon : Re.cls := is_char ":".
Definition dot : Re.cls := is_char ".".

(** The four header patterns of [_looks_like_header]:
    [^[A-Z][a-z\s]+:?\s*$], [^[A-Z\s]{3,}:?\s*$], [^\d+\.\s+[A-Za-z]]
    and [^[A-Za-z\s]+ - [A-Za-z]]. *)
Definition header_patterns : list Re.regex :=
  [ [Re.One is_upper; Re.plus (Re.union is_lower is_space);
     Re.opt colon; Re.star is_space; Re.End];
    [Re.at_least (Re.union is_upper is_space) 3;
     Re.opt colon; Re.star is_space; Re.End];
    [Re.plus is_digit; Re.One dot; Re.plus is_space; Re.One is_alpha];
    [Re.plus (Re.union is_alpha is_space); Re.Lit " - "; Re.One is_alpha] ].

Definition _looks_like_header (line : string) : bool :=
  let line := strip line in
  if (len line <? 3) || (100 <? len line) then false
  else existsb (fun r => Re.matches r line) header_patterns.

Definition distinct (words : list string) : nat :=
  size (list_to_set words : gset string).

Definition _is_valid_section (content : string) : bool :=
  if is_empty content || (len (strip content) <? min_section_length)
  then false
  else if max_section_length <? len content then false
  else
    let words := split_ws content in
    if PrimFloat.ltb (PyFloat.of_nat (distinct words))
                     (PyFloat.of_nat (length words) * 0.3)%float
    then false
    else true.

(** The lines after the first one that contains the title, compared in
    lower case. *)
Fixpoint after_title (title_lower : string) (lines : list string)
  : option (list string) :=
  match lines with
  | [] => None
  | line :: rest =>
      if contains title_lower (lower line) then Some rest
      else after_title title_lower rest
  end.

(** The loop that accumulates [content_lines]. *)
Fixpoint collect_content (content_lines : list string) (lines : list string)
  : list string :=
  match lines with
  | [] => content_lines
  | l :: rest =>
      let line := strip l in
      if _looks_like_header line && (3 <? length content_lines)
      then content_lines
      else collect_content
             (if is_empty line then content_lines
              else content_lines ++ [line])
             rest
  end.

Definition _extract_section_content (page_text section_title : string)
           (page_number : nat) : string :=
  let lines := split nl page_text in
  match after_title (lower section_title) lines with
  | None => EmptyString
  | Some rest => join " " (collect_content [] rest)
  end.

(** State of the loop of [_extract_implicit_sections]. *)
Record implicit_state : Type := mk_state {
  sections_out : list section;
  current_section : list string;
  current_title : option string
}.

(** Truth value of [current_title and current_section]. *)
Definition titled_and_nonempty (t : option string) (cur : list string)
  : bool :=
  match t, cur with
  | Some t, _ :: _ => negb (is_empty t)
  | _, _ => false
  end.

Definition implicit_section (filename t body : string) (page_number : nat)
  : section :=
  mk_section filename t body page_number implicit None.

(** [current_title or f"Section (Page {page_number})"] *)
Definition title_or_default (t : option string) (page_number : nat)
  : string :=
  match t with
  | Some (String c t') => String c t'
  | _ =>
      "Section (Page " ++
        DecimalString.NilEmpty.string_of_uint (Nat.to_uint page_number) ++ ")"
  end.

(** What a flush appends: the joined group under the title [t_out], when
    [current_title and current_section] holds and the group is valid. *)
Definition flush (filename : string) (page_number : nat)
           (t : option string) (cur : list string) (t_out : string)
  : list section :=
  if titled_and_nonempty t cur then
    let section_content := join " " cur in
    if _is_valid_section section_content
    then [implicit_section filename t_out section_content page_number]
    else []
  else [].

Definition first_line_of (paragraph : string) : string :=
  strip (hd EmptyString (split nl paragraph)).

Definition implicit_step (filename : string) (page_number : nat)
           (st : implicit_state) (paragraph : string) : implicit_state :=
  let first_line := first_line_of paragraph in
  if _looks_like_header first_line
     && (0 <? length (current_section st))
  then
    mk_state
      (sections_out st ++
         flush filename page_number (current_title st) (current_section st)
           (default EmptyString (current_title st)))
      (if len first_line <? len paragraph
       then [strip (drop (len first_line) paragraph)]
       else [])
      (Some first_line)
  else
    mk_state (sections_out st)
             (current_section st ++ [paragraph])
             (current_title st).

Definition paragraphs_of (page_text : string) : list string :=
  List.filter (fun p => negb (is_empty p))
         (map strip (split (nl ++ nl) page_text)).

Definition _extract_implicit_sections (page_text : string)
           (page_number : nat) (filename : string) : list section :=
  let st :=
    fold_left (implicit_step filename page_number)
              (paragraphs_of page_text)
              (mk_state [] [] None) in
  sections_out st ++
    flush filename page_number (current_title st) (current_section st)
      (title_or_default (current_title st) page_number).

(** [re.sub(r'\s+', ' ', content.lower().strip())] *)
Definition normalized (s : section) : string :=
  Re.sub [Re.plus is_space] " " (strip (lower (content s))).

Fixpoint dedup_go (seen_content : gset string) (sections : list section)
  : list section :=
  match sections with
  | [] => []
  | s :: rest =>
      if bool_decide (normalized s ∈ seen_content)
      then dedup_go seen_content rest
      else s :: dedup_go ({[ normalized s ]} ∪ seen_content) rest
  end.

Definition _deduplicate_sections (sections : list section) : list section :=
  dedup_go ∅ sections.

(** [quality_score]; the entry U+2022 of the structure markers is left out
    (ASCII text).  All values are multiples of 0.5, exact in binary64. *)
Definition quality_score (s : section) : float :=
  let c := content s in
  let length := len c in
  let score := 0%float in
  let score :=
    if (200 <=? length) && (length <=? 1000) then (score + 2)%float
    else if (100 <=? length) && (length <=? 1500) then (score + 1)%float
    else score in
  let score :=
    if any_in [":"; "1."; "-"] c then (score + 1)%float else score in
  fold_left
    (fun score word =>
       if contains word (lower c) then (score + 0.5)%float else score)
    ["how"; "what"; "where"; "when"; "why"; "include"; "contain"]
    score.

Definition _rank_sections_by_quality (sections : list section)
  : list section :=
  PySort.sort_desc quality_score sections.

(** [\n\s*\d+\.\s+] *)
Definition numbered_pattern : Re.regex :=
  [Re.Lit nl; Re.star is_space; Re.plus is_digit; Re.One dot;
   Re.plus is_space].

(** [\n\s*[-]\s+]; the bullets U+2022 and U+00B7 of the class are left
    out (ASCII text). *)
Definition bullet_pattern : Re.regex :=
  [Re.Lit nl; Re.star is_space; Re.One (is_char "-"); Re.plus is_space].

(** [[.!?]+\s+] *)
Definition is_sentence_end (c : ascii) : bool :=
  is_char "." c || is_char "!" c || is_char "?" c.

Definition sentence_pattern : Re.regex :=
  [Re.plus is_sentence_end; Re.plus is_space].

(** [[s.strip() for s in subsections if s.strip()]] *)
Definition stripped_nonempty (l : list string) : list string :=
  List.filter (fun s => negb (is_empty s)) (map strip l).

(** Strategy 3: sentences are appended to the current group, which is
    closed as soon as its joined text is longer than 200 characters. *)
Fixpoint group_sentences (current_subsection : list string)
         (sentences : list string) : list string :=
  match sentences with
  | [] =>
      match current_subsection with
      | [] => []
      | _ => [join " " current_subsection]
      end
  | sentence :: rest =>
      let current := (current_subsection ++ [sentence])%list in
      if 200 <? len (join " " current)
      then join " " current :: group_sentences [] rest
      else group_sentences current rest
  end.

(** Fallback: the first sentence end in the 100 characters from the middle
    on. *)
Definition split_by_length (content : string) : list string :=
  let mid_point := len content / 2 in
  let stop := Nat.min (len content) (mid_point + 100) in
  match
    List.find
      (fun i =>
         match String.get i content with
         | Some c => is_sentence_end c
         | None => false
         end)
      (seq mid_point (stop - mid_point))
  with
  | Some i => [strip (take (i + 1) content); strip (drop (i + 1) content)]
  | None => [content]
  end.

Definition _split_into_subsections (content : string) : list string :=
  let by_numbers := Re.split numbered_pattern content in
  if Re.search numbered_pattern content && (1 <? length by_numbers)
  then stripped_nonempty by_numbers
  else
    let by_bullets := Re.split bullet_pattern content in
    if Re.search bullet_pattern content && (1 <? length by_bullets)
    then stripped_nonempty by_bullets
    else
      let sentences := Re.split sentence_pattern content in
      if 10 <? length sentences
      then group_sentences [] sentences
      else if max_section_length <? len content
           then split_by_length content
           else [content].

(** [for x in l: if (x.lower() or x) in text: score += w] *)
Definition add_matches (w : float) (lowered : bool) (l : list string)
           (text : string) (score : float) : float :=
  fold_left
    (fun score x =>
       if contains (if lowered then lower x else x) text
       then (score + w)%float else score)
    l score.

Definition _score_subsection_relevance (sub : string)
           (persona_context : profile) (job_task : string) : float :=
  let subsection_lower := lower sub in
  let score := 0%float in
  let score :=
    add_matches 0.1 true (domain_keywords persona_context)
                subsection_lower score in
  let score :=
    add_matches 0.15 false (job_actions persona_context)
                subsection_lower score in
  let score :=
    add_matches 0.2 true (dietary (reqs persona_context))
                subsection_lower score in
  let score :=
    add_matches 0.1 true (special_needs (reqs persona_context))
                subsection_lower score in
  let context_weights := context_weight persona_context in
  let score :=
    if any_in ["instructions"; "steps"; "ingredients"; "how to"]
              subsection_lower
    then (score + instructional context_weights)%float else score in
  let score :=
    if any_in ["description"; "features"; "details"; "includes"]
              subsection_lower
    then (score + descriptive context_weights)%float else score in
  let length_score :=
    (PyFloat.min (PyFloat.of_nat (len sub) / 500) 1 * 0.1)%float in
  (score + length_score)%float.

(** The loop over [enumerate(subsection_candidates)]. *)
Definition scored_subsections (s : section) (persona_context : profile)
           (job_task : string) : list subsection :=
  concat
    (imap
       (fun idx sub =>
          if min_subsection_length <=? len (strip sub)
          then [mk_subsection (document s) (strip sub) (page_number s)
                  (_score_subsection_relevance sub persona_context job_task)
                  idx]
          else [])
       (_split_into_subsections (content s))).

Definition extract_subsections (s : section) (persona_context : profile)
           (job_task : string) : list subsection :=
  firstn max_subsections_per_section
    (PySort.sort_desc sub_relevance_score
       (scored_subsections s persona_context job_task)).

Definition explicit_sections (filename : string) (p : page) : list section :=
  flat_map
    (fun h =>
       let section_content :=
         _extract_section_content (p_text p) (h_title h) (p_page_number p) in
       if _is_valid_section section_content
       then [mk_section filename (h_title h) section_content
               (p_page_number p) explicit None]
       else [])
    (p_sections p).

Definition page_sections (filename : string) (p : page) : list section :=
  explicit_sections filename p ++
  _extract_implicit_sections (p_text p) (p_page_number p) filename.

Definition extract_sections (doc : doc_content) (filename : string)
  : list section :=
  let sections := flat_map (page_sections filename) (pages doc) in
  let sections := _deduplicate_sections sections in
  _rank_sections_by_quality sections.

End SectionExtractor.

(* ------------------------------------------------------------------ *)
(** ** document_processor.py *)

Module DocumentProcessor.
Import PyStr.

Definition letters_or_space : Re.cls := Re.union is_alpha is_space.
Definition colon : Re.cls := is_char ":".

(** [section_patterns]: [^([A-Z][A-Za-z\s]{2,50}):?\s*$],
    [^([A-Z\s]{3,50}):?\s*$], [^\d+\.\s+([A-Za-z\s]{3,50}):?\s*$],
    [^([A-Za-z\s]{3,50})\s*-\s*] and [^\*\*([A-Za-z\s]{3,50})\*\*]. *)
Definition section_patterns : list Re.regex :=
  [ [Re.One is_upper; Re.rep letters_or_space 2 50;
     Re.opt colon; Re.star is_space; Re.End];
    [Re.rep (Re.union is_upper is_space) 3 50;
     Re.opt colon; Re.star is_space; Re.End];
    [Re.plus is_digit; Re.One (is_char "."); Re.plus is_space;
     Re.rep letters_or_space 3 50; Re.opt colon; Re.star is_space; Re.End];
    [Re.rep letters_or_space 3 50; Re.star is_space;
     Re.One (is_char "-"); Re.star is_space];
    [Re.Lit "**"; Re.rep letters_or_space 3 50; Re.Lit "**"] ].

(** The heuristic for fully capitalized lines. *)
Definition upper_heuristic (text : string) : bool :=
  isupper text && (length (split_ws text) <=? 8)
  && negb (ends_with_char "." text) && negb (contains ":" text).

(** The title case check. *)
Definition title_heuristic (text : string) : bool :=
  istitle text && (length (split_ws text) <=? 10)
  && negb (ends_with_char "." text) && (count_char ":" text <=? 1).

Definition _is_section_header (text : string) : bool :=
  let text := strip text in
  if (len text <? 3) || (100 <? len text) then false
  else if existsb (fun r => Re.matches r text) section_patterns then true
  else if upper_heuristic text then true
  else if title_heuristic text then true
  else false.

(** *** Text and structure of a document

    What the processor reads of a PDF document through PyMuPDF: the pages,
    the blocks of a page, the lines of a text block (a block without the
    key ['lines'] is an image), and the text of the spans of a line with
    the bounding box of the line. *)

Record text_line : Type := mk_text_line {
  spans : list string;
  bbox : list float
}.

Definition block : Type := option (list text_line).

Definition fitz_page : Type := list block.

(** The text of a line: the texts of its spans, one after the other. *)
Definition line_text_of (line : text_line) : string :=
  fold_left append (spans line) EmptyString.

(** The body of the loop over the lines of a block; the state is
    [page_text] and [sections]. *)
Definition add_line (page_num : nat) (acc : string * list header)
           (line : text_line) : string * list header :=
  let '(page_text, sections) := acc in
  let line_text := line_text_of line in
  if negb (is_empty (strip line_text)) then
    (page_text ++ strip line_text ++ nl,
     if _is_section_header (strip line_text)
     then (sections ++ [mk_header (strip line_text) (bbox line)
                          (page_num + 1)])%list
     else sections)
  else acc.

Definition add_block (page_num : nat) (acc : string * list header)
           (b : block) : string * list header :=
  match b with
  | Some lines => fold_left (add_line page_num) lines acc
  | None => acc
  end.

Definition page_content (page_num : nat) (p : fitz_page) : page :=
  let '(page_text, sections) :=
    fold_left (add_block page_num) p (EmptyString, []) in
  mk_page (page_num + 1) page_text sections.

(** [extract_text_and_structure]; the argument is the document that
    [fitz.open] gives for the path, or [None] when opening or reading it
    raises, in which case the handler returns the empty result. *)
Definition extract_text_and_structure (opened : option (list fitz_page))
  : doc_content :=
  match opened with
  | Some doc =>
      let pages_content := imap page_content doc in
      mk_doc (length pages_content) pages_content
             (join nl (map p_text pages_content))
  | None => mk_doc 0 [] EmptyString
  end.

(** *** Chunks of a text *)

Record chunk : Type := mk_chunk {
  chunk_str : string;   (* the key ['text'] *)
  start_pos : Z;
  end_pos : Z;
  chunk_len : nat       (* the key ['length'] *)
}.

(** [text[i]]: a negative index counts from the end, and an index out of
    range raises [IndexError] ([None]). *)
Definition char_at (text : string) (i : Z) : option ascii :=
  let n := Z.of_nat (len text) in
  if (0 <=? i)%Z then String.get (Z.to_nat i) text
  else if (- n <=? i)%Z then String.get (Z.to_nat (n + i)) text
  else None.

(** An index of a slice, brought into [0, len(text)]. *)
Definition clamp (text : string) (i : Z) : Z :=
  let n := Z.of_nat (len text) in
  if (i <? 0)%Z then Z.max 0 (n + i) else Z.min i n.

(** [text[a:b]] *)
Definition slice (text : string) (a b : Z) : string :=
  let a := clamp text a in
  let b := clamp text b in
  take (Z.to_nat (b - a)) (drop (Z.to_nat a) text).

Inductive scan : Type :=
| Found (i : Z)
| NotFound
| IndexError.

Definition is_sentence_end (c : ascii) : bool :=
  is_char "." c || is_char "!" c || is_char "?" c.

(** [for i in range(end, stop, -1): if text[i] in '.!?': ... break], with
    [count] indices left to visit from [i] down. *)
Fixpoint scan_back (text : string) (i : Z) (count : nat) : scan :=
  match count with
  | 0 => NotFound
  | S k =>
      match char_at text i with
      | None => IndexError
      | Some c =>
          if is_sentence_end c then Found i
          else scan_back text (i - 1) k
      end
  end.

(** What a call gives: a value, an exception that escapes, or nothing yet
    when the steps allowed are used up. *)
Inductive outcome (A : Type) : Type :=
| Returned (a : A)
| Raised
| Unfinished.

Arguments Returned {A} a.
Arguments Raised {A}.
Arguments Unfinished {A}.

(** The [while] loop of [chunk_text], run for at most [fuel] rounds. *)
Fixpoint chunk_loop (fuel : nat) (text : string) (chunk_size overlap : Z)
         (start : Z) (chunks : list chunk) : outcome (list chunk) :=
  match fuel with
  | 0 => Unfinished
  | S fuel' =>
      if (start <? Z.of_nat (len text))%Z then
        let end_ := (start + chunk_size)%Z in
        let scanned :=
          if (end_ <? Z.of_nat (len text))%Z
          then scan_back text end_
                 (Z.to_nat (end_ - (start + chunk_size / 2)))
          else NotFound in
        match scanned with
        | IndexError => Raised
        | _ =>
            let end_ :=
              match scanned with Found i => (i + 1)%Z | _ => end_ end in
            let chunk_text := strip (slice text start end_) in
            let chunks :=
              if negb (is_empty chunk_text)
              then (chunks ++ [mk_chunk chunk_text start end_
                                 (len chunk_text)])%list
              else chunks in
            chunk_loop fuel' text chunk_size overlap (end_ - overlap)%Z
                       chunks
        end
      else Returned chunks
  end.

Definition chunk_text (fuel : nat) (text : string) (chunk_size overlap : Z)
  : outcome (list chunk) :=
  chunk_loop fuel text chunk_size overlap 0 [].

(** The default arguments of [chunk_text]. *)
Definition default_chunk_size : Z := 500.
Definition default_overlap : Z := 50.

End DocumentProcessor.

(* ------------------------------------------------------------------ *)
(** ** persona_analyzer.py *)

Module PersonaAnalyzer.
Import PyStr.

(** [self.persona_keywords], in the order of the dictionary. *)
Definition persona_keywords : list (string * list string) :=
  [ ("researcher", ["research"; "methodology"; "analysis"; "study";
       "findings"; "literature"; "academic"; "publication"; "data";
       "experiment"]);
    ("student", ["learn"; "study"; "exam"; "concept"; "understanding";
       "education"; "knowledge"; "practice"; "tutorial"; "explanation"]);
    ("analyst", ["analysis"; "trend"; "metrics"; "performance";
       "evaluation"; "comparison"; "insight"; "report"; "assessment";
       "review"]);
    ("manager", ["strategy"; "planning"; "coordination"; "team";
       "leadership"; "decision"; "execution"; "oversight"; "process";
       "management"]);
    ("planner", ["plan"; "schedule"; "organize"; "coordinate"; "timeline";
       "logistics"; "arrangement"; "preparation"; "itinerary"; "booking"]);
    ("contractor", ["service"; "delivery"; "quality"; "specification";
       "requirement"; "standard"; "compliance"; "execution"; "performance";
       "contract"]);
    ("professional", ["expertise"; "skill"; "experience"; "competency";
       "qualification"; "practice"; "standard"; "protocol"; "procedure";
       "guideline"]) ].

(** [self.job_actions], in the order of the dictionary. *)
Definition job_action_words : list (string * list string) :=
  [ ("create", ["design"; "build"; "develop"; "make"; "construct";
       "generate"; "produce"; "establish"]);
    ("analyze", ["examine"; "evaluate"; "assess"; "review"; "investigate";
       "study"; "research"; "compare"]);
    ("plan", ["organize"; "schedule"; "prepare"; "arrange"; "coordinate";
       "design"; "structure"; "outline"]);
    ("manage", ["oversee"; "supervise"; "control"; "direct"; "handle";
       "administer"; "govern"; "lead"]);
    ("prepare", ["ready"; "setup"; "arrange"; "organize"; "compile";
       "assemble"; "gather"; "collect"]) ].

(** [d.get(k, dflt)] on such a table. *)
Fixpoint lookup_or {V : Type} (k : string) (d : list (string * V))
         (dflt : V) : V :=
  match d with
  | [] => dflt
  | (k', v) :: d' => if String.eqb k k' then v else lookup_or k d' dflt
  end.

(** [list(set(l))] *)
Definition list_set (l : list string) : list string :=
  elements (list_to_set l : gset string).

Fixpoint first_persona_type (table : list (string * list string))
         (persona : string) : option string :=
  match table with
  | [] => None
  | (persona_type, keywords) :: rest =>
      if contains persona_type persona || any_in (firstn 3 keywords) persona
      then Some persona_type
      else first_persona_type rest persona
  end.

Definition _identify_persona_type (persona : string) : string :=
  match first_persona_type persona_keywords persona with
  | Some t => t
  | None =>
      if any_in ["hr"; "human"; "resource"] persona then "professional"
      else if any_in ["food"; "chef"; "cook"; "menu"] persona
           then "contractor"
      else if any_in ["travel"; "trip"; "tour"] persona then "planner"
      else "professional"
  end.

Definition _extract_job_actions (task : string) : list string :=
  let actions :=
    flat_map
      (fun '(action_type, action_words) =>
         if contains action_type task || any_in action_words task
         then [action_type] else [])
      job_action_words in
  let actions :=
    (actions ++
     (if any_in ["menu"; "food"; "recipe"] task then ["prepare"] else []) ++
     (if any_in ["form"; "document"] task then ["create"] else []) ++
     (if any_in ["trip"; "travel"; "itinerary"] task then ["plan"] else []))%list in
  match actions with
  | [] => ["analyze"]
  | _ => list_set actions
  end.

Definition _get_domain_keywords (persona_type task : string) : list string :=
  let keywords := lookup_or persona_type persona_keywords [] in
  let task_keywords :=
    ((if any_in ["menu"; "food"; "recipe"; "vegetarian"; "buffet"] task
      then ["recipe"; "ingredient"; "cooking"; "nutrition"; "dietary"]
      else []) ++
     (if any_in ["travel"; "trip"; "vacation"; "tourist"] task
      then ["destination"; "activity"; "accommodation"; "transportation";
            "attraction"]
      else []) ++
     (if any_in ["business"; "corporate"; "company"; "professional"] task
      then ["business"; "corporate"; "professional"; "service"; "quality"]
      else []) ++
     (if any_in ["form"; "hr"; "employee"; "onboarding"] task
      then ["form"; "employee"; "process"; "compliance"; "documentation"]
      else []))%list in
  (keywords ++ task_keywords)%list.

(** [(\d+)\s*(u1|u2|...)] *)
Definition number_then (units : list string) : Re.regex :=
  [Re.plus is_digit; Re.star is_space; Re.Alt units].

Fixpoint span (p : ascii -> bool) (s : string) : string * string :=
  match s with
  | EmptyString => (EmptyString, EmptyString)
  | String c s' =>
      if p c then let '(a, b) := span p s' in (String c a, b)
      else (EmptyString, s)
  end.

(** The groups of the leftmost match of [number_then units].  A digit can
    start neither white space nor a unit, so the repetition [\d+] gives no
    digit back: group 1 is the whole run of digits at the start of the
    match, and group 2 is the first unit found after the white space. *)
Definition search_groups (units : list string) (task : string)
  : option (string * string) :=
  match Re.find (number_then units) task with
  | None => None
  | Some (from, _) =>
      let '(digits, rest) := span is_digit from in
      let '(_, rest) := span is_space rest in
      match List.find (fun u => startswith u rest) units with
      | Some u => Some (digits, u)
      | None => None
      end
  end.

(** [if size_match: requirements['size'] = int(size_match.group(1))]: the
    value of the key ['size'], or [None] when [int] raises. *)
Definition size_of (size_match : option (string * string))
  : option (option N) :=
  match size_match with
  | Some (g1, _) =>
      match int g1 with
      | Some n => Some (Some n)
      | None => None
      end
  | None => Some None
  end.

(** [_extract_requirements]: the requirements, or [None] for the
    [ValueError] of [int]. *)
Definition _extract_requirements (task : string) : option requirements :=
  let dietary_terms :=
    ["vegetarian"; "vegan"; "gluten-free"; "halal"; "kosher"; "dairy-free"] in
  let size_match :=
    search_groups ["people"; "person"; "friend"; "guest"; "individual"] task in
  let duration_match :=
    search_groups ["day"; "week"; "hour"; "month"] task in
  match size_of size_match with
  | None => None
  | Some size =>
      Some
        (mk_requirements
           (List.filter (fun term => contains term task) dietary_terms)
           size
           (match duration_match with
            | Some (g1, g2) => Some (g1 ++ " " ++ g2 ++ "s")
            | None => None
            end)
           ((if contains "corporate" task then ["professional"] else []) ++
            (if contains "buffet" task then ["buffet-style"] else []) ++
            (if contains "college" task then ["budget-friendly"] else []))%list)
  end.

Definition priority_map : list (string * list string) :=
  [ ("researcher", ["methodology"; "analysis"; "findings"; "literature"]);
    ("student", ["concepts"; "examples"; "explanations"; "practice"]);
    ("planner", ["logistics"; "schedule"; "activities"; "recommendations"]);
    ("contractor", ["specifications"; "quality"; "delivery"; "requirements"]);
    ("professional", ["process"; "compliance"; "standards";
       "best-practices"]) ].

Definition action_priorities : list (string * list string) :=
  [ ("create", ["instructions"; "steps"; "tools"; "templates"]);
    ("plan", ["options"; "schedule"; "logistics"; "recommendations"]);
    ("analyze", ["data"; "comparison"; "insights"; "trends"]);
    ("prepare", ["ingredients"; "materials"; "steps"; "requirements"]) ].

Definition _identify_priority_areas (persona_type : string)
           (job_actions : list string) : list string :=
  let base_priorities :=
    lookup_or persona_type priority_map ["information"; "details"] in
  list_set
    (fold_left
       (fun base action =>
          (base ++ lookup_or action action_priorities [])%list)
       job_actions base_priorities).

(** The weights of [_calculate_context_weights] after the adjustments for
    the persona and the actions, before they are normalized. *)
Definition adjusted_weights (persona_type : string)
           (job_actions : list string) : weights :=
  let w := mk_weights 0.3 0.3 0.2 0.2 in
  let w :=
    if mem persona_type ["student"; "researcher"] then
      mk_weights (instructional w) (descriptive w)
                 (analytical w + 0.2) (reference w + 0.1)
    else if mem persona_type ["planner"; "contractor"] then
      mk_weights (instructional w + 0.2) (descriptive w + 0.1)
                 (analytical w) (reference w)
    else w in
  let w :=
    if mem "create" job_actions || mem "prepare" job_actions then
      mk_weights (instructional w + 0.2) (descriptive w)
                 (analytical w) (reference w)
    else w in
  let w :=
    if mem "analyze" job_actions then
      mk_weights (instructional w) (descriptive w)
                 (analytical w + 0.2) (reference w)
    else w in
  if mem "plan" job_actions then
    mk_weights (instructional w) (descriptive w + 0.2)
               (analytical w) (reference w)
  else w.

(** [weights.values()], in the order of the dictionary. *)
Definition values (w : weights) : list float :=
  [instructional w; descriptive w; analytical w; reference w].

(** The normalization: every weight divided by the total, which the
    built-in [py_sum] of the interpreter computes. *)
Definition normalize (py_sum : list float -> float) (w : weights) : weights :=
  let total_weight := py_sum (values w) in
  mk_weights (instructional w / total_weight) (descriptive w / total_weight)
             (analytical w / total_weight) (reference w / total_weight).

Definition _calculate_context_weights (persona_type : string)
           (job_actions : list string) : weights :=
  normalize PyFloat.sum (adjusted_weights persona_type job_actions).

(** [create_persona_profile]: the profile, or [None] when
    [_extract_requirements] raises. *)
Definition create_persona_profile (persona job_task : string)
  : option profile :=
  let persona_lower := lower persona in
  let task_lower := lower job_task in
  let persona_type := _identify_persona_type persona_lower in
  let job_actions := _extract_job_actions task_lower in
  let domain_keywords := _get_domain_keywords persona_type task_lower in
  match _extract_requirements task_lower with
  | None => None
  | Some requirements =>
      Some
        (mk_profile persona persona_type job_task job_actions
           domain_keywords requirements
           (_identify_priority_areas persona_type job_actions)
           (_calculate_context_weights persona_type job_actions))
  end.

End PersonaAnalyzer.

(* ------------------------------------------------------------------ *)
(** ** relevance_ranker.py *)

Module RelevanceRanker.
Import PyStr.

(** [self.similarity_weights] *)
Definition w_semantic : float := 0.4.
Definition w_tfidf : float := 0.3.
Definition w_keyword : float := 0.2.
Definition w_structural : float := 0.1.

(** [[0.5] * len(sections)] *)
Definition neutral (sections : list section) : list float :=
  map (fun _ => 0.5%float) sections.

(** [scores[i]]; every score list below has one entry per section. *)
Definition at_index (scores : list float) (i : nat) : float :=
  nth i scores 0%float.

Definition _create_query_context (persona_context : profile)
           (job_task : string) : string :=
  let context_parts :=
    ([ persona persona_context;
       job_task;
       join " " (domain_keywords persona_context);
       join " " (job_actions persona_context);
       join " " (priority_areas persona_context) ] ++
     dietary (reqs persona_context) ++
     special_needs (reqs persona_context))%list in
  join " " (List.filter (fun part => negb (is_empty part)) context_parts).

(** [re.findall(r'\b\w+\b', text)]: the maximal runs of word characters. *)
Fixpoint findall_words_go (cur : string) (s : string) : list string :=
  match s with
  | EmptyString => if is_empty cur then [] else [rev cur]
  | String c s' =>
      if is_word c then findall_words_go (String c cur) s'
      else if is_empty cur then findall_words_go EmptyString s'
      else rev cur :: findall_words_go EmptyString s'
  end.

Definition findall_words (s : string) : list string :=
  findall_words_go EmptyString s.

Definition lower_set (l : list string) : gset string :=
  list_to_set (map lower l).

Definition keyword_set (persona_context : profile) : gset string :=
  lower_set (domain_keywords persona_context)
  ∪ lower_set (job_actions persona_context)
  ∪ lower_set (priority_areas persona_context)
  ∪ lower_set (dietary (reqs persona_context))
  ∪ lower_set (special_needs (reqs persona_context)).

Definition keyword_similarity (keywords : gset string) (s : section)
  : float :=
  let section_text := lower (content s) in
  let section_words : gset string :=
    list_to_set (findall_words section_text) in
  let intersection := keywords ∩ section_words in
  let union := keywords ∪ section_words in
  let jaccard_sim :=
    if 0 <? size union
    then (PyFloat.of_nat (size intersection) / PyFloat.of_nat (size union))%float
    else 0%float in
  let keyword_count :=
    length (List.filter (fun kw => contains kw section_text) (elements keywords)) in
  let n_words := length (split_ws section_text) in
  let keyword_density :=
    if 0 <? n_words
    then (PyFloat.of_nat keyword_count / PyFloat.of_nat n_words)%float
    else 0%float in
  (jaccard_sim * 0.7 + PyFloat.min (keyword_density * 10) 1 * 0.3)%float.

Definition _calculate_keyword_similarity (sections : list section)
           (persona_context : profile) : list float :=
  map (keyword_similarity (keyword_set persona_context)) sections.

(** The score of one section in [_calculate_structural_scores]; the
    mis-encoded bullet of the bullet list is left out (ASCII text). *)
Definition structural_score (persona_context : profile) (s : section)
  : float :=
  let c := content s in
  let length_ := len c in
  let score := 0%float in
  let score :=
    if (200 <=? length_) && (length_ <=? 1000) then (score + 0.3)%float
    else if (100 <=? length_) && (length_ <=? 1500) then (score + 0.2)%float
    else if 50 <? length_ then (score + 0.1)%float
    else score in
  let score := if contains ":" c then (score + 0.2)%float else score in
  let score :=
    if Re.search [Re.plus is_digit; Re.One (is_char ".")] c
    then (score + 0.2)%float else score in
  let score :=
    if any_in ["-"; "*"] c then (score + 0.15)%float else score in
  let info_indicators :=
    ["ingredients"; "steps"; "instructions"; "how to"; "recipe";
     "procedure"; "method"; "technique"; "tip"; "recommendation"] in
  let info_count :=
    length (List.filter (fun indicator => contains indicator (lower c))
                   info_indicators) in
  let score :=
    (score + PyFloat.min (PyFloat.of_nat info_count * 0.05) 0.3)%float in
  let persona_type := persona_type persona_context in
  let score :=
    if String.eqb persona_type "contractor"
       && any_in ["recipe"; "ingredients"; "cooking"] (lower c)
    then (score + 0.2)%float else score in
  let score :=
    if String.eqb persona_type "planner"
       && any_in ["activity"; "visit"; "explore"; "enjoy"] (lower c)
    then (score + 0.2)%float else score in
  let score :=
    if String.eqb persona_type "professional"
       && any_in ["form"; "process"; "step"; "create"] (lower c)
    then (score + 0.2)%float else score in
  PyFloat.min score 1.

Definition _calculate_structural_scores (sections : list section)
           (persona_context : profile) : list float :=
  map (structural_score persona_context) sections.

(** [if cond: boosted_score *= factor] *)
Definition boost_if (cond : bool) (factor : float) (score : float) : float :=
  if cond then (score * factor)%float else score.

(** The branch on [persona_type]. *)
Definition persona_boost (persona_context : profile) (c : string)
           (score : float) : float :=
  let persona_type := persona_type persona_context in
  if String.eqb persona_type "contractor" then
    let score :=
      boost_if (any_in ["recipe"; "ingredients"; "cooking"; "preparation"] c)
               1.3 score in
    fold_left
      (fun score req => boost_if (contains (lower req) c) 1.2 score)
      (dietary (reqs persona_context)) score
  else if String.eqb persona_type "planner" then
    let score :=
      boost_if (any_in ["activity"; "attraction"; "visit"; "explore";
                        "destination"] c) 1.3 score in
    boost_if (any_in ["group"; "friends"; "together"; "party"] c) 1.2 score
  else if String.eqb persona_type "professional" then
    let score :=
      boost_if (any_in ["form"; "process"; "procedure"; "workflow"; "step"] c)
               1.3 score in
    boost_if (any_in ["compliance"; "professional"; "business"; "corporate"] c)
             1.2 score
  else score.

(** The job-specific boosts, in the order of the source. *)
Definition job_boost (job_lower c : string) (score : float) : float :=
  let score :=
    boost_if (contains "buffet" job_lower && contains "buffet" c) 1.3 score in
  let score :=
    boost_if (contains "vegetarian" job_lower && contains "vegetarian" c)
             1.3 score in
  let score :=
    boost_if (contains "college" job_lower
              && any_in ["budget"; "affordable"; "cheap"; "student"] c)
             1.2 score in
  boost_if (contains "corporate" job_lower
            && any_in ["professional"; "business"; "corporate"] c)
           1.2 score.

Definition title_overlap (s : section) (persona_context : profile) : nat :=
  let title_words : gset string := list_to_set (split_ws (lower (title s))) in
  let persona_words : gset string :=
    list_to_set (domain_keywords persona_context) in
  size (title_words ∩ lower_set (elements persona_words)).

Definition title_boost (s : section) (persona_context : profile)
           (score : float) : float :=
  let overlap := title_overlap s persona_context in
  if 0 <? overlap
  then (score * (1 + PyFloat.of_nat overlap * 0.1))%float
  else score.

Definition _apply_persona_boosting (s : section) (base_score : float)
           (persona_context : profile) (job_task : string) : float :=
  let boosted_score := base_score in
  let c := lower (content s) in
  let boosted_score := persona_boost persona_context c boosted_score in
  let boosted_score := job_boost (lower job_task) c boosted_score in
  let boosted_score := title_boost s persona_context boosted_score in
  PyFloat.min boosted_score 2.

Definition with_score (s : section) (score : float) : section :=
  mk_section (document s) (title s) (content s) (page_number s) (type s)
             (Some score).

(** The similarity signals of the ranker.  A computation of the ranker
    returns its value with the signals that were computed, in order. *)
Inductive signal : Type := semantic | tfidf | keyword | structural.

Definition traced (A : Type) : Type := (A * list signal)%type.

Definition ret {A : Type} (a : A) : traced A := (a, []).

Definition bind {A B : Type} (m : traced A) (k : A -> traced B) : traced B :=
  let '(b, later) := k (fst m) in (b, (snd m ++ later)%list).

(** The value [v] of the signal [sig], recorded as computed. *)
Definition computing {A : Type} (sig : signal) (v : A) : traced A :=
  (v, [sig]).

Notation "x <- m ;; k" := (bind m (fun x => k))
  (at level 100, m at next level, right associativity).

Section Collaborators.
(** The text-embedding collaborator: [None] when the model could not be
    loaded; otherwise, from the query context and the section texts,
    the cosine similarity of each section text by its index, or [None]
    when the computation raises. *)
Variable sentence_model :
  option (string -> list string -> option (nat -> float)).

(** The lexical-statistics collaborator (TF-IDF fitted on the query
    context and the section texts, then cosine similarity), in the same
    way. *)
Variable tfidf_vectorizer : string -> list string -> option (nat -> float).

Definition tabulate (f : nat -> float) (sections : list section)
  : list float :=
  map f (seq 0 (length sections)).

Definition _calculate_semantic_similarity (sections : list section)
           (query_context : string) : list float :=
  match sentence_model with
  | None => neutral sections
  | Some encode =>
      match encode query_context (map content sections) with
      | Some similarities => tabulate similarities sections
      | None => neutral sections
      end
  end.

Definition _calculate_tfidf_similarity (sections : list section)
           (query_context : string) : list float :=
  match tfidf_vectorizer query_context (map content sections) with
  | Some similarities => tabulate similarities sections
  | None => neutral sections
  end.

(** The loop that combines and boosts the scores, after the four signals
    are computed: each section with its final score. *)
Definition final_scores (sections : list section)
           (persona_context : profile) (job_task : string)
  : traced (list (section * float)) :=
  let query_context := _create_query_context persona_context job_task in
  semantic_scores <-
    computing semantic
      (_calculate_semantic_similarity sections query_context) ;;
  tfidf_scores <-
    computing tfidf (_calculate_tfidf_similarity sections query_context) ;;
  keyword_scores <-
    computing keyword
      (_calculate_keyword_similarity sections persona_context) ;;
  structural_scores <-
    computing structural
      (_calculate_structural_scores sections persona_context) ;;
  ret
    (imap
       (fun i s =>
          let combined_score :=
            (at_index semantic_scores i * w_semantic
             + at_index tfidf_scores i * w_tfidf
             + at_index keyword_scores i * w_keyword
             + at_index structural_scores i * w_structural)%float in
          let boosted_score :=
            _apply_persona_boosting s combined_score persona_context
                                    job_task in
          (with_score s boosted_score, boosted_score))
       sections).

(** [rank_sections]: the ranked sections, and the signals computed on the
    way. *)
Definition rank_sections (sections : list section)
           (persona_context : profile) (job_task : string)
  : traced (list section) :=
  match sections with
  | [] => ret []
  | _ =>
      scored <- final_scores sections persona_context job_task ;;
      ret (map fst (PySort.sort_desc snd scored))
  end.
End Collaborators.

End RelevanceRanker.

(* ------------------------------------------------------------------ *)
(** ** main.py: the pipeline *)

Module Main.
Import PyStr.




Section Collection.
(** The collaborators of the ranker. *)
Variable sentence_model :
  option (string -> list string -> option (nat -> float)).
Variable tfidf_vectorizer : string -> list string -> option (nat -> float).

(** The directory of the PDF files, by file name: [None] when the path
    does not exist; otherwise what [fitz.open] gives for it, as for
    [extract_text_and_structure]. *)
Variable pdf_dir : string -> option (option (list DocumentProcessor.fitz_page)).


End Collection.

End Main.

(* ------------------------------------------------------------------ *)
(** * Vocabulary of the properties

    The predicates the statements below are written with, and the sample
    inputs they are evaluated on. *)

Module Spec.
Import PyStr SectionExtractor PersonaAnalyzer RelevanceRanker.

(** ** Scores of ranked sections *)

(** The score a ranked section carries is not above 2.0. *)
Definition score_capped (s : section) : Prop :=
  exists x, relevance_score s = Some x /\ PyFloat.gt x 2 = false.

(** ** Content-type weights *)

(** Sum of the four content-type weights, as [sum(weights.values())]. *)
Definition weight_sum (w : weights) : float := PyFloat.sum (values w).

(** Distance to 1.0 at most [1e-15]. *)
Definition near_one (x : float) : bool :=
  PrimFloat.leb (PrimFloat.abs (x - 1)%float) 1e-15%float.

(** The two weights the subsection score adds are numbers not below zero. *)
Definition weights_nonneg (w : weights) : Prop :=
  PrimFloat.leb 0 (instructional w) = true
  /\ PrimFloat.leb 0 (descriptive w) = true.

(** ** The validity invariant *)

(** What the extractor guarantees of the content of a section: between 50
    and 2000 characters, and at least three distinct words for every ten
    words. *)
Definition within_invariant (c : string) : Prop :=
  50 <= len c /\ len c <= 2000
  /\ 3 * length (split_ws c) <= 10 * distinct (split_ws c).

Definition valid (s : section) : Prop := _is_valid_section (content s) = true.

(** The integers [start, start + 1, ...], [count] of them. *)
Fixpoint zseq (start : Z) (count : nat) : list Z :=
  match count with
  | 0 => []
  | S k => start :: zseq (start + 1) k
  end.

Definition float_of_Z (z : Z) : float :=
  PrimFloat.of_uint63 (Uint63.of_Z z).

(** The test [distinct < total * 0.3] of the source, on integers. *)
Definition too_repetitive (d n : Z) : bool :=
  PrimFloat.ltb (float_of_Z d) (float_of_Z n * 0.3)%float.

(** For a total [n] and a count [d], the binary64 test agrees with the
    exact comparison of [10 * d] with [3 * n]. *)
Definition ratio_cell (n d : Z) : bool :=
  Bool.eqb (too_repetitive d n) (10 * d <? 3 * n)%Z.

Definition ratio_row (n : Z) : bool :=
  forallb (ratio_cell n) (zseq 0 (S (Z.to_nat n))).

(** No valid content has more words than characters, hence more than 2000
    words. *)
Definition max_total : nat := 2000.

(** ** Content of an explicit section *)

(** The lines that are appended: stripped, blank ones left out. *)
Definition kept (lines : list string) : list string :=
  List.filter (fun l => negb (is_empty l)) (map strip lines).

(** The accumulated lines after a line that does not end the section. *)
Definition after_line (acc : list string) (l : string) : list string :=
  if is_empty (strip l) then acc else (acc ++ [strip l])%list.

(** No line of [pre] ends the accumulation started with [acc]: a
    header-like line of [pre] comes when at most 3 lines are accumulated. *)
Definition no_stop_in (acc pre : list string) : Prop :=
  forall p1 l p2,
    pre = (p1 ++ l :: p2)%list ->
    _looks_like_header (strip l) = true ->
    length (acc ++ kept p1)%list <= 3.

(** ** Implicit sections *)

(** The first line of the paragraph does not look like a header. *)
Definition plain (paragraph : string) : Prop :=
  _looks_like_header (first_line_of paragraph) = false.

(** The group that a header-like paragraph opens: what follows its first
    line, if anything does. *)
Definition opened_group (paragraph : string) : list string :=
  let first_line := first_line_of paragraph in
  if len first_line <? len paragraph
  then [strip (drop (len first_line) paragraph)]
  else [].

(** What the flush of a group under the title [t] gives: one section, when
    the group is not empty and its joined text is valid. *)
Definition section_of_group (filename : string) (page_number : nat)
           (t : string) (group : list string) : list section :=
  match group with
  | [] => []
  | _ =>
      if _is_valid_section (join " " group)
      then [implicit_section filename t (join " " group) page_number]
      else []
  end.

(** The paragraph arrives while the group [group] is accumulated and opens
    a new group: its first line looks like a header and [group] is not
    empty ([len(current_section) > 0]). *)
Definition opens (group : list string) (paragraph : string) : bool :=
  _looks_like_header (first_line_of paragraph) && (0 <? length group).

(** No paragraph of [ps] opens a group when they arrive in turn while
    [group] is accumulated: each of them is appended to it. *)
Fixpoint appended (group : list string) (ps : list string) : bool :=
  match ps with
  | [] => true
  | p :: rest => negb (opens group p) && appended (group ++ [p])%list rest
  end.

(** What the flush of a group gives under the title it has, if it has
    one. *)
Definition titled_group (filename : string) (page_number : nat)
           (t : option string) (group : list string) : list section :=
  match t with
  | Some t =>
      if is_empty t then []
      else section_of_group filename page_number t group
  | None => []
  end.

(** The state of the loop over the paragraphs of a page after the
    paragraphs [ps]. *)
Definition state_after_paragraphs (filename : string) (page_number : nat)
           (ps : list string) : implicit_state :=
  fold_left (implicit_step filename page_number) ps (mk_state [] [] None).

(** ** Order of binary64 scores *)

(** Zero (of either sign), a positive finite number or [+inf]. *)
Definition sf_nonneg (f : spec_float) : Prop :=
  match f with
  | S754_zero _ => True
  | S754_finite false _ _ => True
  | S754_infinity false => True
  | _ => False
  end.

Definition nonneg (x : float) : Prop := sf_nonneg (Prim2SF x).

Definition is_number (f : spec_float) : Prop := f <> S754_nan.

(** Position of a number that is not NaN in the order of [SFcompare]:
    class, then exponent, then mantissa. *)
Definition rank (f : spec_float) : Z * Z * Z :=
  match f with
  | S754_zero _ => (0, 0, 0)%Z
  | S754_infinity true => (-2, 0, 0)%Z
  | S754_infinity false => (2, 0, 0)%Z
  | S754_nan => (0, 0, 0)%Z
  | S754_finite true m e => (-1, - e, Z.neg m)%Z
  | S754_finite false m e => (1, e, Z.pos m)%Z
  end.

Definition lex3 (a b : Z * Z * Z) : comparison :=
  let '(a1, a2, a3) := a in
  let '(b1, b2, b3) := b in
  match (a1 ?= b1)%Z with
  | Eq => match (a2 ?= b2)%Z with Eq => (a3 ?= b3)%Z | c => c end
  | c => c
  end.

Definition lexlt (a b : Z * Z * Z) : Prop :=
  let '(a1, a2, a3) := a in
  let '(b1, b2, b3) := b in
  (a1 < b1 \/ (a1 = b1 /\ (a2 < b2 \/ (a2 = b2 /\ a3 < b3))))%Z.

(** [a >= b] on floats. *)
Definition float_ge (a b : float) : Prop := PrimFloat.leb b a = true.

Definition key_ge {A : Type} (key : A -> float) (a b : A) : Prop :=
  float_ge (key a) (key b).

(** [a] is arranged before [b] by a stable descending sort: the key of [a]
    is not lower, and at equal keys [a] has the lower index. *)
Definition arranged {A : Type} (key : A -> float) (idx : A -> nat)
           (a b : A) : Prop :=
  key_ge key a b /\ (key_ge key b a -> idx a < idx b).

(** Order of the result: by score, descending, and by position among the
    candidates at equal scores. *)
Definition before (a b : subsection) : Prop :=
  arranged sub_relevance_score subsection_index a b.

Definition earlier (a b : subsection) : Prop :=
  subsection_index a < subsection_index b.

(** [out] is the head of the arrangement of the candidates [scored] in
    descending order of score, candidates of equal score in their order. *)
Definition top_of (out scored : list subsection) : Prop :=
  exists rest : list subsection,
    (out ++ rest)%list ≡ₚ scored
    /\ StronglySorted before (out ++ rest)%list.

(** ** Sample inputs *)

Definition scenario_persona : string := "Food Contractor".

Definition scenario_job : string :=
  "Prepare a vegetarian buffet menu for a corporate event of 50 people".

(** A profile that says nothing. *)
Definition blank_profile : profile :=
  mk_profile EmptyString EmptyString EmptyString [] []
             (mk_requirements [] None None []) []
             (mk_weights 0 0 0 0).

(** The profile that [create_persona_profile] returns for the scenario. *)
Definition scenario_profile : profile :=
  match create_persona_profile scenario_persona scenario_job with
  | Some p => p
  | None => blank_profile
  end.

Definition scenario_section : section :=
  mk_section "menu.pdf" "Buffet Ideas"
    "A vegetarian buffet for corporate lunches" 3 explicit None.

Definition recipes_page : string :=
  join nl ["Recipes"; "chop onions"; "heat oil"; "add rice"; "COOKING TIME";
           "ten minutes"; "SERVING"; "serve warm"].

Definition shouting_line : string := "HELLO WORLD 2024".

Definition titled_line : string := "Chapter 2 Of The Book".

Definition museum_paragraph : string :=
  "the museum opens at nine and closes at five, tickets are sold at the gate and online".

Definition garden_paragraph : string :=
  "the garden opens at ten and closes at six, entry is free for children under twelve".

Definition museum_page : string :=
  museum_paragraph ++ nl ++ nl ++ "Opening hours" ++ nl ++ garden_paragraph.

Definition boats_paragraph : string :=
  "boats are rented by the hour at the pier, life jackets are included in the price".

(** A page with two paragraphs that open a group. *)
Definition harbour_page : string :=
  museum_page ++ nl ++ nl ++ "Boat rental" ++ nl ++ boats_paragraph.

(** A document of one page that holds one paragraph and no header. *)
Definition museum_doc : doc_content :=
  mk_doc 1 [mk_page 1 museum_paragraph []] museum_paragraph.

(** Three sections: the second repeats the first up to case and white
    space, the third differs from it by one word. *)
Definition hours_sections : list section :=
  [ mk_section "a.pdf" "Hours" "Open  daily from nine" 1 explicit None;
    mk_section "b.pdf" "Hours" " open daily FROM nine " 2 implicit None;
    mk_section "c.pdf" "Hours" "Open daily from ten" 3 explicit None ].

Definition menu_content : string :=
  "Menu ideas for the event" ++ nl ++
  "1. Roasted vegetable platter with hummus and warm flat bread, a vegetarian starter that includes seasonal produce." ++ nl ++
  "2. Buffet salad bar: follow the steps on the card to arrange the ingredients in bowls, and keep dressings apart." ++ nl ++
  "3. Fruit skewers and small pastries for dessert, served on trays near the coffee station by the main door." ++ nl ++
  "4. Sparkling water, juices and tea, placed on a separate table so that the line at the dishes stays short.".

Definition menu_section : section :=
  mk_section "menu.pdf" "Menu ideas" menu_content 4 explicit None.

End Spec.

(** ** Texts *)

Module SpecText.
Import PyStr.

(** Every character of the text satisfies [p]. *)
Fixpoint all_chars (p : ascii -> bool) (s : string) : bool :=
  match s with
  | EmptyString => true
  | String c s' => p c && all_chars p s'
  end.

Definition not_digit (c : ascii) : bool := negb (is_digit c).

(** The text is empty or starts with a character outside [p]. *)
Definition stops (p : ascii -> bool) (s : string) : bool :=
  match s with
  | EmptyString => true
  | String c _ => negb (p c)
  end.

Definition not_newline (c : ascii) : bool :=
  negb (Ascii.eqb (ascii_of_nat 10) c).

(** The text holds no line break. *)
Definition one_line (s : string) : Prop := all_chars not_newline s = true.

End SpecText.

(** ** Persona profiles *)

Module SpecPersona.
Import PyStr.

(** The persona types of the profiler: the keys of [persona_keywords]. *)
Definition persona_types : list string :=
  ["researcher"; "student"; "analyst"; "manager"; "planner"; "contractor";
   "professional"].

(** The action categories: the keys of [job_action_words]. *)
Definition action_types : list string :=
  ["create"; "analyze"; "plan"; "manage"; "prepare"].

Definition size_units : list string :=
  ["people"; "person"; "friend"; "guest"; "individual"].

Definition duration_units : list string := ["day"; "week"; "hour"; "month"].

(** A weight strictly between 0 and 1. *)
Definition proper_weight (x : float) : bool :=
  PrimFloat.ltb 0 x && PrimFloat.ltb x 1.

End SpecPersona.

(** ** Sections of a document *)

Module SpecSections.
Import PyStr SectionExtractor Spec.

(** The quality score of [a] is not below that of [b]. *)
Definition not_worse (a b : section) : Prop :=
  float_ge (quality_score a) (quality_score b).

(** Where a section of the page [p] of the file [f] comes from: an
    explicit one from a header candidate of the page, with the content
    found for its title; an implicit one from a paragraph of the page whose
    first line, which looks like a header, is its title. *)
Definition from_page (f : string) (p : page) (s : section) : Prop :=
  document s = f /\ page_number s = p_page_number p
  /\ relevance_score s = None
  /\ match type s with
     | explicit =>
         exists h,
           In h (p_sections p) /\ title s = h_title h
           /\ content s
              = _extract_section_content (p_text p) (h_title h)
                  (p_page_number p)
     | implicit =>
         exists paragraph,
           In paragraph (paragraphs_of (p_text p))
           /\ title s = first_line_of paragraph
           /\ _looks_like_header (title s) = true
     end.

(** Strategy 3 and the last resort of the splitter: groups of sentences
    when there are more than ten sentences, the whole content otherwise. *)
Definition by_sentences (c : string) : list string :=
  let sentences := Re.split sentence_pattern c in
  if 10 <? length sentences then group_sentences [] sentences else [c].

(** A group of sentences that is closed before the sentences run out. *)
Definition long_group (g : string) : Prop := 200 < len g.

End SpecSections.

(** ** Ranked sections *)

Module SpecRanking.
Import Spec.

(** A section without the score the ranker adds. *)
Definition unscored (s : section) : section :=
  mk_section (document s) (title s) (content s) (page_number s) (type s)
             None.

(** The score a ranked section carries. *)
Definition score_of (s : section) : float :=
  match relevance_score s with
  | Some x => x
  | None => 0%float
  end.

(** The score of [a] is not below that of [b]. *)
Definition by_score (a b : section) : Prop :=
  float_ge (score_of a) (score_of b).

(** A score that is not NaN, and can therefore be compared. *)
Definition comparable (x : float) : Prop := is_number (Prim2SF x).

(** A score between 0 and 1. *)
Definition unit_score (x : float) : Prop :=
  PrimFloat.leb 0 x = true /\ PrimFloat.leb x 1 = true.

(** Two sections to rank. *)
Definition sample_sections : list section :=
  [ mk_section "a.pdf" "Hours" "Open daily from nine" 1 explicit None;
    mk_section "b.pdf" "Menu" "A vegetarian buffet: recipe and steps" 2
      implicit None ].

End SpecRanking.

(** ** Documents as the processor reads them *)

Module SpecDocument.
Import PyStr DocumentProcessor SpecText.

(** The lines of the text blocks of a page, in order. *)
Definition lines_of (p : fitz_page) : list text_line :=
  flat_map (fun b : block => match b with Some ls => ls | None => [] end) p.

(** The stripped texts of the lines of a page that are not blank. *)
Definition page_lines (p : fitz_page) : list string :=
  List.filter (fun t => negb (is_empty t))
              (map (fun l => strip (line_text_of l)) (lines_of p)).

(** The header candidates among the lines of a page. *)
Definition page_headers (page_num : nat) (p : fitz_page) : list header :=
  flat_map
    (fun l =>
       let t := strip (line_text_of l) in
       if negb (is_empty t) && _is_section_header t
       then [mk_header t (bbox l) (page_num + 1)]
       else [])
    (lines_of p).

(** Lines of text, each ended by a line break. *)
Definition unlines (ls : list string) : string :=
  fold_right (fun l acc => l ++ nl ++ acc) EmptyString ls.

(** The state of the loops over the blocks and the lines of a page after
    the lines [seen]: the text and the header candidates so far. *)
Definition state_after (page_num : nat) (seen : list text_line)
  : string * list header :=
  (unlines (List.filter (fun t => negb (is_empty t))
              (map (fun l => strip (line_text_of l)) seen)),
   flat_map
     (fun l =>
        let t := strip (line_text_of l) in
        if negb (is_empty t) && _is_section_header t
        then [mk_header t (bbox l) (page_num + 1)]
        else [])
     seen).

(** No span of the document holds a line break. *)
Definition one_line_spans (doc : list fitz_page) : Prop :=
  Forall (fun p => Forall (fun l => Forall one_line (spans l)) (lines_of p))
         doc.

(** A page of two lines, the first a header candidate. *)
Definition sample_fitz_page : fitz_page :=
  [ Some [mk_text_line ["Opening "; "Hours"] [0; 0; 10; 10]%float];
    None;
    Some [mk_text_line ["  the museum opens at nine "] [0; 20; 10; 30]%float;
          mk_text_line ["   "] [0; 40; 10; 50]%float] ].

End SpecDocument.

(** ** Chunks of a text *)

Module SpecChunks.
Import PyStr DocumentProcessor.

(** A chunk cut from the text: it starts inside the text, spans at least
    one and at most [chunk_size + 1] positions, holds the stripped text
    between its positions, which is not empty, and records the length of
    that text. *)
Definition well_cut (text : string) (chunk_size : Z) (c : chunk) : Prop :=
  (0 <= start_pos c < Z.of_nat (len text))%Z
  /\ (start_pos c < end_pos c <= start_pos c + chunk_size + 1)%Z
  /\ chunk_str c = strip (slice text (start_pos c) (end_pos c))
  /\ chunk_str c <> EmptyString
  /\ chunk_len c = len (chunk_str c).

Definition starts_before (a b : chunk) : Prop :=
  (start_pos a < start_pos b)%Z.

(** Every character before [bound] that is not white space lies between
    the positions of a chunk. *)
Definition covered_to (text : string) (chunks : list chunk) (bound : Z)
  : Prop :=
  forall (j : nat) (c : ascii),
    (Z.of_nat j < bound)%Z ->
    String.get j text = Some c -> is_space c = false ->
    exists ch,
      In ch chunks /\ (start_pos ch <= Z.of_nat j < end_pos ch)%Z.

(** Invariant of the loop of [chunk_text] at a round that starts at
    [start], when the previous round ended at [reached]. *)
Definition loop_inv (text : string) (chunk_size : Z) (start reached : Z)
           (chunks : list chunk) : Prop :=
  (0 <= start <= reached)%Z
  /\ Forall (well_cut text chunk_size) chunks
  /\ Forall (fun c => (start_pos c < start)%Z) chunks
  /\ StronglySorted starts_before chunks
  /\ covered_to text chunks reached.

(** The chunks after a round from [start] to [end_]. *)
Definition with_window (text : string) (start end_ : Z)
           (chunks : list chunk) : list chunk :=
  if negb (is_empty (strip (slice text start end_)))
  then (chunks ++ [mk_chunk (strip (slice text start end_)) start end_
                     (len (strip (slice text start end_)))])%list
  else chunks.

Definition sample_text : string :=
  "The museum opens at nine. Tickets are sold at the gate!   ".

End SpecChunks.

(** ** The pipeline *)

Module SpecPipeline.
Import PyStr DocumentProcessor.




End SpecPipeline.

(* ------------------------------------------------------------------ *)
(** * Properties *)

(** ** Sorting keeps the elements *)

Module SortFacts.
Import PySort.
Section Facts.
Context {A : Type} (key : A -> float).

Lemma insert_desc_perm (x : A) (l : list A) :
  insert_desc key x l ≡ₚ x :: l.
Proof.
  induction l as [|y l IH]; simpl; [done|].
  destruct (PrimFloat.ltb (key x) (key y)); [|done].
  rewrite IH. apply Permutation_swap.
Qed.

Lemma sort_desc_perm (l : list A) : sort_desc key l ≡ₚ l.
Proof.
  induction l as [|x l IH]; simpl; [done|].
  rewrite insert_desc_perm. by rewrite IH.
Qed.

Lemma sort_desc_Forall (P : A -> Prop) (l : list A) :
  Forall P l -> Forall P (sort_desc key l).
Proof. intros H. by rewrite sort_desc_perm. Qed.

End Facts.
End SortFacts.

(** ** The relevance ranker *)

Module RankerFacts.
Import RelevanceRanker.
Import Spec.

(** [min(x, 2.0)] is never above 2.0, whatever [x] is (NaN included). *)
Lemma min_cap_not_above (x : float) :
  PyFloat.gt (PyFloat.min x 2) 2 = false.
Proof.
  unfold PyFloat.gt, PyFloat.min.
  destruct (PrimFloat.ltb 2 x) eqn:E; [reflexivity | exact E].
Qed.

Lemma boosting_not_above (s : section) (base : float) (p : profile)
      (job : string) :
  PyFloat.gt (_apply_persona_boosting s base p job) 2 = false.
Proof. unfold _apply_persona_boosting. apply min_cap_not_above. Qed.

Lemma final_scores_capped sm tf (l : list section) (p : profile)
      (job : string) :
  Forall (fun sx => score_capped (fst sx))
         (fst (final_scores sm tf l p job)).
Proof.
  unfold final_scores. simpl.
  apply Forall_forall. intros [s x] Hin.
  apply elem_of_lookup_imap in Hin.
  destruct Hin as (i & s0 & Heq & _).
  injection Heq as -> ->. simpl.
  eexists. split; [reflexivity|]. apply boosting_not_above.
Qed.

(** C1. Score cap: the boosted score of a section is never above 2.0,
    whatever the base score and whatever boosts apply, and every section
    returned by [rank_sections] carries such a score, for every persona
    profile, job task and behaviour of the two similarity collaborators. *)
Theorem C1_score_cap :
  (forall (s : section) (base : float) (p : profile) (job : string),
      PyFloat.gt (_apply_persona_boosting s base p job) 2 = false) /\
  (forall sm tf (sections : list section) (p : profile) (job : string),
      Forall score_capped (fst (rank_sections sm tf sections p job))).
Proof.
  split; [apply boosting_not_above|].
  intros sm tf sections p job. unfold rank_sections.
  destruct sections as [|s0 l]; [constructor|].
  unfold bind, ret.
  pose proof (final_scores_capped sm tf (s0 :: l) p job) as H.
  destruct (final_scores sm tf (s0 :: l) p job) as [scored sigs].
  simpl in *.
  apply Forall_map.
  by apply SortFacts.sort_desc_Forall.
Qed.

(** On a list that is not empty the four signals are computed. *)
Lemma rank_sections_signals sm tf (s0 : section) (l : list section)
      (p : profile) (job : string) :
  snd (rank_sections sm tf (s0 :: l) p job)
  = [semantic; tfidf; keyword; structural].
Proof. reflexivity. Qed.

(** C10. On an empty list of sections [rank_sections] returns the empty
    list at once, for every persona profile and job task: no similarity
    signal is computed, and the result does not depend on the
    collaborators, which are not consulted and cannot make the call
    fail. *)
Theorem C10_rank_sections_empty :
  forall sm tf (p : profile) (job : string),
    rank_sections sm tf [] p job = ([], []).
Proof. reflexivity. Qed.

End RankerFacts.

(** ** The persona profiler *)

Module ProfilerFacts.
Import PersonaAnalyzer PyStr.
Import Spec.

(** C6. Persona weight normalization: for every persona type and every
    list of job actions the four content-type weights computed by
    [_calculate_context_weights] sum to 1.0 up to [1e-15] in binary64
    arithmetic; the same holds when the interpreter's [sum] is the
    compensated one, both in the normalization and in the check. *)
Theorem C6_weights_sum_to_one :
  forall (persona_type : string) (job_actions : list string),
    near_one (weight_sum (_calculate_context_weights persona_type job_actions))
    = true
    /\ near_one
         (PyFloat.sum_compensated
            (values (normalize PyFloat.sum_compensated
                       (adjusted_weights persona_type job_actions))))
       = true.
Proof.
  intros pt acts.
  unfold _calculate_context_weights, weight_sum, adjusted_weights.
  generalize (mem pt ["student"; "researcher"]),
             (mem pt ["planner"; "contractor"]),
             (mem "create" acts), (mem "prepare" acts),
             (mem "analyze" acts), (mem "plan" acts).
  intros [] [] [] [] [] []; split; vm_compute; reflexivity.
Qed.

(** The sum is not exactly 1.0 in every case: rounding shows. *)
Lemma weights_sum_rounding :
  weight_sum (_calculate_context_weights "student" ["create"])
  = 0.99999999999999978%float.
Proof. vm_compute. reflexivity. Qed.

End ProfilerFacts.

(** ** Deduplication *)

Module DedupFacts.
Import SectionExtractor.
Import Spec.

Lemma dedup_go_idem (seen : gset string) (l : list section) :
  dedup_go seen (dedup_go seen l) = dedup_go seen l.
Proof.
  revert seen. induction l as [|s l IH]; intros seen; simpl; [done|].
  case_bool_decide as Hin; [apply IH|].
  simpl. rewrite bool_decide_eq_false_2 by done.
  f_equal. apply IH.
Qed.

Lemma dedup_go_fresh (seen : gset string) (l : list section) :
  Forall (fun s => normalized s ∉ seen) (dedup_go seen l).
Proof.
  revert seen. induction l as [|s l IH]; intros seen; simpl; [constructor|].
  case_bool_decide as Hin; [apply IH|].
  constructor; [done|].
  eapply Forall_impl; [apply IH|]. simpl. set_solver.
Qed.

Lemma dedup_go_NoDup (seen : gset string) (l : list section) :
  NoDup (normalized <$> dedup_go seen l).
Proof.
  revert seen. induction l as [|s l IH]; intros seen; simpl; [constructor|].
  case_bool_decide as Hin; [apply IH|].
  rewrite fmap_cons. constructor; [|apply IH].
  intros Hel. apply list_elem_of_fmap in Hel as (s' & Heq & Hs').
  pose proof (dedup_go_fresh ({[normalized s]} ∪ seen) l) as HF.
  rewrite Forall_forall in HF. specialize (HF _ Hs'). set_solver.
Qed.

Lemma Forall_sublist {A} (P : A -> Prop) (l k : list A) :
  l `sublist_of` k -> Forall P k -> Forall P l.
Proof.
  induction 1 as [|x l k _ IH|x l k _ IH]; intros H; [done| |].
  - inversion H; subst. constructor; auto.
  - inversion H; subst. auto.
Qed.

Lemma dedup_go_sublist (seen : gset string) (l : list section) :
  dedup_go seen l `sublist_of` l.
Proof.
  revert seen. induction l as [|s l IH]; intros seen; simpl; [done|].
  case_bool_decide; [by apply sublist_cons | by apply sublist_skip].
Qed.

(** Contents equal up to case and white space count once, the first one
    staying; a near duplicate is kept. *)
Example dedup_hours :
  map document (_deduplicate_sections hours_sections) = ["a.pdf"; "c.pdf"].
Proof. vm_compute. reflexivity. Qed.

(** C9. Deduplication is idempotent: applying [_deduplicate_sections] to
    its own output gives that output again; the step keeps one section
    for each whitespace-normalized lowercase content, so no two sections
    of its output have the same normalized content. *)
Theorem C9_dedup_idempotent :
  forall sections : list section,
    _deduplicate_sections (_deduplicate_sections sections)
    = _deduplicate_sections sections
    /\ NoDup (normalized <$> _deduplicate_sections sections).
Proof.
  intros l. split; [apply dedup_go_idem | apply dedup_go_NoDup].
Qed.

End DedupFacts.

(** ** Substrings and lower case *)

Module StrFacts.
Import PyStr.

Lemma startswith_lower (p s : string) :
  startswith p s = true -> startswith (lower p) (lower s) = true.
Proof.
  revert s. induction p as [|a p IH]; intros [|b s]; simpl; try done.
  rewrite !andb_true_iff. intros [Hab Hps].
  apply Ascii.eqb_eq in Hab as ->.
  split; [apply Ascii.eqb_refl | by apply IH].
Qed.

Lemma contains_lower (p s : string) :
  contains p s = true -> contains (lower p) (lower s) = true.
Proof.
  induction s as [|c s IH]; simpl.
  - rewrite !orb_false_r. apply (startswith_lower p EmptyString).
  - rewrite !orb_true_iff. intros [H|H].
    + left. apply (startswith_lower p (String c s) H).
    + right. by apply IH.
Qed.

Lemma len_lstrip (s : string) : len (lstrip s) <= len s.
Proof.
  induction s as [|c s IH]; simpl; [done|].
  destruct (is_space c); simpl; unfold len in *; lia.
Qed.

Lemma len_rstrip (s : string) : len (rstrip s) <= len s.
Proof.
  induction s as [|c s IH]; simpl; [done|].
  destruct (is_space c && is_empty (rstrip s)); simpl; unfold len in *;
    simpl; lia.
Qed.

Lemma len_strip (s : string) : len (strip s) <= len s.
Proof.
  unfold strip. etrans; [apply len_rstrip | apply len_lstrip].
Qed.

End StrFacts.

(** ** The buffet scenario *)

Module ScenarioFacts.
Import PersonaAnalyzer RelevanceRanker PyStr.
Import Spec.

(** C8. For persona "Food Contractor" and the buffet job,
    [create_persona_profile] returns a profile; the profile has
    persona type "contractor", its dietary requirements include
    "vegetarian" and its size is 50; and for a section whose content
    contains the words "vegetarian" and "buffet" the job-specific boosts
    multiply the score by 1.3 for "buffet" and again by 1.3 for
    "vegetarian" (then by the boost for corporate wording, if it applies),
    before the title boost and the cap at 2.0. *)
Theorem C8_buffet_scenario :
  create_persona_profile scenario_persona scenario_job
  = Some scenario_profile
  /\ persona_type scenario_profile = "contractor"
  /\ In "vegetarian" (dietary (reqs scenario_profile))
  /\ req_size (reqs scenario_profile) = Some 50%N
  /\ forall (s : section) (base : float),
      contains "vegetarian" (content s) = true ->
      contains "buffet" (content s) = true ->
      let c := lower (content s) in
      (forall x : float,
          job_boost (lower scenario_job) c x
          = boost_if (any_in ["professional"; "business"; "corporate"] c)
                     1.2 ((x * 1.3) * 1.3)%float)
      /\ _apply_persona_boosting s base scenario_profile scenario_job
         = PyFloat.min
             (title_boost s scenario_profile
                (boost_if (any_in ["professional"; "business"; "corporate"] c)
                   1.2
                   ((persona_boost scenario_profile c base * 1.3) * 1.3)%float))
             2.
Proof.
  split; [vm_compute; reflexivity|].
  split; [vm_compute; reflexivity|].
  split; [vm_compute; auto|].
  split; [vm_compute; reflexivity|].
  intros s base Hv Hb c.
  apply StrFacts.contains_lower in Hv, Hb.
  change (lower "vegetarian") with "vegetarian" in Hv.
  change (lower "buffet") with "buffet" in Hb.
  fold c in Hv, Hb.
  assert (Hjob : forall x : float,
             job_boost (lower scenario_job) c x
             = boost_if (any_in ["professional"; "business"; "corporate"] c)
                        1.2 ((x * 1.3) * 1.3)%float).
  { intros x. unfold job_boost.
    replace (contains "buffet" (lower scenario_job)) with true
      by (vm_compute; reflexivity).
    replace (contains "vegetarian" (lower scenario_job)) with true
      by (vm_compute; reflexivity).
    replace (contains "college" (lower scenario_job)) with false
      by (vm_compute; reflexivity).
    replace (contains "corporate" (lower scenario_job)) with true
      by (vm_compute; reflexivity).
    rewrite Hv, Hb. reflexivity. }
  split; [exact Hjob|].
  unfold _apply_persona_boosting. fold c. rewrite Hjob. reflexivity.
Qed.

Lemma C8_buffet_scenario_witness :
  contains "vegetarian" (content scenario_section) = true
  /\ contains "buffet" (content scenario_section) = true
  /\ _apply_persona_boosting scenario_section 0.5 scenario_profile
       scenario_job
     = PyFloat.min
         (title_boost scenario_section scenario_profile
            (boost_if
               (any_in ["professional"; "business"; "corporate"]
                  (lower (content scenario_section)))
               1.2
               ((persona_boost scenario_profile
                   (lower (content scenario_section)) 0.5 * 1.3) * 1.3)%float))
         2.
Proof.
  split; [vm_compute; reflexivity|].
  split; [vm_compute; reflexivity|].
  apply (proj2 (proj2 (proj2 (proj2 (proj2 C8_buffet_scenario)))
                  scenario_section 0.5%float eq_refl eq_refl)).
Defined.

End ScenarioFacts.

(** ** The validity invariant of sections *)

Module ValidFacts.
Import SectionExtractor PyStr.
Import Spec.

Lemma distinct_le_length (l : list string) : distinct l <= length l.
Proof.
  unfold distinct, size, set_size. simpl.
  apply submseteq_length, NoDup_submseteq; [apply NoDup_elements|].
  intros x Hx. by apply elem_of_elements, elem_of_list_to_set in Hx.
Qed.

Lemma length_split_ws_go (cur s : string) :
  length (split_ws_go cur s) <= len s + (if is_empty cur then 0 else 1).
Proof.
  revert cur. induction s as [|c s IH]; intros cur; simpl.
  - destruct (is_empty cur); simpl; lia.
  - destruct (is_space c).
    + destruct (is_empty cur); simpl;
        specialize (IH EmptyString); simpl in IH; unfold len in *; lia.
    + specialize (IH (String c cur)). simpl in IH. unfold len in *.
      destruct (is_empty cur); lia.
Qed.

Lemma length_split_ws (s : string) : length (split_ws s) <= len s.
Proof.
  pose proof (length_split_ws_go EmptyString s) as H. simpl in H.
  unfold split_ws. lia.
Qed.

Lemma forallb_zseq (f : Z -> bool) (start : Z) (count : nat) :
  forallb f (zseq start count) = true ->
  forall z : Z, (start <= z < start + Z.of_nat count)%Z -> f z = true.
Proof.
  revert start. induction count as [|k IH]; intros start H z Hz.
  - lia.
  - simpl in H. apply andb_true_iff in H as [H1 H2].
    destruct (Z.eq_dec start z) as [<-|Hne]; [done|].
    apply (IH _ H2). lia.
Qed.

(** The agreement holds for every total up to 2000 and every count up to
    the total. *)
Lemma ratio_table_ok : forallb ratio_row (zseq 0 (S max_total)) = true.
Proof. vm_compute. reflexivity. Qed.

Lemma too_repetitive_exact (d n : nat) :
  d <= n -> n <= max_total ->
  PrimFloat.ltb (PyFloat.of_nat d) (PyFloat.of_nat n * 0.3)%float
  = (10 * d <? 3 * n).
Proof.
  intros Hd Hn.
  assert (Hrow : ratio_row (Z.of_nat n) = true).
  { apply (forallb_zseq ratio_row 0 (S max_total) ratio_table_ok). lia. }
  assert (Hcell : ratio_cell (Z.of_nat n) (Z.of_nat d) = true).
  { apply (forallb_zseq _ 0 _ Hrow). lia. }
  apply Bool.eqb_prop in Hcell.
  change (PrimFloat.ltb (PyFloat.of_nat d) (PyFloat.of_nat n * 0.3)%float)
    with (too_repetitive (Z.of_nat d) (Z.of_nat n)).
  rewrite Hcell.
  destruct (Z.ltb_spec (10 * Z.of_nat d) (3 * Z.of_nat n)),
           (Nat.ltb_spec (10 * d) (3 * n)); try reflexivity; lia.
Qed.

Lemma valid_within (c : string) :
  _is_valid_section c = true -> within_invariant c.
Proof.
  unfold _is_valid_section, within_invariant.
  destruct (is_empty c || (len (strip c) <? min_section_length)) eqn:E1;
    [done|].
  destruct (max_section_length <? len c) eqn:E2; [done|].
  apply orb_false_iff in E1 as [_ E1].
  apply Nat.ltb_ge in E1, E2.
  change min_section_length with 50 in E1.
  change max_section_length with max_total in E2.
  pose proof (StrFacts.len_strip c).
  rewrite too_repetitive_exact;
    [| apply distinct_le_length | pose proof (length_split_ws c); lia].
  unfold max_total in E2.
  destruct (Nat.ltb_spec (10 * distinct (split_ws c))
                         (3 * length (split_ws c))); [done|].
  intros _. lia.
Qed.

Lemma within_valid (c : string) :
  50 <= len (strip c) -> len c <= max_total ->
  3 * length (split_ws c) <= 10 * distinct (split_ws c) ->
  _is_valid_section c = true.
Proof.
  intros H1 H2 H3.
  unfold _is_valid_section.
  assert (is_empty c = false) as ->.
  { destruct c; [simpl in H1; lia | done]. }
  change min_section_length with 50.
  change max_section_length with max_total.
  rewrite (proj2 (Nat.ltb_ge _ _) H1), (proj2 (Nat.ltb_ge _ _) H2). simpl.
  rewrite too_repetitive_exact;
    [| apply distinct_le_length | pose proof (length_split_ws c); lia].
  by rewrite (proj2 (Nat.ltb_ge _ _) H3).
Qed.

Lemma flush_valid f pn t cur t_out :
  Forall valid (flush f pn t cur t_out).
Proof.
  unfold flush. destruct (titled_and_nonempty t cur); [|constructor].
  destruct (_is_valid_section (join " " cur)) eqn:E; [|constructor].
  by repeat constructor.
Qed.

Lemma implicit_fold_valid f pn (ps : list string) (st : implicit_state) :
  Forall valid (sections_out st) ->
  Forall valid (sections_out (fold_left (implicit_step f pn) ps st)).
Proof.
  revert st. induction ps as [|p ps IH]; intros st Hst; simpl; [done|].
  apply IH. unfold implicit_step.
  destruct (_looks_like_header (first_line_of p)
            && (0 <? length (current_section st))); simpl; [|done].
  apply Forall_app. split; [done | apply flush_valid].
Qed.

Lemma implicit_valid (text : string) (pn : nat) (f : string) :
  Forall valid (_extract_implicit_sections text pn f).
Proof.
  unfold _extract_implicit_sections.
  apply Forall_app. split; [|apply flush_valid].
  apply implicit_fold_valid. constructor.
Qed.

Lemma explicit_valid (f : string) (p : page) :
  Forall valid (explicit_sections f p).
Proof.
  unfold explicit_sections.
  apply Forall_flat_map, Forall_forall. intros h _.
  destruct (_is_valid_section _) eqn:E; [|constructor].
  by repeat constructor.
Qed.

Lemma extract_sections_valid (doc : doc_content) (f : string) :
  Forall valid (extract_sections doc f).
Proof.
  unfold extract_sections, _rank_sections_by_quality, _deduplicate_sections.
  apply SortFacts.sort_desc_Forall.
  eapply DedupFacts.Forall_sublist; [apply DedupFacts.dedup_go_sublist|].
  apply Forall_flat_map, Forall_forall. intros p _.
  apply Forall_app. split; [apply explicit_valid | apply implicit_valid].
Qed.

(** C2. Every section returned by [extract_sections], explicit or
    implicit, passes [_is_valid_section]: its content has between 50 and
    2000 characters and its distinct words are at least 0.3 of its words.
    A candidate that fails the test is therefore not in the result. *)
Theorem C2_sections_within_invariant :
  forall (doc : doc_content) (filename : string),
    Forall (fun s => valid s /\ within_invariant (content s))
           (extract_sections doc filename).
Proof.
  intros doc f.
  eapply Forall_impl; [apply extract_sections_valid|].
  intros s Hs. split; [done | by apply valid_within].
Qed.

End ValidFacts.

(** ** Content of an explicit section *)

Module ContentFacts.
Import SectionExtractor PyStr.
Import Spec.
Local Open Scope list_scope.

Lemma after_line_kept (acc : list string) (l : string) (pre : list string) :
  after_line acc l ++ kept pre = acc ++ kept (l :: pre).
Proof.
  unfold after_line, kept. simpl.
  destruct (is_empty (strip l)); simpl; [done|].
  by rewrite <- app_assoc.
Qed.

Lemma collect_stop (acc : list string) (l : string) (rest : list string) :
  _looks_like_header (strip l) = true -> 3 < length acc ->
  collect_content acc (l :: rest) = acc.
Proof.
  intros Hh Hn. simpl. rewrite Hh.
  by rewrite (proj2 (Nat.ltb_lt _ _) Hn).
Qed.

Lemma collect_append_few (acc : list string) (l : string)
      (rest : list string) :
  length acc <= 3 ->
  collect_content acc (l :: rest) = collect_content (after_line acc l) rest.
Proof.
  intros Hn. simpl.
  rewrite (proj2 (Nat.ltb_ge _ _) Hn), andb_false_r. reflexivity.
Qed.

Lemma collect_append_plain (acc : list string) (l : string)
      (rest : list string) :
  _looks_like_header (strip l) = false ->
  collect_content acc (l :: rest) = collect_content (after_line acc l) rest.
Proof. intros Hh. simpl. rewrite Hh. reflexivity. Qed.

Lemma collect_through (pre : list string) :
  forall acc rest,
    no_stop_in acc pre ->
    collect_content acc (pre ++ rest)
    = collect_content (acc ++ kept pre) rest.
Proof.
  induction pre as [|l pre IH]; intros acc rest Hns.
  - unfold kept. simpl. by rewrite app_nil_r.
  - change ((l :: pre) ++ rest) with (l :: (pre ++ rest)).
    assert (Hstep : collect_content acc (l :: pre ++ rest)
                    = collect_content (after_line acc l) (pre ++ rest)).
    { destruct (_looks_like_header (strip l)) eqn:Hh.
      - apply collect_append_few.
        specialize (Hns [] l pre eq_refl Hh).
        unfold kept in Hns. simpl in Hns. by rewrite app_nil_r in Hns.
      - by apply collect_append_plain. }
    rewrite Hstep, IH, after_line_kept; [done|].
    intros p1 l' p2 Heq Hh'.
    rewrite after_line_kept.
    apply (Hns (l :: p1) l' p2); [by rewrite Heq | done].
Qed.

(** A header-like line that arrives when exactly 3 content lines are
    accumulated does not end the section: it is appended, and the section
    ends at the next header-like line. *)
Lemma C4_counterexample :
  _looks_like_header "COOKING TIME" = true
  /\ collect_content ["chop onions"; "heat oil"; "add rice"]
       ["COOKING TIME"; "ten minutes"; "SERVING"; "serve warm"]
     = ["chop onions"; "heat oil"; "add rice"; "COOKING TIME"; "ten minutes"]
  /\ _extract_section_content recipes_page "Recipes" 1
     = "chop onions heat oil add rice COOKING TIME ten minutes".
Proof. vm_compute. auto. Qed.

(** C4 (amended). After the matched header line, the content is the
    non-blank stripped lines up to the first line that looks like a header
    and arrives when more than 3 content lines are accumulated, or up to
    the end of the page when there is no such line; a header-like line
    that arrives when 3 or fewer content lines are accumulated is appended
    as content. *)
Theorem C4_content_stops_after_more_than_three :
  (forall acc l rest,
      _looks_like_header (strip l) = true -> 3 < length acc ->
      collect_content acc (l :: rest) = acc)
  /\ (forall acc l rest,
      length acc <= 3 ->
      collect_content acc (l :: rest)
      = collect_content (after_line acc l) rest)
  /\ (forall pre h post,
      no_stop_in [] pre ->
      _looks_like_header (strip h) = true -> 3 < length (kept pre) ->
      collect_content [] (pre ++ h :: post) = kept pre)
  /\ (forall pre,
      no_stop_in [] pre -> collect_content [] pre = kept pre).
Proof.
  split; [exact collect_stop|].
  split; [exact collect_append_few|].
  split.
  - intros pre h post Hns Hh Hn.
    rewrite collect_through by done. simpl app.
    by apply collect_stop.
  - intros pre Hns.
    rewrite <- (app_nil_r pre) at 1.
    by rewrite collect_through.
Qed.

Lemma C4_content_stops_after_more_than_three_witness :
  _looks_like_header (strip "SERVING") = true
  /\ 3 < length ["a"; "b"; "c"; "d"]
  /\ collect_content ["a"; "b"; "c"; "d"] ["SERVING"; "e"]
     = ["a"; "b"; "c"; "d"].
Proof.
  split; [vm_compute; reflexivity|].
  split; [vm_compute; lia|].
  apply (proj1 C4_content_stops_after_more_than_three);
    [vm_compute; reflexivity | vm_compute; lia].
Defined.

End ContentFacts.

(** ** Header predicates *)

Module HeaderFacts.
Import PyStr.
Import Spec.

(** A fully capitalized line and a title-cased line within the bounds that
    [_looks_like_header] rejects; [_is_section_header] accepts both. *)
Lemma C5_counterexample :
  (len shouting_line = 16
   /\ isupper shouting_line = true
   /\ length (split_ws shouting_line) = 3
   /\ ends_with_char "." shouting_line = false
   /\ contains ":" shouting_line = false
   /\ SectionExtractor._looks_like_header shouting_line = false
   /\ DocumentProcessor._is_section_header shouting_line = true)
  /\ (len titled_line = 21
      /\ istitle titled_line = true
      /\ length (split_ws titled_line) = 5
      /\ ends_with_char "." titled_line = false
      /\ count_char ":" titled_line = 0
      /\ SectionExtractor._looks_like_header titled_line = false
      /\ DocumentProcessor._is_section_header titled_line = true).
Proof. vm_compute. repeat split; reflexivity. Qed.

(** C5 (amended). The header predicate of the document processor,
    [_is_section_header], accepts every line whose stripped text has
    between 3 and 100 characters and is fully capitalized with at most 8
    words, no final period and no colon, and every such line that is
    title-cased with at most 10 words, no final period and at most one
    colon, whether or not a pattern matches.  The predicate of the
    segmenter, [_looks_like_header], has no such rule: it accepts a line
    exactly when its stripped text has between 3 and 100 characters and
    matches one of its four patterns. *)
Theorem C5_header_heuristics :
  (forall text : string,
      let t := strip text in
      3 <= len t <= 100 ->
      isupper t = true -> length (split_ws t) <= 8 ->
      ends_with_char "." t = false -> contains ":" t = false ->
      DocumentProcessor._is_section_header text = true)
  /\ (forall text : string,
      let t := strip text in
      3 <= len t <= 100 ->
      istitle t = true -> length (split_ws t) <= 10 ->
      ends_with_char "." t = false -> count_char ":" t <= 1 ->
      DocumentProcessor._is_section_header text = true)
  /\ (forall line : string,
      SectionExtractor._looks_like_header line = true <->
      3 <= len (strip line) <= 100
      /\ existsb (fun r => Re.matches r (strip line))
                 SectionExtractor.header_patterns = true).
Proof.
  split; [|split].
  - intros text t [Hlo Hhi] Hup Hw Hdot Hcolon.
    unfold DocumentProcessor._is_section_header. fold t.
    rewrite (proj2 (Nat.ltb_ge _ _) Hlo), (proj2 (Nat.ltb_ge _ _) Hhi).
    simpl orb. cbv iota.
    destruct (existsb _ DocumentProcessor.section_patterns); [done|].
    unfold DocumentProcessor.upper_heuristic.
    rewrite Hup, (proj2 (Nat.leb_le _ _) Hw), Hdot, Hcolon. reflexivity.
  - intros text t [Hlo Hhi] Hti Hw Hdot Hcolon.
    unfold DocumentProcessor._is_section_header. fold t.
    rewrite (proj2 (Nat.ltb_ge _ _) Hlo), (proj2 (Nat.ltb_ge _ _) Hhi).
    simpl orb. cbv iota.
    destruct (existsb _ DocumentProcessor.section_patterns); [done|].
    destruct (DocumentProcessor.upper_heuristic t); [done|].
    unfold DocumentProcessor.title_heuristic.
    rewrite Hti, (proj2 (Nat.leb_le _ _) Hw), Hdot,
      (proj2 (Nat.leb_le _ _) Hcolon). reflexivity.
  - intros line. unfold SectionExtractor._looks_like_header.
    destruct (Nat.ltb_spec (len (strip line)) 3) as [H3|H3];
      destruct (Nat.ltb_spec 100 (len (strip line))) as [H100|H100];
      simpl orb; cbv iota.
    + split; [done | intros [? _]; lia].
    + split; [done | intros [? _]; lia].
    + split; [done | intros [? _]; lia].
    + split; [intros H; split; [lia | done] | intros [_ H]; done].
Qed.

Lemma C5_header_heuristics_witness :
  DocumentProcessor._is_section_header "  HELLO WORLD 2024 " = true.
Proof.
  apply (proj1 C5_header_heuristics "  HELLO WORLD 2024 ");
    vm_compute; first [reflexivity | lia].
Defined.

End HeaderFacts.

(** ** Implicit sections *)

Module ImplicitFacts.
Import SectionExtractor PyStr.
Import Spec.
Local Open Scope list_scope.

Lemma header_not_empty (t : string) :
  _looks_like_header t = true -> is_empty t = false.
Proof. destruct t; [vm_compute; congruence | done]. Qed.

Lemma title_or_default_header (t : string) (pn : nat) :
  is_empty t = false -> title_or_default (Some t) pn = t.
Proof. by destruct t. Qed.

Lemma flush_untitled f pn (cur : list string) (t_out : string) :
  flush f pn None cur t_out = [].
Proof. reflexivity. Qed.

Lemma flush_titled_group f pn (t : string) (cur : list string) :
  is_empty t = false ->
  flush f pn (Some t) cur t = section_of_group f pn t cur.
Proof.
  intros Ht. unfold flush, section_of_group. simpl.
  destruct cur; [done|]. by rewrite Ht.
Qed.

(** A paragraph that arrives while the group has no title adds no section. *)
Lemma step_untitled f pn (st : implicit_state) (p : string) :
  current_title st = None ->
  sections_out (implicit_step f pn st p) = sections_out st.
Proof.
  intros Ht. unfold implicit_step.
  destruct (_looks_like_header (first_line_of p)
            && (0 <? length (current_section st))); simpl; [|done].
  by rewrite Ht, flush_untitled, app_nil_r.
Qed.

Lemma flush_titled f pn (t : option string) (cur : list string) :
  flush f pn t cur (default EmptyString t) = titled_group f pn t cur.
Proof.
  destruct t as [t|]; [|done]. simpl.
  destruct (is_empty t) eqn:E; [|by apply flush_titled_group].
  unfold flush. simpl. destruct cur; [done|]. by rewrite E.
Qed.

Lemma flush_last f pn (t : string) (cur : list string) :
  is_empty t = false ->
  flush f pn (Some t) cur (title_or_default (Some t) pn)
  = section_of_group f pn t cur.
Proof.
  intros Ht. rewrite title_or_default_header by done.
  by apply flush_titled_group.
Qed.

(** A paragraph that does not open a group is appended to the group that
    is accumulated, whether its first line looks like a header or not. *)
Lemma step_appended f pn (st : implicit_state) (p : string) :
  opens (current_section st) p = false ->
  implicit_step f pn st p
  = mk_state (sections_out st) (current_section st ++ [p])
             (current_title st).
Proof. intros H. unfold implicit_step. unfold opens in H. by rewrite H. Qed.

(** A paragraph that opens a group flushes the group accumulated before it
    under the title that group has, if it has one. *)
Lemma step_opens f pn (st : implicit_state) (h : string) :
  opens (current_section st) h = true ->
  implicit_step f pn st h
  = mk_state
      (sections_out st ++
         titled_group f pn (current_title st) (current_section st))
      (opened_group h)
      (Some (first_line_of h)).
Proof.
  intros H. unfold implicit_step. unfold opens in H. rewrite H.
  by rewrite flush_titled.
Qed.

Lemma fold_appended f pn (ps : list string) :
  forall st,
    appended (current_section st) ps = true ->
    fold_left (implicit_step f pn) ps st
    = mk_state (sections_out st) (current_section st ++ ps)
               (current_title st).
Proof.
  induction ps as [|p ps IH]; intros st H; cbn [fold_left].
  - rewrite app_nil_r. by destruct st.
  - cbn [appended] in H. apply andb_true_iff in H as [Hp Hps].
    apply negb_true_iff in Hp.
    rewrite step_appended by exact Hp.
    rewrite IH by exact Hps. cbn [sections_out current_section
                                    current_title].
    by rewrite <- app_assoc.
Qed.

(** Paragraphs without a header-like first line open no group. *)
Lemma plain_appended (ps : list string) :
  forall group, Forall plain ps -> appended group ps = true.
Proof.
  induction ps as [|p ps IH]; intros group H; [done|].
  apply Forall_cons in H as [Hp Hps]. cbn [appended].
  unfold opens. rewrite Hp. simpl. by apply IH.
Qed.

(** The last paragraph that opens a group, on any page: the group it
    opens is flushed at the end of the page, after the sections emitted
    before it and the flush of the group that it closes. *)
Lemma last_group_flushed f pn (text : string) (pre : list string)
      (h : string) (post : list string) :
  paragraphs_of text = pre ++ h :: post ->
  opens (current_section (state_after_paragraphs f pn pre)) h = true ->
  appended (opened_group h) post = true ->
  _extract_implicit_sections text pn f
  = sections_out (state_after_paragraphs f pn pre)
    ++ titled_group f pn
         (current_title (state_after_paragraphs f pn pre))
         (current_section (state_after_paragraphs f pn pre))
    ++ section_of_group f pn (first_line_of h) (opened_group h ++ post).
Proof.
  intros Hps Hh Hpost.
  unfold _extract_implicit_sections.
  rewrite Hps, fold_left_app. cbn [fold_left].
  fold (state_after_paragraphs f pn pre).
  rewrite step_opens by exact Hh.
  rewrite fold_appended by exact Hpost.
  cbn [sections_out current_section current_title].
  rewrite flush_last; [by rewrite <- app_assoc|].
  unfold opens in Hh. apply andb_true_iff in Hh as [Hh _].
  by apply header_not_empty.
Qed.

(** The group accumulated before the first paragraph that opens a group
    has no title and is dropped. *)
Lemma first_group_dropped f pn (text : string) (pre : list string)
      (h : string) (post : list string) :
  paragraphs_of text = pre ++ h :: post ->
  appended [] pre = true ->
  opens pre h = true ->
  appended (opened_group h) post = true ->
  _extract_implicit_sections text pn f
  = section_of_group f pn (first_line_of h) (opened_group h ++ post).
Proof.
  intros Hps Hpre Hh Hpost.
  assert (Hst : state_after_paragraphs f pn pre = mk_state [] pre None).
  { unfold state_after_paragraphs. by rewrite fold_appended. }
  rewrite (last_group_flushed f pn text pre h post Hps);
    [|by rewrite Hst|exact Hpost].
  by rewrite Hst.
Qed.

(** The paragraph before the first header-like line is a valid section
    content, and it is not flushed: the only implicit section of the page
    is the group that the header-like line opens. *)
Lemma C3_counterexample :
  paragraphs_of museum_page
  = [museum_paragraph; ("Opening hours" ++ nl ++ garden_paragraph)%string]
  /\ _is_valid_section museum_paragraph = true
  /\ _looks_like_header "Opening hours" = true
  /\ _extract_implicit_sections museum_page 1 "doc.pdf"
     = [implicit_section "doc.pdf" "Opening hours" garden_paragraph 1].
Proof. vm_compute. auto. Qed.

(** C3 (amended). In implicit-section extraction a paragraph opens a new
    group when its first line looks like a header and the group
    accumulated so far is not empty; any other paragraph is appended to
    the accumulated group, whether its first line looks like a header or
    not.  A paragraph that opens a group flushes the group accumulated
    before it under the title of that group (subject to the validity
    invariant); a group without a title, as the one accumulated before the
    first paragraph that opens a group, is not flushed.  The group that the
    last such paragraph of a page opens is flushed as a section under the
    first line of that paragraph as title (subject to the validity
    invariant) at the end of the page, with no following paragraph to
    trigger the flush, and after all the sections emitted before on the
    page. *)
Theorem C3_titled_last_group_flushed :
  (forall f pn (st : implicit_state) (p : string),
      current_title st = None ->
      sections_out (implicit_step f pn st p) = sections_out st)
  /\ (forall f pn (st : implicit_state) (p : string),
        opens (current_section st) p = false ->
        implicit_step f pn st p
        = mk_state (sections_out st) (current_section st ++ [p])
                   (current_title st))
  /\ (forall f pn (st : implicit_state) (h : string),
        opens (current_section st) h = true ->
        implicit_step f pn st h
        = mk_state
            (sections_out st ++
               titled_group f pn (current_title st) (current_section st))
            (opened_group h)
            (Some (first_line_of h)))
  /\ (forall f pn (text : string) (pre : list string) (h : string)
             (post : list string),
        paragraphs_of text = pre ++ h :: post ->
        opens (current_section (state_after_paragraphs f pn pre)) h = true ->
        appended (opened_group h) post = true ->
        _extract_implicit_sections text pn f
        = sections_out (state_after_paragraphs f pn pre)
          ++ titled_group f pn
               (current_title (state_after_paragraphs f pn pre))
               (current_section (state_after_paragraphs f pn pre))
          ++ section_of_group f pn (first_line_of h)
               (opened_group h ++ post))
  /\ (forall f pn (text : string) (pre : list string) (h : string)
             (post : list string),
        paragraphs_of text = pre ++ h :: post ->
        appended [] pre = true ->
        opens pre h = true ->
        appended (opened_group h) post = true ->
        _extract_implicit_sections text pn f
        = section_of_group f pn (first_line_of h) (opened_group h ++ post)).
Proof.
  split; [exact step_untitled|].
  split; [exact step_appended|].
  split; [exact step_opens|].
  split; [exact last_group_flushed | exact first_group_dropped].
Qed.

(** On the page with two paragraphs that open a group, the group of the
    first is flushed when the second arrives and the group of the second at
    the end of the page; the paragraph before the first is dropped. *)
Lemma C3_titled_last_group_flushed_witness :
  _extract_implicit_sections harbour_page 1 "doc.pdf"
  = [implicit_section "doc.pdf" "Opening hours" garden_paragraph 1;
     implicit_section "doc.pdf" "Boat rental" boats_paragraph 1].
Proof.
  rewrite (proj1 (proj2 (proj2 (proj2 C3_titled_last_group_flushed)))
             "doc.pdf" 1 harbour_page
             [museum_paragraph;
              ("Opening hours" ++ nl ++ garden_paragraph)%string]
             ("Boat rental" ++ nl ++ boats_paragraph)%string []).
  - vm_compute. reflexivity.
  - vm_compute. reflexivity.
  - vm_compute. reflexivity.
  - reflexivity.
Defined.

End ImplicitFacts.

(** ** Binary64 arithmetic on scores *)

Module FloatFacts.
Import Spec.

Section Rounding.
Variables prec emax : Z.

Lemma iter_pos_inv {A : Type} (P : A -> Prop) (f : A -> A) :
  (forall x, P x -> P (f x)) ->
  forall n x, P x -> P (SpecFloat.iter_pos f n x).
Proof.
  intros Hf. induction n as [n IH|n IH|]; intros x Hx; simpl; auto.
Qed.

Lemma shr_1_nonneg (mrs : shr_record) :
  (0 <= shr_m mrs)%Z -> (0 <= shr_m (shr_1 mrs))%Z.
Proof.
  destruct mrs as [m r s]. simpl.
  destruct m as [|[p|p|]|p]; simpl; lia.
Qed.

Lemma shr_fexp_nonneg (m e : Z) (l : location) :
  (0 <= m)%Z -> (0 <= shr_m (fst (shr_fexp prec emax m e l)))%Z.
Proof.
  intros Hm. unfold shr_fexp, shr.
  assert (H0 : (0 <= shr_m (shr_record_of_loc m l))%Z).
  { destruct l as [|[]]; simpl; exact Hm. }
  destruct (fexp prec emax (Zdigits2 m + e) - e)%Z; simpl; auto.
  apply iter_pos_inv; [apply shr_1_nonneg | exact H0].
Qed.

Lemma round_nearest_even_nonneg (m : Z) (l : location) :
  (0 <= m)%Z -> (0 <= round_nearest_even m l)%Z.
Proof.
  intros Hm. destruct l as [|[]]; simpl; try lia.
  destruct (Z.even m); lia.
Qed.

Lemma binary_round_aux_nonneg (m e : Z) (l : location) :
  (0 <= m)%Z -> sf_nonneg (binary_round_aux prec emax false m e l).
Proof.
  intros Hm. unfold binary_round_aux.
  pose proof (shr_fexp_nonneg m e l Hm) as H1.
  destruct (shr_fexp prec emax m e l) as [mrs' e']. simpl in H1.
  pose proof (shr_fexp_nonneg _ e' loc_Exact
                (round_nearest_even_nonneg _ (loc_of_shr_record mrs') H1))
    as H2.
  destruct (shr_fexp prec emax _ e' loc_Exact) as [mrs'' e'']. simpl in H2.
  destruct (shr_m mrs'') as [|p|p]; simpl; [exact I | | lia].
  destruct (e'' <=? emax - prec)%Z; exact I.
Qed.

Lemma binary_normalize_nonneg (m e : Z) :
  (0 <= m)%Z -> sf_nonneg (binary_normalize prec emax m e false).
Proof.
  intros Hm. destruct m as [|p|p]; simpl; [exact I | | lia].
  unfold binary_round.
  destruct (shl_align p e _) as [mz ez].
  apply binary_round_aux_nonneg. lia.
Qed.

Lemma SFadd_nonneg (x y : spec_float) :
  sf_nonneg x -> sf_nonneg y -> sf_nonneg (SFadd prec emax x y).
Proof.
  destruct x as [sx|[]| |[] mx ex], y as [sy|[]| |[] my ey];
    try (simpl; tauto).
  - destruct sx, sy; intros; exact I.
  - intros _ _. unfold SFadd, cond_Zopp.
    apply binary_normalize_nonneg. lia.
Qed.

Lemma SFmul_nonneg_finite (x : spec_float) (m : positive) (e : Z) :
  sf_nonneg x -> sf_nonneg (SFmul prec emax x (S754_finite false m e)).
Proof.
  destruct x as [sx|[]| |[] mx ex]; try (simpl; tauto).
  intros _. unfold SFmul. apply binary_round_aux_nonneg. lia.
Qed.

Lemma SFdiv_nonneg_finite (x : spec_float) (m : positive) (e : Z) :
  sf_nonneg x -> sf_nonneg (SFdiv prec emax x (S754_finite false m e)).
Proof.
  destruct x as [sx|[]| |[] mx ex]; try (simpl; tauto).
  intros _. unfold SFdiv, SFdiv_core_binary.
  set (s := (ex - e - _)%Z).
  set (m' := match s with Z0 => Z.pos mx | Z.pos _ => Z.shiftl (Z.pos mx) s
             | Z.neg _ => 0%Z end).
  assert (Hm' : (0 <= m')%Z).
  { unfold m'. destruct s; try lia. apply Z.shiftl_nonneg. lia. }
  pose proof (Z.div_pos m' (Z.pos m) Hm' ltac:(lia)) as Hq.
  unfold Z.div in Hq.
  destruct (Z.div_eucl m' (Z.pos m)) as [q r].
  apply binary_round_aux_nonneg. exact Hq.
Qed.
End Rounding.

Lemma leb_zero_nonneg (x : float) :
  PrimFloat.leb 0 x = true <-> nonneg x.
Proof.
  rewrite FloatAxioms.leb_spec. unfold nonneg, SFleb.
  change (Prim2SF 0) with (S754_zero false).
  destruct (Prim2SF x) as [s|[]| |[] m e]; simpl; intuition congruence.
Qed.

Lemma add_nonneg (x y : float) :
  nonneg x -> nonneg y -> nonneg (x + y).
Proof. unfold nonneg. rewrite FloatAxioms.add_spec. apply SFadd_nonneg. Qed.

Lemma mul_nonneg_finite (x y : float) (m : positive) (e : Z) :
  Prim2SF y = S754_finite false m e -> nonneg x -> nonneg (x * y).
Proof.
  unfold nonneg. rewrite FloatAxioms.mul_spec. intros ->. apply SFmul_nonneg_finite.
Qed.

Lemma div_nonneg_finite (x y : float) (m : positive) (e : Z) :
  Prim2SF y = S754_finite false m e -> nonneg x -> nonneg (x / y).
Proof.
  unfold nonneg. rewrite FloatAxioms.div_spec. intros ->. apply SFdiv_nonneg_finite.
Qed.

Lemma of_uint63_nonneg (i : int) : nonneg (PrimFloat.of_uint63 i).
Proof.
  unfold nonneg. rewrite FloatAxioms.of_uint63_spec.
  apply binary_normalize_nonneg. apply Uint63.to_Z_bounded.
Qed.

(** *** The order of binary64 numbers *)

Lemma lex3_spec (a b : Z * Z * Z) :
  match lex3 a b with
  | Lt => lexlt a b
  | Eq => a = b
  | Gt => lexlt b a
  end.
Proof.
  destruct a as [[a1 a2] a3], b as [[b1 b2] b3]. unfold lex3, lexlt.
  destruct (Z.compare_spec a1 b1); [|lia|lia].
  destruct (Z.compare_spec a2 b2); [|lia|lia].
  destruct (Z.compare_spec a3 b3); [congruence|lia|lia].
Qed.

Lemma SFcompare_rank (x y : spec_float) :
  is_number x -> is_number y ->
  SFcompare x y = Some (lex3 (rank x) (rank y)).
Proof.
  unfold is_number.
  destruct x as [sx|[]| |[] mx ex], y as [sy|[]| |[] my ey];
    intros Hx Hy; try congruence; try reflexivity.
  - simpl. rewrite Z.compare_opp, (Z.compare_antisym ey ex).
    destruct (ey ?= ex)%Z; reflexivity.
Qed.

Lemma SFcompare_number (x y : spec_float) (c : comparison) :
  SFcompare x y = Some c -> is_number x /\ is_number y.
Proof.
  unfold is_number.
  destruct x as [sx|[]| |[] mx ex], y as [sy|[]| |[] my ey];
    simpl; intros H; split; congruence.
Qed.

Lemma SFltb_SFleb (x y : spec_float) :
  SFltb x y = true -> SFleb x y = true.
Proof. unfold SFltb, SFleb. destruct (SFcompare x y) as [[]|]; done. Qed.

Lemma SFleb_number (x y : spec_float) :
  SFleb x y = true -> is_number x /\ is_number y.
Proof.
  unfold SFleb. destruct (SFcompare x y) as [c|] eqn:E; [|done].
  intros _. by apply (SFcompare_number x y c).
Qed.

Lemma SFleb_rank (x y : spec_float) :
  is_number x -> is_number y ->
  (SFleb x y = true <-> ~ lexlt (rank y) (rank x)).
Proof.
  intros Hx Hy. unfold SFleb. rewrite SFcompare_rank by done.
  pose proof (lex3_spec (rank x) (rank y)) as H.
  destruct (rank x) as [[a1 a2] a3], (rank y) as [[b1 b2] b3].
  destruct (lex3 _ _); unfold lexlt in *; split; intros; try done; try lia.
  injection H as -> -> ->. lia.
Qed.

Lemma SFltb_rank (x y : spec_float) :
  is_number x -> is_number y ->
  (SFltb x y = true <-> lexlt (rank x) (rank y)).
Proof.
  intros Hx Hy. unfold SFltb. rewrite SFcompare_rank by done.
  pose proof (lex3_spec (rank x) (rank y)) as H.
  destruct (rank x) as [[a1 a2] a3], (rank y) as [[b1 b2] b3].
  destruct (lex3 _ _); unfold lexlt in *; split; intros; try done; try lia.
  injection H as -> -> ->. lia.
Qed.

Lemma SFleb_trans (x y z : spec_float) :
  SFleb x y = true -> SFleb y z = true -> SFleb x z = true.
Proof.
  intros Hxy Hyz.
  destruct (SFleb_number _ _ Hxy) as [Hx Hy].
  destruct (SFleb_number _ _ Hyz) as [_ Hz].
  apply SFleb_rank in Hxy, Hyz; try done. apply SFleb_rank; try done.
  destruct (rank x) as [[a1 a2] a3], (rank y) as [[b1 b2] b3],
           (rank z) as [[c1 c2] c3].
  unfold lexlt in *. lia.
Qed.

Lemma SFleb_total (x y : spec_float) :
  is_number x -> is_number y -> SFltb x y = false -> SFleb y x = true.
Proof.
  intros Hx Hy Hlt. apply SFleb_rank; try done.
  intros Hr. apply SFltb_rank in Hr; try done. congruence.
Qed.

Lemma nonneg_number (x : float) : nonneg x -> is_number (Prim2SF x).
Proof. unfold nonneg, is_number. destruct (Prim2SF x); simpl; done. Qed.

Lemma ge_trans (a b c : float) :
  float_ge a b -> float_ge b c -> float_ge a c.
Proof.
  unfold float_ge. rewrite !FloatAxioms.leb_spec. intros H1 H2.
  by apply (SFleb_trans _ _ _ H2 H1).
Qed.

Lemma lt_ge (a b : float) : PrimFloat.ltb a b = true -> float_ge b a.
Proof.
  unfold float_ge. rewrite FloatAxioms.ltb_spec, FloatAxioms.leb_spec.
  apply SFltb_SFleb.
Qed.

Lemma lt_not_ge (a b : float) :
  PrimFloat.ltb a b = true -> ~ float_ge a b.
Proof.
  unfold float_ge. rewrite FloatAxioms.ltb_spec, FloatAxioms.leb_spec.
  intros Hlt Hle.
  destruct (SFleb_number _ _ Hle) as [Hb Ha].
  apply SFltb_rank in Hlt; try done.
  apply SFleb_rank in Hle; try done.
Qed.

Lemma not_lt_ge (a b : float) :
  nonneg a -> nonneg b -> PrimFloat.ltb a b = false -> float_ge a b.
Proof.
  unfold float_ge. rewrite FloatAxioms.ltb_spec, FloatAxioms.leb_spec.
  intros Ha Hb. apply SFleb_total; by apply nonneg_number.
Qed.

End FloatFacts.

(** ** Subsections *)

Module SubsectionFacts.
Import SectionExtractor PyStr PySort FloatFacts.
Import Spec.
Local Open Scope list_scope.

Section Sorted.
Context {A : Type} (key : A -> float) (idx : A -> nat).

Lemma insert_desc_arranged (x : A) (l : list A) :
  nonneg (key x) -> Forall (fun a => nonneg (key a)) l ->
  Forall (fun z => idx x < idx z) l ->
  StronglySorted (arranged key idx) l ->
  StronglySorted (arranged key idx) (insert_desc key x l).
Proof.
  intros Hx Hl Hi Hs. induction l as [|y l IH]; simpl.
  - repeat constructor.
  - apply StronglySorted_inv in Hs as [Hs Hy].
    apply Forall_cons in Hl as [Hny Hl].
    apply Forall_cons in Hi as [Hiy Hi].
    destruct (PrimFloat.ltb (key x) (key y)) eqn:E.
    + constructor; [by apply IH|].
      rewrite SortFacts.insert_desc_perm.
      constructor; [|done].
      split; [by apply lt_ge|].
      intros Hge. by destruct (lt_not_ge _ _ E).
    + constructor; [by constructor|].
      assert (Hxy : key_ge key x y) by (by apply not_lt_ge).
      constructor; [done|].
      apply Forall_forall. intros z Hz.
      rewrite Forall_forall in Hy, Hi.
      split; [|intros _; by apply Hi].
      apply (ge_trans _ (key y)); [done | apply (Hy z Hz)].
Qed.

Lemma sort_desc_arranged (l : list A) :
  Forall (fun a => nonneg (key a)) l ->
  StronglySorted (fun a b => idx a < idx b) l ->
  StronglySorted (arranged key idx) (sort_desc key l).
Proof.
  induction l as [|x l IH]; intros Hl Hs; simpl; [constructor|].
  apply Forall_cons in Hl as [Hx Hl].
  apply StronglySorted_inv in Hs as [Hs Hxl].
  apply insert_desc_arranged; [done | | | by apply IH].
  - by rewrite SortFacts.sort_desc_perm.
  - by rewrite SortFacts.sort_desc_perm.
Qed.
End Sorted.

Lemma nonneg_const (x : float) : PrimFloat.leb 0 x = true -> nonneg x.
Proof. apply leb_zero_nonneg. Qed.

Lemma add_matches_nonneg (w : float) (lowered : bool) (l : list string)
      (text : string) (score : float) :
  nonneg w -> nonneg score -> nonneg (add_matches w lowered l text score).
Proof.
  intros Hw. unfold add_matches. revert score.
  induction l as [|x l IH]; intros score Hs; simpl; [done|].
  apply IH. destruct (contains _ text); [by apply add_nonneg | done].
Qed.

Lemma length_score_nonneg (n : nat) :
  nonneg (PyFloat.min (PyFloat.of_nat n / 500) 1 * 0.1)%float.
Proof.
  unfold PyFloat.min.
  destruct (PrimFloat.ltb 1 (PyFloat.of_nat n / 500)).
  - apply nonneg_const. vm_compute. reflexivity.
  - eapply mul_nonneg_finite; [vm_compute; reflexivity|].
    eapply div_nonneg_finite; [vm_compute; reflexivity|].
    apply of_uint63_nonneg.
Qed.

Lemma score_nonneg (sub : string) (p : profile) (job : string) :
  PrimFloat.leb 0 (instructional (context_weight p)) = true ->
  PrimFloat.leb 0 (descriptive (context_weight p)) = true ->
  nonneg (_score_subsection_relevance sub p job).
Proof.
  intros Hi Hd. apply leb_zero_nonneg in Hi, Hd.
  unfold _score_subsection_relevance.
  apply add_nonneg; [|apply length_score_nonneg].
  assert (H4 : nonneg
    (add_matches 0.1 true (special_needs (reqs p)) (lower sub)
       (add_matches 0.2 true (dietary (reqs p)) (lower sub)
          (add_matches 0.15 false (job_actions p) (lower sub)
             (add_matches 0.1 true (domain_keywords p) (lower sub) 0))))).
  { repeat (apply add_matches_nonneg;
              [apply nonneg_const; vm_compute; reflexivity|]).
    apply nonneg_const. vm_compute. reflexivity. }
  destruct (any_in ["instructions"; "steps"; "ingredients"; "how to"] _),
           (any_in ["description"; "features"; "details"; "includes"] _);
    repeat apply add_nonneg; done.
Qed.

Lemma scored_subsections_spec (s : section) (p : profile) (job : string) :
  Forall
    (fun sub =>
       exists (idx : nat) (cand : string),
         _split_into_subsections (content s) !! idx = Some cand
         /\ 100 <= len (strip cand)
         /\ sub = mk_subsection (document s) (strip cand) (page_number s)
                   (_score_subsection_relevance cand p job) idx)
    (scored_subsections s p job).
Proof.
  unfold scored_subsections. apply Forall_forall. intros sub Hin.
  apply list_elem_of_In, in_concat in Hin as (l & Hl & Hsub).
  apply list_elem_of_In, elem_of_lookup_imap in Hl
    as (idx & cand & -> & Hcand).
  apply list_elem_of_In in Hsub.
  destruct (Nat.leb_spec min_subsection_length (len (strip cand)))
    as [Hlen|Hlen]; [|by apply elem_of_nil in Hsub].
  apply list_elem_of_singleton in Hsub as ->.
  exists idx, cand. by repeat split.
Qed.

(** The candidates that pass the length filter keep their positions, in
    increasing order. *)
Lemma filtered_increasing {B : Type} (item : nat -> B -> list subsection)
      (l : list B) :
  (forall i x, Forall (fun a => subsection_index a = i) (item i x)) ->
  (forall i x, length (item i x) <= 1) ->
  forall k,
    StronglySorted earlier (concat (imap (fun i x => item (i + k) x) l))
    /\ Forall (fun a => k <= subsection_index a)
              (concat (imap (fun i x => item (i + k) x) l)).
Proof.
  intros Hidx Hone. induction l as [|x l IH]; intros k; simpl.
  - split; constructor.
  - rewrite (imap_ext _ (fun i x => item (i + S k) x))
      by (intros i y _; simpl; f_equal; lia).
    destruct (IH (S k)) as [IHs IHk].
    specialize (Hidx k x). specialize (Hone k x).
    destruct (item k x) as [|a [|b rest]]; simpl in *; [| |lia].
    + split; [done|]. eapply Forall_impl; [exact IHk|]. simpl. lia.
    + apply Forall_cons in Hidx as [Ha _].
      split.
      * constructor; [done|].
        eapply Forall_impl; [exact IHk|]. unfold earlier. simpl. lia.
      * constructor; [lia|].
        eapply Forall_impl; [exact IHk|]. simpl. lia.
Qed.

Lemma scored_increasing (s : section) (p : profile) (job : string) :
  StronglySorted earlier (scored_subsections s p job).
Proof.
  unfold scored_subsections.
  set (item := fun (idx : nat) (sub : string) =>
         if min_subsection_length <=? len (strip sub)
         then [mk_subsection (document s) (strip sub) (page_number s)
                 (_score_subsection_relevance sub p job) idx]
         else []).
  rewrite (imap_ext item (fun i x => item (i + 0) x))
    by (intros i x _; by rewrite Nat.add_0_r).
  apply (filtered_increasing item).
  - intros i x. unfold item. destruct (_ <=? _); by repeat constructor.
  - intros i x. unfold item. destruct (_ <=? _); simpl; lia.
Qed.

(** Every profile built by the profiler has weights that are numbers not
    below zero. *)
Lemma context_weights_nonneg (pt : string) (acts : list string) :
  weights_nonneg (PersonaAnalyzer._calculate_context_weights pt acts).
Proof.
  unfold PersonaAnalyzer._calculate_context_weights,
    PersonaAnalyzer.adjusted_weights.
  generalize (mem pt ["student"; "researcher"]),
             (mem pt ["planner"; "contractor"]),
             (mem "create" acts), (mem "prepare" acts),
             (mem "analyze" acts), (mem "plan" acts).
  intros [] [] [] [] [] []; vm_compute; auto.
Qed.

Lemma subsections_top (s : section) (p : profile) (job : string) :
  weights_nonneg (context_weight p) ->
  top_of (extract_subsections s p job) (scored_subsections s p job).
Proof.
  intros [Hi Hd].
  exists (skipn max_subsections_per_section
            (sort_desc sub_relevance_score (scored_subsections s p job))).
  unfold extract_subsections. rewrite firstn_skipn.
  split; [apply SortFacts.sort_desc_perm|].
  apply (sort_desc_arranged sub_relevance_score subsection_index);
    [|apply scored_increasing].
  eapply Forall_impl; [apply scored_subsections_spec|].
  intros sub (idx & cand & _ & _ & ->). simpl.
  by apply score_nonneg.
Qed.

(** C7. For every parent section [extract_subsections] returns three
    subsections, or all the scored candidates when there are fewer than
    three: as many as the smaller of 3 and the number of candidates whose
    stripped content has at least 100 characters.  Each has stripped
    content of at least 100 characters.
    When the instructional and descriptive weights of the profile are
    numbers not below zero, the result is the head of the arrangement of
    all scored candidates by descending relevance score, candidates of
    equal score in their order of splitting: it is in descending order and
    no candidate left out scores higher than a returned one.  Every profile
    built by [create_persona_profile] has such weights. *)
Theorem C7_subsections_top_three :
  forall (s : section) (p : profile) (job : string),
    length (extract_subsections s p job)
    = Nat.min 3 (length (scored_subsections s p job))
    /\ Forall (fun sub => 100 <= len (sub_content sub))
              (extract_subsections s p job)
    /\ (weights_nonneg (context_weight p) ->
        top_of (extract_subsections s p job) (scored_subsections s p job))
    /\ (forall persona job0 : string,
           PersonaAnalyzer.create_persona_profile persona job0 = Some p ->
           top_of (extract_subsections s p job)
                  (scored_subsections s p job)).
Proof.
  intros s p job.
  split; [|split; [|split]].
  - unfold extract_subsections, max_subsections_per_section.
    rewrite length_take.
    by rewrite (Permutation_length
                  (SortFacts.sort_desc_perm sub_relevance_score _)).
  - unfold extract_subsections.
    apply Forall_take, SortFacts.sort_desc_Forall.
    eapply Forall_impl; [apply scored_subsections_spec|].
    intros sub (idx & cand & _ & Hlen & ->). exact Hlen.
  - apply subsections_top.
  - intros persona job0 E. apply subsections_top.
    unfold PersonaAnalyzer.create_persona_profile in E.
    destruct (PersonaAnalyzer._extract_requirements (lower job0));
      [|discriminate].
    injection E as <-. apply context_weights_nonneg.
Qed.

(** Four candidates pass the length filter; the last two tie and keep
    their order, and the fourth is cut. *)
Example menu_subsections :
  map subsection_index
      (scored_subsections menu_section scenario_profile
         scenario_job) = [1; 2; 3; 4]
  /\ map (fun x => (subsection_index x, sub_relevance_score x))
         (extract_subsections menu_section scenario_profile
            scenario_job)
     = [(1, 0.57514117647058827%float); (2, 0.53356470588235294%float);
        (3, 0.0206%float)].
Proof. vm_compute. auto. Qed.

Lemma C7_subsections_top_three_witness :
  weights_nonneg (context_weight scenario_profile)
  /\ length (scored_subsections menu_section scenario_profile scenario_job)
     = 4
  /\ length (extract_subsections menu_section scenario_profile scenario_job)
     = 3
  /\ top_of (extract_subsections menu_section scenario_profile scenario_job)
            (scored_subsections menu_section scenario_profile scenario_job).
Proof.
  assert (H : weights_nonneg (context_weight scenario_profile))
    by (split; vm_compute; reflexivity).
  assert (H4 : length (scored_subsections menu_section scenario_profile
                         scenario_job) = 4)
    by (vm_compute; reflexivity).
  split; [exact H|]. split; [exact H4|]. split.
  - rewrite (proj1 (C7_subsections_top_three menu_section
                      scenario_profile scenario_job)), H4.
    reflexivity.
  - exact (proj1 (proj2 (proj2 (C7_subsections_top_three menu_section
                                  scenario_profile scenario_job))) H).
Defined.

End SubsectionFacts.

(** ** Lists and texts *)

Module ListFacts.

Lemma Forall_filter {A : Type} (P : A -> Prop) (f : A -> bool)
      (l : list A) :
  Forall P l -> Forall P (List.filter f l).
Proof.
  induction 1 as [|x l Hx Hl IH]; simpl; [constructor|].
  destruct (f x); [by constructor|done].
Qed.

End ListFacts.

Module TextFacts.
Import PyStr SpecText.

Lemma append_assoc (a b c : string) :
  ((a ++ b) ++ c = a ++ (b ++ c))%string.
Proof.
  induction a as [|x a IH]; [done|].
  change (String x ((a ++ b) ++ c) = String x (a ++ (b ++ c)))%string.
  by rewrite IH.
Qed.

Lemma append_empty_r (a : string) : (a ++ EmptyString)%string = a.
Proof.
  induction a as [|x a IH]; [done|].
  change (String x (a ++ EmptyString) = String x a)%string.
  by rewrite IH.
Qed.

Lemma len_append (a b : string) : len (a ++ b) = len a + len b.
Proof.
  unfold len. induction a as [|x a IH]; [done|].
  change (S (String.length (a ++ b)) = S (String.length a + String.length b)).
  by rewrite IH.
Qed.

Lemma all_chars_app (p : ascii -> bool) (a b : string) :
  all_chars p (a ++ b)
  = all_chars p a && all_chars p b.
Proof.
  induction a as [|c a IH]; simpl; [done|].
  rewrite IH. by rewrite andb_assoc.
Qed.

Lemma startswith_app (p s : string) : startswith p (p ++ s) = true.
Proof.
  induction p as [|c p IH]; simpl; [done|].
  by rewrite Ascii.eqb_refl, IH.
Qed.

Lemma strip_prefix_app (w s : string) : Re.strip_prefix w (w ++ s) = Some s.
Proof.
  induction w as [|c w IH]; simpl; [done|].
  by rewrite Ascii.eqb_refl.
Qed.

Lemma span_app (p : ascii -> bool) (a b : string) :
  all_chars p a = true -> stops p b = true ->
  PersonaAnalyzer.span p (a ++ b) = (a, b).
Proof.
  intros Ha Hb. induction a as [|c a IH]; simpl in *.
  - destruct b as [|c b]; simpl; [done|].
    apply negb_true_iff in Hb. by rewrite Hb.
  - apply andb_true_iff in Ha as [Hc Ha]. rewrite Hc, (IH Ha). done.
Qed.

Lemma space_not_digit (c : ascii) : is_space c = true -> is_digit c = false.
Proof. destruct c as [[] [] [] [] [] [] [] []]; vm_compute; congruence. Qed.

Lemma stops_app (p q : ascii -> bool) (a b : string) :
  (forall c, q c = true -> p c = false) ->
  all_chars q a = true -> stops p b = true ->
  stops p (a ++ b) = true.
Proof.
  intros Hpq Ha Hb. destruct a as [|c a]; simpl in *; [done|].
  apply andb_true_iff in Ha as [Hc _]. by rewrite (Hpq c Hc).
Qed.

(** A greedy repetition takes a whole run of the class when what follows
    the run lets the rest of the pattern match. *)
Lemma greedy_all (p : Re.cls) (k : string -> option string) (a b r : string) :
  all_chars p a = true -> stops p b = true ->
  k b = Some r ->
  forall lo, lo <= len a -> Re.greedy p k lo None (a ++ b) = Some r.
Proof.
  intros Ha Hb Hk. induction a as [|c a IH]; intros lo Hlo; simpl in *.
  - assert (lo = 0) as -> by lia.
    destruct b as [|c b]; simpl in *; [done|].
    apply negb_true_iff in Hb. by rewrite Hb.
  - apply andb_true_iff in Ha as [Hc Ha]. rewrite Hc. simpl.
    rewrite (IH Ha (pred lo)) by lia. done.
Qed.

Lemma all_chars_rev_onto (p : ascii -> bool) (s : string) :
  forall acc,
    all_chars p (rev_onto acc s) = all_chars p acc && all_chars p s.
Proof.
  induction s as [|c s IH]; intros acc; simpl.
  - by rewrite andb_true_r.
  - rewrite IH. simpl.
    by destruct (p c), (all_chars p acc), (all_chars p s).
Qed.

Lemma all_chars_rev (p : ascii -> bool) (s : string) :
  all_chars p (rev s) = all_chars p s.
Proof. unfold rev. by rewrite all_chars_rev_onto. Qed.

Lemma all_chars_lstrip (p : ascii -> bool) (s : string) :
  all_chars p s = true -> all_chars p (lstrip s) = true.
Proof.
  induction s as [|c s IH]; simpl; [done|].
  intros H. destruct (is_space c); [|done].
  apply andb_true_iff in H as [_ H]. by apply IH.
Qed.

Lemma all_chars_rstrip (p : ascii -> bool) (s : string) :
  all_chars p s = true -> all_chars p (rstrip s) = true.
Proof.
  induction s as [|c s IH]; simpl; [done|].
  intros H. apply andb_true_iff in H as [Hc H].
  destruct (is_space c && is_empty (rstrip s)); [done|].
  simpl. by rewrite Hc, IH.
Qed.

Lemma all_chars_strip (p : ascii -> bool) (s : string) :
  all_chars p s = true -> all_chars p (strip s) = true.
Proof. intros H. by apply all_chars_rstrip, all_chars_lstrip. Qed.

Lemma all_chars_join (p : ascii -> bool) (sep : string) (l : list string) :
  all_chars p sep = true -> Forall (fun s => all_chars p s = true) l ->
  all_chars p (join sep l) = true.
Proof.
  intros Hsep. induction l as [|x l IH]; intros H; [done|].
  apply Forall_cons in H as [Hx H]. cbn [join].
  destruct l as [|y l]; [done|].
  rewrite !all_chars_app, Hx, Hsep. simpl. by apply IH.
Qed.

(** The pieces between line breaks hold no line break. *)
Lemma split_nl_go_one_line (s : string) :
  forall cur,
    one_line cur -> Forall one_line (split_go nl 0 cur s).
Proof.
  unfold one_line.
  induction s as [|c s IH]; intros cur Hcur; cbn [split_go].
  - constructor; [|constructor]. by rewrite all_chars_rev.
  - cbn [nl startswith].
    destruct (Ascii.eqb (ascii_of_nat 10) c) eqn:E; cbn [andb].
    + destruct s; (constructor; [by rewrite all_chars_rev|]);
        by apply IH.
    + apply IH. simpl. unfold not_newline at 1. by rewrite E.
Qed.

Lemma split_nl_one_line (s : string) : Forall one_line (split nl s).
Proof. by apply split_nl_go_one_line. Qed.

End TextFacts.

(** ** Persona profiles *)

Module PersonaFacts.
Import PyStr PersonaAnalyzer SpecText SpecPersona.
Local Open Scope list_scope.

Lemma first_persona_type_key (table : list (string * list string))
      (persona t : string) :
  first_persona_type table persona = Some t -> In t (map fst table).
Proof.
  induction table as [|[k kws] table IH]; simpl; [done|].
  destruct (contains k persona || any_in (firstn 3 kws) persona).
  - intros [= <-]. by left.
  - intros H. right. by apply IH.
Qed.

Lemma persona_type_known (persona : string) :
  In (_identify_persona_type persona) persona_types.
Proof.
  unfold _identify_persona_type.
  destruct (first_persona_type persona_keywords persona) as [t|] eqn:E.
  - apply first_persona_type_key in E. exact E.
  - destruct (any_in ["hr"; "human"; "resource"] persona);
      [vm_compute; tauto|].
    destruct (any_in ["food"; "chef"; "cook"; "menu"] persona);
      [vm_compute; tauto|].
    destruct (any_in ["travel"; "trip"; "tour"] persona);
      vm_compute; tauto.
Qed.

(** X1. The persona type is always one of the seven types of the keyword
    table, whatever the persona text is. *)
Theorem identify_persona_type_closed :
  forall persona : string,
    In (_identify_persona_type persona) persona_types.
Proof. exact persona_type_known. Qed.

Lemma list_set_In (x : string) (l : list string) :
  In x (list_set l) <-> In x l.
Proof.
  unfold list_set. rewrite <- !list_elem_of_In, elem_of_elements.
  apply elem_of_list_to_set.
Qed.

Lemma list_set_NoDup (l : list string) : NoDup (list_set l).
Proof. unfold list_set. apply NoDup_elements. Qed.

Lemma detected_actions_known (task : string)
      (table : list (string * list string)) (a : string) :
  In a (flat_map
          (fun '(action_type, action_words) =>
             if contains action_type task || any_in action_words task
             then [action_type] else [])
          table) ->
  In a (map fst table).
Proof.
  induction table as [|[k ws] table IH]; simpl; [done|].
  rewrite in_app_iff. intros [H|H]; [|right; by apply IH].
  destruct (contains k task || any_in ws task); simpl in H; [|done].
  left. tauto.
Qed.

(** X2. The job actions of a task are never empty, hold no action twice,
    and are among the five action categories; "analyze" is the answer when
    nothing is detected. *)
Theorem job_actions_shape :
  forall task : string,
    _extract_job_actions task <> []
    /\ NoDup (_extract_job_actions task)
    /\ (forall a, In a (_extract_job_actions task) -> In a action_types).
Proof.
  intros task. unfold _extract_job_actions.
  set (detected := flat_map _ job_action_words).
  assert (Hd : forall a, In a detected -> In a action_types)
    by (intros a; apply detected_actions_known).
  match goal with
  | |- context [match ?l with [] => _ | _ :: _ => _ end] =>
      assert (Ha : forall a, In a l -> In a action_types);
      [|generalize dependent l; intros actions Ha]
  end.
  { intros a. rewrite !in_app_iff.
    intros [H|[H|[H|H]]]; [exact (Hd a H)|idtac..].
    - destruct (any_in _ task); simpl in H; [|done].
      destruct H as [<-|[]]. vm_compute; tauto.
    - destruct (any_in _ task); simpl in H; [|done].
      destruct H as [<-|[]]. vm_compute; tauto.
    - destruct (any_in _ task); simpl in H; [|done].
      destruct H as [<-|[]]. vm_compute; tauto. }
  destruct actions as [|a0 actions].
  - split; [done|]. split.
    + apply NoDup_singleton.
    + intros a [<-|[]]. vm_compute; tauto.
  - split; [|split].
    + intros E. assert (H : In a0 (list_set (a0 :: actions)))
        by (apply list_set_In; by left).
      rewrite E in H. destruct H.
    + apply list_set_NoDup.
    + intros a H. apply Ha. exact (proj1 (list_set_In a _) H).
Qed.

Lemma In_fold_app {A B : Type} (f : B -> list A) (l : list B)
      (base : list A) (x : A) :
  In x (fold_left (fun acc b => acc ++ f b) l base)
  <-> In x base \/ exists b, In b l /\ In x (f b).
Proof.
  revert base. induction l as [|b l IH]; intros base; simpl.
  - split; [tauto|]. intros [H|(b & [] & _)]. exact H.
  - rewrite IH, in_app_iff. split.
    + intros [[H|H]|(b' & Hb & Hx)]; [tauto|right; exists b; tauto|].
      right. exists b'. tauto.
    + intros [H|(b' & [<-|Hb] & Hx)]; [tauto|tauto|].
      right. exists b'. tauto.
Qed.

(** X3. The priority areas are the union, without repetition, of the
    areas of the persona type (or the two default areas, when the type has
    none) and of the areas of each job action. *)
Theorem priority_areas_union :
  forall (persona_type : string) (job_actions : list string),
    NoDup (_identify_priority_areas persona_type job_actions)
    /\ forall area : string,
        In area (_identify_priority_areas persona_type job_actions)
        <-> In area (lookup_or persona_type priority_map
                       ["information"; "details"])
            \/ exists action,
                In action job_actions
                /\ In area (lookup_or action action_priorities []).
Proof.
  intros pt acts. unfold _identify_priority_areas. split.
  - apply list_set_NoDup.
  - intros area. rewrite list_set_In.
    apply (In_fold_app (fun a => lookup_or a action_priorities [])).
Qed.

(** X4. Each of the four content-type weights of a profile is a number
    strictly between 0 and 1, for every persona type and every list of job
    actions. *)
Theorem context_weights_proper :
  forall (persona_type : string) (job_actions : list string),
    let w := _calculate_context_weights persona_type job_actions in
    proper_weight (instructional w) = true
    /\ proper_weight (descriptive w) = true
    /\ proper_weight (analytical w) = true
    /\ proper_weight (reference w) = true.
Proof.
  intros pt acts.
  unfold _calculate_context_weights, adjusted_weights.
  generalize (mem pt ["student"; "researcher"]),
             (mem pt ["planner"; "contractor"]),
             (mem "create" acts), (mem "prepare" acts),
             (mem "analyze" acts), (mem "plan" acts).
  intros [] [] [] [] [] []; vm_compute; auto.
Qed.

Lemma run_number_stops (units : list string) (s : string) :
  stops is_digit s = true -> Re.run (number_then units) s = None.
Proof.
  intros H. destruct s as [|c s]; simpl in *; [done|].
  apply negb_true_iff in H. by rewrite H.
Qed.

Lemma find_number_skip (units : list string) (pre s : string) :
  all_chars not_digit pre = true ->
  Re.find (number_then units) (pre ++ s) = Re.find (number_then units) s.
Proof.
  induction pre as [|c pre IH]; intros H; [done|].
  simpl in H. apply andb_true_iff in H as [Hc H].
  change (String c pre ++ s)%string with (String c (pre ++ s)%string).
  cbn [Re.find]. rewrite run_number_stops by exact Hc.
  by apply IH.
Qed.

Lemma find_number_none (units : list string) (s : string) :
  all_chars not_digit s = true -> Re.find (number_then units) s = None.
Proof.
  induction s as [|c s IH]; intros H; [done|].
  simpl in H. apply andb_true_iff in H as [Hc H].
  cbn [Re.find]. rewrite run_number_stops by exact Hc.
  by apply IH.
Qed.

Lemma find_here (r : Re.regex) (s rest : string) :
  Re.run r s = Some rest -> Re.find r s = Some (s, rest).
Proof. intros H. destruct s; cbn [Re.find]; by rewrite H. Qed.

Lemma first_alt_unit (units : list string) (u rest : string) :
  In u units ->
  exists r, Re.first_alt (Re.run []) units (u ++ rest) = Some r.
Proof.
  induction units as [|w units IH]; intros H; [destruct H|].
  simpl. destruct (Re.strip_prefix w (u ++ rest)) as [s'|] eqn:E;
    [by eexists|].
  destruct H as [->|H]; [|by apply IH].
  rewrite TextFacts.strip_prefix_app in E. discriminate.
Qed.

Lemma find_unit (units : list string) (u rest : string) :
  In u units ->
  exists u', List.find (fun w => startswith w (u ++ rest)) units = Some u'.
Proof.
  induction units as [|w units IH]; intros H; [destruct H|].
  simpl. destruct (startswith w (u ++ rest)) eqn:E; [by eexists|].
  destruct H as [->|H]; [|by apply IH].
  rewrite TextFacts.startswith_app in E. discriminate.
Qed.

(** The leftmost number of the text, when a unit follows it: the search
    finds it, and its first group is the whole run of digits. *)
Lemma search_groups_leftmost (units : list string)
      (pre ds ws u rest : string) :
  Forall (fun w => stops (Re.union is_digit is_space) w = true
                   /\ w <> EmptyString) units ->
  all_chars not_digit pre = true ->
  ds <> EmptyString -> all_chars is_digit ds = true ->
  all_chars is_space ws = true ->
  In u units ->
  exists u',
    List.find (fun w => startswith w (u ++ rest)) units = Some u'
    /\ search_groups units (pre ++ ds ++ ws ++ u ++ rest) = Some (ds, u').
Proof.
  intros Hunits Hpre Hne Hds Hws Hu.
  destruct (find_unit units u rest Hu) as [u' Hu'].
  exists u'. split; [exact Hu'|].
  assert (Hstart : stops (Re.union is_digit is_space) (u ++ rest) = true).
  { rewrite Forall_forall in Hunits. destruct (Hunits u) as [Hs Hn].
    - by apply list_elem_of_In.
    - destruct u as [|c u]; [done|]. exact Hs. }
  assert (Hd : stops is_digit (u ++ rest) = true
               /\ stops is_space (u ++ rest) = true).
  { destruct (u ++ rest)%string as [|c t]; simpl in *; [done|].
    unfold Re.union in Hstart. apply negb_true_iff, orb_false_iff in Hstart.
    destruct Hstart as [-> ->]. done. }
  destruct Hd as [Hd Hs].
  assert (Hws_d : stops is_digit (ws ++ u ++ rest) = true).
  { apply (TextFacts.stops_app is_digit is_space); [|exact Hws|exact Hd].
    apply TextFacts.space_not_digit. }
  destruct (first_alt_unit units u rest Hu) as [r Hr].
  assert (Hrun : Re.run (number_then units) (ds ++ ws ++ u ++ rest) = Some r).
  { unfold number_then, Re.plus, Re.star. cbn [Re.run].
    apply TextFacts.greedy_all; [exact Hds|exact Hws_d| |].
    - apply TextFacts.greedy_all; [exact Hws|exact Hs|exact Hr|lia].
    - destruct ds; [done|simpl; lia]. }
  unfold search_groups. rewrite find_number_skip by exact Hpre.
  rewrite (find_here _ _ _ Hrun).
  rewrite (TextFacts.span_app is_digit ds) by assumption.
  rewrite (TextFacts.span_app is_space ws) by assumption.
  by rewrite Hu'.
Qed.

Lemma units_plain :
  Forall (fun w => stops (Re.union is_digit is_space) w = true
                   /\ w <> EmptyString) size_units
  /\ Forall (fun w => stops (Re.union is_digit is_space) w = true
                      /\ w <> EmptyString) duration_units.
Proof. split; repeat constructor; discriminate. Qed.

Lemma find_len (r : Re.regex) (s from rest : string) :
  Re.find r s = Some (from, rest) -> len from <= len s.
Proof.
  unfold len. induction s as [|c s IH]; cbn [Re.find].
  - destruct (Re.run r EmptyString); [|done]. by intros [= <- _].
  - destruct (Re.run r (String c s)); [by intros [= <- _]|].
    intros H. apply IH in H. simpl. lia.
Qed.

Lemma span_len (p : ascii -> bool) (s : string) :
  len (fst (span p s)) <= len s.
Proof.
  unfold len. induction s as [|c s IH]; [done|]. simpl.
  destruct (p c); [|simpl; lia].
  destruct (span p s) as [a b]. simpl in *. lia.
Qed.

(** The first group of a match is not longer than the text. *)
Lemma search_groups_len (units : list string) (task g1 g2 : string) :
  search_groups units task = Some (g1, g2) -> len g1 <= len task.
Proof.
  unfold search_groups.
  destruct (Re.find (number_then units) task) as [[from rest]|] eqn:E;
    [|done].
  apply find_len in E. pose proof (span_len is_digit from) as Hs.
  destruct (span is_digit from) as [digits rest']. simpl in Hs.
  destruct (span is_space rest') as [sp rest''].
  destruct (List.find _ units); [|done].
  intros [= <- _]. lia.
Qed.

Lemma int_short (s : string) :
  len s <= int_max_str_digits -> int s = Some (int_go 0 s).
Proof.
  intros H. unfold int. by rewrite (proj2 (Nat.ltb_ge _ _) H).
Qed.

Lemma int_long (s : string) : int_max_str_digits < len s -> int s = None.
Proof. intros H. unfold int. by rewrite (proj2 (Nat.ltb_lt _ _) H). Qed.

(** [int] cannot raise in a task of at most 4300 characters. *)
Lemma requirements_short (task : string) :
  len task <= int_max_str_digits ->
  exists r, _extract_requirements task = Some r.
Proof.
  intros H. unfold _extract_requirements, size_of.
  destruct (search_groups ["people"; "person"; "friend"; "guest";
                           "individual"] task) as [[g1 g2]|] eqn:E;
    [|by eexists].
  apply search_groups_len in E.
  rewrite int_short by lia. by eexists.
Qed.

(** X5. A task without any digit states neither a group size nor a
    duration: [_extract_requirements] returns, and both are [None]. *)
Theorem requirements_without_digits (task : string) :
  all_chars not_digit task = true ->
  exists r,
    _extract_requirements task = Some r
    /\ req_size r = None
    /\ duration r = None.
Proof.
  intros H. unfold _extract_requirements, search_groups.
  rewrite !find_number_none by exact H. by eexists.
Qed.

Lemma requirements_without_digits_witness :
  all_chars not_digit "plan a trip for ten friends" = true
  /\ exists r,
      _extract_requirements "plan a trip for ten friends" = Some r
      /\ req_size r = None
      /\ duration r = None.
Proof.
  split; [reflexivity|].
  apply (requirements_without_digits "plan a trip for ten friends").
  reflexivity.
Defined.

(** X6. When the first digits of the task are a number followed, after
    optional white space, by a unit, that number is what the requirements
    record.  When the unit is one of the size words and the number has at
    most 4300 digits, [_extract_requirements] returns and the group size
    is the value of the number; when the number has more digits, [int]
    raises and so does [_extract_requirements].  When the unit is one of
    the duration words, the duration of the requirements returned is
    written number, space, unit and "s", and requirements are returned
    whenever the task has at most 4300 characters. *)
Theorem requirements_leftmost_number (pre ds ws u rest : string) :
  all_chars not_digit pre = true ->
  ds <> EmptyString -> all_chars is_digit ds = true ->
  all_chars is_space ws = true ->
  (In u size_units ->
   (len ds <= int_max_str_digits ->
    exists r n,
      int ds = Some n
      /\ _extract_requirements (pre ++ ds ++ ws ++ u ++ rest) = Some r
      /\ req_size r = Some n)
   /\ (int_max_str_digits < len ds ->
       _extract_requirements (pre ++ ds ++ ws ++ u ++ rest) = None))
  /\ (In u duration_units ->
      (forall r,
          _extract_requirements (pre ++ ds ++ ws ++ u ++ rest) = Some r ->
          duration r = Some (ds ++ " " ++ u ++ "s")%string)
      /\ (len (pre ++ ds ++ ws ++ u ++ rest) <= int_max_str_digits ->
          exists r,
            _extract_requirements (pre ++ ds ++ ws ++ u ++ rest) = Some r)).
Proof.
  intros Hpre Hne Hds Hws. split; intros Hu.
  - destruct (search_groups_leftmost size_units pre ds ws u rest
                (proj1 units_plain) Hpre Hne Hds Hws Hu) as (u' & _ & E).
    unfold _extract_requirements. fold size_units. rewrite E.
    unfold size_of. split; intros Hlen.
    + rewrite (int_short ds Hlen). by eexists _, _.
    + by rewrite (int_long ds Hlen).
  - split; [|apply requirements_short].
    destruct (search_groups_leftmost duration_units pre ds ws u rest
                (proj2 units_plain) Hpre Hne Hds Hws Hu) as (u' & Hu' & E).
    intros r. unfold _extract_requirements. fold duration_units.
    rewrite E. destruct (size_of _); [|done]. intros [= <-].
    cbn [duration].
    assert (u' = u) as ->; [|done].
    destruct Hu as [<-|[<-|[<-|[<-|[]]]]]; simpl in Hu'; congruence.
Qed.

Lemma requirements_leftmost_number_witness :
  (exists r,
      _extract_requirements "dinner for 12 guests" = Some r
      /\ req_size r = Some 12%N)
  /\ (exists r,
         _extract_requirements "a trip of 4 days" = Some r
         /\ duration r = Some "4 days").
Proof.
  split.
  - assert (H : In "guest" size_units) by (simpl; tauto).
    destruct (proj1 (proj1 (requirements_leftmost_number
                              "dinner for " "12" " " "guest" "s"
                              eq_refl ltac:(discriminate) eq_refl eq_refl)
                       H))
      as (r & n & Hn & Hr & Hs); [unfold int_max_str_digits, len; simpl; lia|].
    exists r. split; [exact Hr|]. rewrite Hs, <- Hn. reflexivity.
  - assert (H : In "day" duration_units) by (simpl; tauto).
    destruct (proj2 (requirements_leftmost_number
                       "a trip of " "4" " " "day" "s"
                       eq_refl ltac:(discriminate) eq_refl eq_refl) H)
      as [Hd Hr].
    destruct Hr as [r Hr]; [unfold int_max_str_digits, len; simpl; lia|].
    exists r. split; [exact Hr|]. by apply Hd.
Defined.

(** X7. The domain keywords of a profile always start with the ten
    keywords of its persona type: the type found for a persona is a key of
    the keyword table, so the empty default of the lookup is never used.
    [create_persona_profile] returns no profile only when
    [_extract_requirements] raises. *)
Theorem profile_domain_keywords :
  forall persona job : string,
    match create_persona_profile persona job with
    | Some p =>
        exists kws task_kws : list string,
          In (persona_type p, kws) persona_keywords
          /\ length kws = 10
          /\ domain_keywords p = kws ++ task_kws
    | None => _extract_requirements (lower job) = None
    end.
Proof.
  intros persona0 job. unfold create_persona_profile.
  destruct (_extract_requirements (lower job)) as [r|]; [|done].
  cbn [persona_type domain_keywords].
  unfold _get_domain_keywords.
  match goal with
  | |- context [lookup_or _ persona_keywords [] ++ ?x] =>
      set (tk := x); clearbody tk
  end.
  pose proof (persona_type_known (lower persona0)) as H.
  exists (lookup_or (_identify_persona_type (lower persona0))
            persona_keywords []), tk.
  destruct H as [<-|[<-|[<-|[<-|[<-|[<-|[<-|[]]]]]]]];
    (split; [vm_compute; tauto|split; reflexivity]).
Qed.

End PersonaFacts.

(** ** Sections of a document *)

Module SectionFacts.
Import PyStr SectionExtractor SpecText SpecSections FloatFacts.
Import Spec.
Local Open Scope list_scope.

(** *** Validity, exactly *)

(** X8. [_is_valid_section] accepts exactly the contents whose stripped
    length is at least 50, whose length is at most 2000 and whose distinct
    words are at least three for every ten words: the binary64 test
    [distinct < total * 0.3] agrees with the comparison of integers. *)
Theorem valid_section_exact :
  forall c : string,
    _is_valid_section c = true
    <-> 50 <= len (strip c) /\ len c <= 2000
        /\ 3 * length (split_ws c) <= 10 * distinct (split_ws c).
Proof.
  intros c. split.
  - intros H. pose proof (ValidFacts.valid_within c H) as (_ & H2 & H3).
    split; [|done]. unfold _is_valid_section in H.
    destruct (is_empty c || (len (strip c) <? min_section_length)) eqn:E1;
      [done|].
    apply orb_false_iff in E1 as [_ E1]. by apply Nat.ltb_ge in E1.
  - intros (H1 & H2 & H3). by apply ValidFacts.within_valid.
Qed.

(** *** Content of an explicit section *)

Lemma collect_prefix (lines : list string) :
  forall acc,
    exists n,
      collect_content acc lines = acc ++ firstn n (kept lines)
      /\ (n = length (kept lines) \/ 4 <= length acc + n).
Proof.
  induction lines as [|l rest IH]; intros acc.
  - exists 0. simpl. rewrite app_nil_r. auto.
  - cbn [collect_content].
    destruct (_looks_like_header (strip l) && (3 <? length acc)) eqn:E.
    + exists 0. simpl. rewrite app_nil_r. split; [done|]. right.
      apply andb_true_iff in E as [_ E]. apply Nat.ltb_lt in E. lia.
    + unfold kept. cbn [map List.filter].
      destruct (is_empty (strip l)) eqn:El; cbn [negb].
      * destruct (IH acc) as (n & Hn & Hlen). exists n. done.
      * destruct (IH (acc ++ [strip l])) as (n & Hn & Hlen).
        exists (S n). rewrite Hn. rewrite <- app_assoc. split; [done|].
        rewrite length_app in Hlen. simpl in *.
        fold (kept rest) in *. lia.
Qed.

Lemma section_content_shape (text t : string) (pn : nat) :
  match after_title (lower t) (split nl text) with
  | None => _extract_section_content text t pn = EmptyString
  | Some rest =>
      exists n,
        _extract_section_content text t pn
        = join " " (firstn n (kept rest))
        /\ (n = length (kept rest) \/ 4 <= n)
  end.
Proof.
  unfold _extract_section_content.
  destruct (after_title (lower t) (split nl text)) as [rest|]; [|done].
  destruct (collect_prefix rest []) as (n & Hn & Hlen).
  exists n. rewrite Hn. done.
Qed.

(** X9. The content of an explicit section is empty when no line of the
    page contains the title (compared in lower case); otherwise it is made
    of the first [n] non-blank lines after the first such line, stripped
    and joined by single spaces, in their order and without a gap, where
    [n] is all of them or at least four. *)
Theorem section_content_prefix :
  forall (page_text section_title : string) (page_number : nat),
    match after_title (lower section_title) (split nl page_text) with
    | None =>
        _extract_section_content page_text section_title page_number
        = EmptyString
    | Some rest =>
        exists n,
          _extract_section_content page_text section_title page_number
          = join " " (firstn n (kept rest))
          /\ (n = length (kept rest) \/ 4 <= n)
    end.
Proof. exact section_content_shape. Qed.

Lemma after_title_Forall (P : string -> Prop) (t : string)
      (lines rest : list string) :
  after_title t lines = Some rest -> Forall P lines -> Forall P rest.
Proof.
  induction lines as [|l lines IH]; simpl; [done|].
  intros H Hl. apply Forall_cons in Hl as [_ Hl].
  destruct (contains t (lower l)); [by injection H as <-|by apply IH].
Qed.

Lemma kept_one_line (lines : list string) :
  Forall one_line lines -> Forall one_line (kept lines).
Proof.
  intros H. unfold kept. apply ListFacts.Forall_filter, Forall_map.
  eapply Forall_impl; [exact H|].
  intros l Hl. by apply TextFacts.all_chars_strip.
Qed.

Lemma section_content_one_line (text t : string) (pn : nat) :
  one_line (_extract_section_content text t pn).
Proof.
  pose proof (section_content_shape text t pn) as H.
  destruct (after_title (lower t) (split nl text)) as [rest|] eqn:E.
  - destruct H as (n & -> & _).
    apply TextFacts.all_chars_join; [done|].
    apply Forall_take, kept_one_line.
    apply (after_title_Forall _ _ _ _ E), TextFacts.split_nl_one_line.
  - by rewrite H.
Qed.

(** A pattern that starts with a line break is found in no text of one
    line. *)
Lemma search_line_break (r : Re.regex) (s : string) :
  one_line s -> Re.search (Re.Lit nl :: r) s = false.
Proof.
  unfold one_line, Re.matches.
  induction s as [|c s IH]; intros H; [done|].
  simpl in H. apply andb_true_iff in H as [Hc H].
  cbn [Re.search]. rewrite (IH H), orb_false_r.
  unfold Re.matches. cbn [Re.run nl Re.strip_prefix].
  unfold not_newline in Hc. apply negb_true_iff in Hc. by rewrite Hc.
Qed.

Lemma split_one_line (c : string) :
  one_line c -> len c <= 2000 ->
  _split_into_subsections c = by_sentences c.
Proof.
  intros H Hlen. unfold _split_into_subsections, by_sentences.
  unfold numbered_pattern, bullet_pattern.
  rewrite !search_line_break by exact H. cbn [andb].
  destruct (10 <? length (Re.split sentence_pattern c)); [done|].
  change max_section_length with 2000.
  by rewrite (proj2 (Nat.ltb_ge _ _) Hlen).
Qed.

Lemma split_valid (c : string) :
  len c <= 2000 ->
  _split_into_subsections c
  = stripped_nonempty (Re.split numbered_pattern c)
  \/ _split_into_subsections c
     = stripped_nonempty (Re.split bullet_pattern c)
  \/ _split_into_subsections c = by_sentences c.
Proof.
  intros Hlen. unfold _split_into_subsections, by_sentences.
  destruct (Re.search numbered_pattern c && _); [by left|].
  destruct (Re.search bullet_pattern c && _); [right; by left|].
  right; right.
  destruct (10 <? length (Re.split sentence_pattern c)); [done|].
  change max_section_length with 2000.
  by rewrite (proj2 (Nat.ltb_ge _ _) Hlen).
Qed.

(** *** Where sections come from *)

Lemma flush_from (f : string) (p : page) (t : option string)
      (cur : list string) (t_out : string) :
  (forall t0, t = Some t0 -> is_empty t0 = false ->
     t_out = t0
     /\ _looks_like_header t0 = true
     /\ exists paragraph,
          In paragraph (paragraphs_of (p_text p))
          /\ t0 = first_line_of paragraph) ->
  Forall (from_page f p) (flush f (p_page_number p) t cur t_out).
Proof.
  intros Ht. unfold flush.
  destruct (titled_and_nonempty t cur) eqn:E; [|constructor].
  destruct (_is_valid_section (join " " cur)); [|constructor].
  destruct t as [t0|]; [|done]. destruct cur as [|x cur]; [done|].
  simpl in E. apply negb_true_iff in E.
  destruct (Ht t0 eq_refl E) as (-> & Hh & par & Hpar & Hfl).
  constructor; [|constructor].
  unfold from_page, implicit_section. simpl.
  repeat split. exists par. done.
Qed.

(** Invariant of the loop over the paragraphs of a page. *)
Lemma implicit_fold_from (f : string) (p : page) (ps : list string) :
  forall st,
    (forall x, In x ps -> In x (paragraphs_of (p_text p))) ->
    Forall (from_page f p) (sections_out st) ->
    (forall t0, current_title st = Some t0 ->
       _looks_like_header t0 = true
       /\ exists paragraph,
            In paragraph (paragraphs_of (p_text p))
            /\ t0 = first_line_of paragraph) ->
    let st' := fold_left (implicit_step f (p_page_number p)) ps st in
    Forall (from_page f p) (sections_out st')
    /\ (forall t0, current_title st' = Some t0 ->
          _looks_like_header t0 = true
          /\ exists paragraph,
               In paragraph (paragraphs_of (p_text p))
               /\ t0 = first_line_of paragraph).
Proof.
  induction ps as [|x ps IH]; intros st Hps Hout Ht; [done|].
  cbn [fold_left]. apply IH.
  - intros y Hy. apply Hps. by right.
  - unfold implicit_step.
    destruct (_looks_like_header (first_line_of x) && _); simpl; [|done].
    apply Forall_app. split; [done|].
    apply flush_from. intros t0 E _. rewrite E. simpl.
    split; [done|]. by apply Ht.
  - unfold implicit_step.
    destruct (_looks_like_header (first_line_of x) && _) eqn:E; simpl;
      [|done].
    intros t0 [= <-]. apply andb_true_iff in E as [E _].
    split; [done|]. exists x. split; [|done]. apply Hps. by left.
Qed.

Lemma implicit_from (f : string) (p : page) :
  Forall (from_page f p)
         (_extract_implicit_sections (p_text p) (p_page_number p) f).
Proof.
  unfold _extract_implicit_sections.
  destruct (implicit_fold_from f p (paragraphs_of (p_text p))
              (mk_state [] [] None)) as [Hout Ht];
    [done|constructor|done|].
  apply Forall_app. split; [done|].
  apply flush_from. intros t0 E Hne.
  rewrite E, (ImplicitFacts.title_or_default_header t0 _ Hne).
  split; [done|]. by apply Ht.
Qed.

Lemma explicit_from (f : string) (p : page) :
  Forall (from_page f p) (explicit_sections f p).
Proof.
  unfold explicit_sections.
  apply Forall_flat_map, Forall_forall. intros h Hh.
  destruct (_is_valid_section _); [|constructor].
  constructor; [|constructor].
  unfold from_page. simpl. repeat split.
  exists h. split; [|done]. by apply list_elem_of_In.
Qed.

Lemma extract_sections_sub (P : section -> Prop) (doc : doc_content)
      (f : string) :
  Forall P (flat_map (page_sections f) (pages doc)) ->
  Forall P (extract_sections doc f).
Proof.
  intros H.
  unfold extract_sections, _rank_sections_by_quality, _deduplicate_sections.
  apply SortFacts.sort_desc_Forall.
  eapply DedupFacts.Forall_sublist; [apply DedupFacts.dedup_go_sublist|].
  exact H.
Qed.

Lemma sections_from_pages (doc : doc_content) (f : string) :
  Forall (fun s => exists p, In p (pages doc) /\ from_page f p s)
         (extract_sections doc f).
Proof.
  apply extract_sections_sub, Forall_flat_map, Forall_forall.
  intros p Hp. apply list_elem_of_In in Hp.
  eapply Forall_impl;
    [apply Forall_app; split; [apply explicit_from|apply implicit_from]|].
  intros s Hs. by exists p.
Qed.

(** X10. Where the sections of a document come from.  Every section that
    [extract_sections] returns carries the file name, no relevance score,
    and the number of a page of the document; an explicit one has the
    title of a header candidate of that page and the content found for
    that title; an implicit one has as title the stripped first line of a
    paragraph of that page, and that line looks like a header, so the
    default title of the last flush is never used. *)
Theorem extract_sections_provenance :
  forall (doc : doc_content) (filename : string),
    Forall (fun s => exists p, In p (pages doc) /\ from_page filename p s)
           (extract_sections doc filename).
Proof. exact sections_from_pages. Qed.

(** X11. How the sections of a document are split into subsections.  The
    split by length is never used, since a section has at most 2000
    characters; and the content of an explicit section is one line, so
    that neither numbered lists nor bullets, which need a line break, are
    found in it: it is split by sentences or not at all. *)
Theorem split_strategies_of_sections :
  forall (doc : doc_content) (filename : string),
    Forall
      (fun s =>
         let c := content s in
         (_split_into_subsections c
          = stripped_nonempty (Re.split numbered_pattern c)
          \/ _split_into_subsections c
             = stripped_nonempty (Re.split bullet_pattern c)
          \/ _split_into_subsections c = by_sentences c)
         /\ (type s = explicit ->
             one_line c /\ _split_into_subsections c = by_sentences c))
      (extract_sections doc filename).
Proof.
  intros doc f.
  pose proof (sections_from_pages doc f) as Hfrom.
  pose proof (ValidFacts.extract_sections_valid doc f) as Hvalid.
  apply Forall_forall. intros s Hs.
  rewrite Forall_forall in Hfrom, Hvalid.
  destruct (Hfrom s Hs) as (p & _ & _ & _ & _ & Hty).
  pose proof (ValidFacts.valid_within _ (Hvalid s Hs)) as (_ & Hlen & _).
  cbn zeta. split; [by apply split_valid|].
  intros E. rewrite E in Hty. destruct Hty as (h & _ & _ & Hc).
  assert (H1 : one_line (content s))
    by (rewrite Hc; apply section_content_one_line).
  split; [done|]. by apply split_one_line.
Qed.

(** *** Deduplication and ranking by quality *)

Lemma dedup_go_represents (l : list section) :
  forall (seen : gset string) (s : section),
    In s l ->
    normalized s ∈ seen
    \/ exists s', In s' (dedup_go seen l) /\ normalized s' = normalized s.
Proof.
  induction l as [|x l IH]; intros seen s Hs; [destruct Hs|].
  cbn [dedup_go].
  destruct (bool_decide (normalized x ∈ seen)) eqn:E.
  - apply bool_decide_eq_true in E.
    destruct Hs as [->|Hs]; [by left|]. by apply IH.
  - destruct Hs as [->|Hs]; [right; exists s; split; [by left|done]|].
    destruct (IH ({[normalized x]} ∪ seen) s Hs) as [H|(s' & Hs' & Hn)].
    + apply elem_of_union in H as [H|H]; [|by left].
      apply elem_of_singleton in H. right. exists x.
      split; [by left|done].
    + right. exists s'. split; [by right|done].
Qed.

(** X12. Deduplication keeps the sections in their order, drops none
    without a representative (every section given has a kept section with
    the same normalized content), and keeps the first section given. *)
Theorem dedup_keeps_representatives :
  forall sections : list section,
    _deduplicate_sections sections `sublist_of` sections
    /\ (forall s, In s sections ->
         exists s', In s' (_deduplicate_sections sections)
                    /\ normalized s' = normalized s)
    /\ hd_error (_deduplicate_sections sections) = hd_error sections.
Proof.
  intros l. unfold _deduplicate_sections. split; [|split].
  - apply DedupFacts.dedup_go_sublist.
  - intros s Hs.
    destruct (dedup_go_represents l ∅ s Hs) as [H|H]; [|done].
    by apply not_elem_of_empty in H.
  - destruct l as [|x l]; [done|]. cbn [dedup_go].
    rewrite bool_decide_eq_false_2; [done|apply not_elem_of_empty].
Qed.

Section Descending.
Context {A : Type} (key : A -> float).

Lemma not_lt_ge_number (a b : float) :
  is_number (Prim2SF a) -> is_number (Prim2SF b) ->
  PrimFloat.ltb a b = false -> float_ge a b.
Proof.
  unfold float_ge. rewrite FloatAxioms.ltb_spec, FloatAxioms.leb_spec.
  apply SFleb_total.
Qed.

Lemma insert_desc_sorted (x : A) (l : list A) :
  is_number (Prim2SF (key x)) ->
  Forall (fun a => is_number (Prim2SF (key a))) l ->
  StronglySorted (key_ge key) l ->
  StronglySorted (key_ge key) (PySort.insert_desc key x l).
Proof.
  intros Hx Hl Hs. induction l as [|y l IH]; simpl.
  - repeat constructor.
  - apply StronglySorted_inv in Hs as [Hs Hy].
    apply Forall_cons in Hl as [Hny Hl].
    destruct (PrimFloat.ltb (key x) (key y)) eqn:E.
    + constructor; [by apply IH|].
      rewrite SortFacts.insert_desc_perm.
      constructor; [|done]. by apply lt_ge.
    + constructor; [by constructor|].
      assert (Hxy : key_ge key x y) by (by apply not_lt_ge_number).
      constructor; [done|].
      apply Forall_forall. intros z Hz.
      rewrite Forall_forall in Hy.
      apply (ge_trans _ (key y)); [done | apply (Hy z Hz)].
Qed.

(** A descending sort on keys that are numbers gives a list in which no
    element has a lower key than a later one. *)
Lemma sort_desc_sorted (l : list A) :
  Forall (fun a => is_number (Prim2SF (key a))) l ->
  StronglySorted (key_ge key) (PySort.sort_desc key l).
Proof.
  induction l as [|x l IH]; intros Hl; simpl; [constructor|].
  apply Forall_cons in Hl as [Hx Hl].
  apply insert_desc_sorted; [done| |by apply IH].
  by rewrite SortFacts.sort_desc_perm.
Qed.
End Descending.

Lemma quality_words_nonneg (c : string) (words : list string) :
  forall score : float,
    nonneg score ->
    nonneg
      (fold_left
         (fun score word =>
            if contains word (lower c) then (score + 0.5)%float else score)
         words score).
Proof.
  induction words as [|w words IH]; intros score H; simpl; [done|].
  apply IH. destruct (contains w (lower c)); [|done].
  apply add_nonneg; [done|]. by apply leb_zero_nonneg.
Qed.

Lemma quality_score_nonneg (s : section) : nonneg (quality_score s).
Proof.
  unfold quality_score. apply quality_words_nonneg.
  destruct (any_in _ _);
    destruct (_ && _); try destruct (_ && _);
    by apply leb_zero_nonneg.
Qed.

(** X13. The sections that [extract_sections] returns are in descending
    order of quality score: no section has a lower score than a later one.
    No two of them have the same normalized content. *)
Theorem extract_sections_ordered :
  forall (doc : doc_content) (filename : string),
    StronglySorted not_worse (extract_sections doc filename)
    /\ NoDup (normalized <$> extract_sections doc filename).
Proof.
  intros doc f. unfold extract_sections, _rank_sections_by_quality. split.
  - apply (sort_desc_sorted quality_score).
    apply Forall_forall. intros s _.
    apply nonneg_number, quality_score_nonneg.
  - rewrite SortFacts.sort_desc_perm.
    apply DedupFacts.dedup_go_NoDup.
Qed.

(** *** Groups of sentences *)

Lemma join_cons (sep x : string) (l : list string) :
  l <> [] -> join sep (x :: l) = (x ++ sep ++ join sep l)%string.
Proof. by destruct l. Qed.

Lemma join_app (sep : string) (l1 l2 : list string) :
  l1 <> [] -> l2 <> [] ->
  join sep (l1 ++ l2) = (join sep l1 ++ sep ++ join sep l2)%string.
Proof.
  intros H1 H2. induction l1 as [|x l1 IH]; [done|].
  destruct l1 as [|y l1].
  - simpl. by destruct l2.
  - change ((x :: y :: l1) ++ l2) with (x :: ((y :: l1) ++ l2)).
    cbn [join]. cbn [app]. cbn [app] in IH. rewrite IH by done.
    cbn [join]. by rewrite !TextFacts.append_assoc.
Qed.

Lemma group_sentences_nil (sentences cur : list string) :
  group_sentences cur sentences = [] -> cur = [] /\ sentences = [].
Proof.
  revert cur. induction sentences as [|x rest IH]; intros cur; simpl.
  - by destruct cur.
  - destruct (200 <? len (join " " (cur ++ [x]))); [done|].
    intros H. apply IH in H as [H _]. by destruct cur.
Qed.

Lemma group_sentences_join (sentences : list string) :
  forall cur,
    join " " (group_sentences cur sentences) = join " " (cur ++ sentences).
Proof.
  induction sentences as [|x rest IH]; intros cur.
  - simpl. rewrite app_nil_r. by destruct cur.
  - cbn [group_sentences].
    replace (cur ++ x :: rest) with ((cur ++ [x]) ++ rest)
      by (by rewrite <- app_assoc).
    destruct (200 <? len (join " " (cur ++ [x]))); [|apply IH].
    destruct rest as [|y rest]; [simpl; by rewrite app_nil_r|].
    rewrite (join_app " " (cur ++ [x]) (y :: rest));
      [|intros E; symmetry in E; by apply app_cons_not_nil in E|done].
    rewrite join_cons, (IH []); [done|].
    intros E. by apply group_sentences_nil in E as [_ E].
Qed.

Lemma group_sentences_long (sentences : list string) :
  forall cur,
    Forall long_group (removelast (group_sentences cur sentences)).
Proof.
  induction sentences as [|x rest IH]; intros cur.
  - simpl. destruct cur; constructor.
  - cbn [group_sentences].
    destruct (200 <? len (join " " (cur ++ [x]))) eqn:E; [|apply IH].
    cbn [removelast].
    destruct (group_sentences [] rest) eqn:Eg; [constructor|].
    rewrite <- Eg. constructor; [|apply IH].
    by apply Nat.ltb_lt in E.
Qed.

(** X14. Grouping sentences loses no text and makes no short group but
    the last: the groups joined by single spaces are the sentences joined
    by single spaces, and every group before the last one is longer than
    200 characters. *)
Theorem group_sentences_covers :
  forall sentences : list string,
    join " " (group_sentences [] sentences) = join " " sentences
    /\ Forall long_group (removelast (group_sentences [] sentences))
    /\ length (group_sentences [] sentences) <= length sentences.
Proof.
  intros l. split; [apply (group_sentences_join l [])|].
  split; [apply group_sentences_long|].
  assert (H : forall cur,
             length (group_sentences cur l)
             <= length l + (match cur with [] => 0 | _ => 1 end)).
  { induction l as [|x rest IH]; intros cur.
    - destruct cur; simpl; lia.
    - cbn [group_sentences].
      destruct (200 <? len (join " " (cur ++ [x]))).
      + specialize (IH []). simpl in *. lia.
      + specialize (IH (cur ++ [x])). destruct cur; simpl in *; lia. }
  specialize (H []). simpl in H. lia.
Qed.

End SectionFacts.

(** ** Where subsections come from *)

Module SubsectionProvenance.
Import PyStr SectionExtractor Spec.
Local Open Scope list_scope.

Lemma earlier_NoDup (l : list subsection) :
  StronglySorted earlier l -> NoDup (subsection_index <$> l).
Proof.
  induction 1 as [|x l Hs IH Hx]; [constructor|].
  rewrite fmap_cons. constructor; [|done].
  intros Hin. apply list_elem_of_fmap in Hin as (y & Hy & Hin).
  rewrite Forall_forall in Hx. specialize (Hx y Hin).
  unfold earlier in Hx. lia.
Qed.

Lemma subsections_from (s : section) (p : profile) (job : string) :
  Forall
    (fun sub =>
       sub_document sub = document s
       /\ sub_page_number sub = page_number s
       /\ 100 <= len (sub_content sub)
       /\ exists cand,
           _split_into_subsections (content s) !! subsection_index sub
           = Some cand
           /\ sub_content sub = strip cand
           /\ sub_relevance_score sub
              = _score_subsection_relevance cand p job)
    (extract_subsections s p job).
Proof.
  unfold extract_subsections.
  apply Forall_take, SortFacts.sort_desc_Forall.
  eapply Forall_impl; [apply SubsectionFacts.scored_subsections_spec|].
  intros sub (idx & cand & Hc & Hlen & ->). simpl.
  repeat split; [done|]. by exists cand.
Qed.

(** X15. Where subsections come from.  Every subsection returned for a
    section carries the document and the page number of that section; its
    content is the stripped text of the candidate at its index among the
    pieces of the section's content, and its score is the relevance score
    of that candidate.  No candidate is returned twice. *)
Theorem subsections_provenance :
  forall (s : section) (p : profile) (job : string),
    Forall
      (fun sub =>
         sub_document sub = document s
         /\ sub_page_number sub = page_number s
         /\ exists cand,
             _split_into_subsections (content s) !! subsection_index sub
             = Some cand
             /\ sub_content sub = strip cand
             /\ sub_relevance_score sub
                = _score_subsection_relevance cand p job)
      (extract_subsections s p job)
    /\ NoDup (subsection_index <$> extract_subsections s p job).
Proof.
  intros s p job. split.
  - eapply Forall_impl; [apply subsections_from|].
    intros sub (H1 & H2 & _ & H3). done.
  - unfold extract_subsections.
    eapply sublist_NoDup; [|apply fmap_sublist, sublist_take].
    rewrite SortFacts.sort_desc_perm.
    apply earlier_NoDup, SubsectionFacts.scored_increasing.
Qed.

(** X16. The relevance score of a subsection is a number not below zero
    for every profile that [create_persona_profile] builds, whatever the
    subsection and the task are; no profile is built only when
    [_extract_requirements] raises. *)
Theorem subsection_score_not_negative :
  forall (persona job sub job_task : string),
    match PersonaAnalyzer.create_persona_profile persona job with
    | Some p =>
        PrimFloat.leb 0 (_score_subsection_relevance sub p job_task) = true
    | None => PersonaAnalyzer._extract_requirements (lower job) = None
    end.
Proof.
  intros persona0 job sub job_task.
  unfold PersonaAnalyzer.create_persona_profile.
  destruct (PersonaAnalyzer._extract_requirements (lower job)) as [r|];
    [|done].
  apply FloatFacts.leb_zero_nonneg.
  destruct (SubsectionFacts.context_weights_nonneg
              (PersonaAnalyzer._identify_persona_type (lower persona0))
              (PersonaAnalyzer._extract_job_actions (lower job)))
    as [Hi Hd].
  by apply SubsectionFacts.score_nonneg.
Qed.

End SubsectionProvenance.

(** ** Ranking *)

Module RankingFacts.
Import PyStr RelevanceRanker FloatFacts SpecRanking.
Import Spec.
Local Open Scope list_scope.

Lemma rank_sections_fst sm tf (l : list section) (p : profile)
      (job : string) :
  fst (rank_sections sm tf l p job)
  = map fst (PySort.sort_desc snd (fst (final_scores sm tf l p job))).
Proof. by destruct l. Qed.

Lemma map_imap {A B C : Type} (g : B -> C) (h : A -> C)
      (l : list A) :
  forall f : nat -> A -> B,
    (forall i a, g (f i a) = h a) -> map g (imap f l) = map h l.
Proof.
  induction l as [|x l IH]; intros f H; [done|].
  cbn [imap map]. rewrite H. f_equal. apply IH. intros i a. apply H.
Qed.

Lemma final_scores_spec sm tf (l : list section) (p : profile)
      (job : string) :
  Forall (fun sx => exists s, fst sx = with_score s (snd sx))
         (fst (final_scores sm tf l p job))
  /\ map (fun sx => unscored (fst sx)) (fst (final_scores sm tf l p job))
     = map unscored l.
Proof.
  unfold final_scores. simpl. split.
  - apply Forall_forall. intros [s x] Hin.
    apply elem_of_lookup_imap in Hin.
    destruct Hin as (i & s0 & Heq & _).
    injection Heq as -> ->. by eexists.
  - by apply map_imap.
Qed.

Lemma rank_sections_unscored sm tf (l : list section) (p : profile)
      (job : string) :
  unscored <$> fst (rank_sections sm tf l p job) ≡ₚ unscored <$> l.
Proof.
  rewrite rank_sections_fst.
  destruct (final_scores_spec sm tf l p job) as [_ H].
  change (unscored <$> l) with (map unscored l). rewrite <- H.
  change (unscored <$> ?x) with (map unscored x).
  rewrite map_map.
  change (map ?f ?x) with (f <$> x).
  apply fmap_Permutation, SortFacts.sort_desc_perm.
Qed.

(** X17. Ranking neither drops nor invents sections: the sections that
    [rank_sections] returns are the given sections in another order, each
    with a relevance score added, whatever the collaborators answer. *)
Theorem rank_sections_permutation :
  forall sm tf (sections : list section) (p : profile) (job : string),
    unscored <$> fst (rank_sections sm tf sections p job)
    ≡ₚ unscored <$> sections.
Proof. exact rank_sections_unscored. Qed.

(** X18. When no final score is NaN, the sections that [rank_sections]
    returns are in descending order of the relevance score they carry:
    none has a lower score than a later one. *)
Theorem rank_sections_descending sm tf (sections : list section)
        (p : profile) (job : string) :
  Forall (fun sx => comparable (snd sx))
         (fst (final_scores sm tf sections p job)) ->
  StronglySorted by_score (fst (rank_sections sm tf sections p job)).
Proof.
  intros Hnum. rewrite rank_sections_fst.
  pose proof (SectionFacts.sort_desc_sorted snd _ Hnum) as Hs.
  destruct (final_scores_spec sm tf sections p job) as [Hw _].
  apply (SortFacts.sort_desc_Forall snd) in Hw.
  revert Hs Hw.
  generalize (PySort.sort_desc snd (fst (final_scores sm tf sections p job))).
  intros l Hs. induction Hs as [|x l Hs IH Hx]; intros Hw; [constructor|].
  apply Forall_cons in Hw as [[s Hxs] Hw].
  cbn [map]. constructor; [by apply IH|].
  apply Forall_map, Forall_forall. intros y Hy.
  rewrite Forall_forall in Hx, Hw.
  destruct (Hw y Hy) as [s' Hys]. specialize (Hx y Hy).
  unfold by_score, score_of. rewrite Hxs, Hys. exact Hx.
Qed.

Lemma rank_sections_descending_witness :
  StronglySorted by_score
    (fst (rank_sections None (fun _ _ => None) sample_sections
            scenario_profile scenario_job)).
Proof.
  apply (rank_sections_descending None (fun _ _ => None) sample_sections
           scenario_profile scenario_job).
  repeat constructor; vm_compute; discriminate.
Defined.

Lemma bump_nonneg (b : bool) (x w : float) :
  nonneg x -> PrimFloat.leb 0 w = true ->
  nonneg (if b then (x + w)%float else x).
Proof.
  intros Hx Hw. destruct b; [|done].
  apply add_nonneg; [done|]. by apply leb_zero_nonneg.
Qed.

Lemma min_nonneg (x c : float) :
  nonneg x -> nonneg c -> nonneg (PyFloat.min x c).
Proof. intros Hx Hc. unfold PyFloat.min. by destruct (PrimFloat.ltb c x). Qed.

Lemma min_cap_unit (x : float) : nonneg x -> unit_score (PyFloat.min x 1).
Proof.
  intros Hx. unfold unit_score, PyFloat.min.
  destruct (PrimFloat.ltb 1 x) eqn:E; [done|].
  split; [by apply leb_zero_nonneg|].
  apply (not_lt_ge 1 x); [|done|done]. by apply leb_zero_nonneg.
Qed.

(** X19. The structural score of a section is a number between 0 and 1,
    for every section and every profile. *)
Theorem structural_score_unit :
  forall (p : profile) (s : section), unit_score (structural_score p s).
Proof.
  intros p s. unfold structural_score. cbv zeta.
  apply min_cap_unit.
  repeat (apply bump_nonneg; [|reflexivity]).
  apply add_nonneg.
  - repeat (apply bump_nonneg; [|reflexivity]).
    destruct (_ && _); [by apply leb_zero_nonneg|].
    destruct (_ && _); [by apply leb_zero_nonneg|].
    destruct (50 <? _); by apply leb_zero_nonneg.
  - apply min_nonneg; [|by apply leb_zero_nonneg].
    eapply mul_nonneg_finite; [vm_compute; reflexivity|].
    apply of_uint63_nonneg.
Qed.

End RankingFacts.

(** ** The document processor *)

Module StripFacts.
Import PyStr SpecText.

Lemma lstrip_stops (s : string) : stops is_space (lstrip s) = true.
Proof.
  induction s as [|c s IH]; [done|]. simpl.
  destruct (is_space c) eqn:E; [done|]. simpl. by rewrite E.
Qed.

Lemma rstrip_stops (s : string) :
  stops is_space s = true -> stops is_space (rstrip s) = true.
Proof.
  destruct s as [|c s]; [done|]. simpl. intros H.
  apply negb_true_iff in H. rewrite H. simpl. by rewrite H.
Qed.

Lemma lstrip_fixed (s : string) : stops is_space s = true -> lstrip s = s.
Proof.
  destruct s as [|c s]; [done|]. simpl. intros H.
  apply negb_true_iff in H. by rewrite H.
Qed.

Lemma rstrip_idem (s : string) : rstrip (rstrip s) = rstrip s.
Proof.
  induction s as [|c s IH]; [done|]. simpl.
  destruct (is_space c && is_empty (rstrip s)) eqn:E; [done|].
  simpl. by rewrite IH, E.
Qed.

Lemma strip_idem (s : string) : strip (strip s) = strip s.
Proof.
  unfold strip.
  rewrite (lstrip_fixed (rstrip (lstrip s)))
    by apply rstrip_stops, lstrip_stops.
  apply rstrip_idem.
Qed.

End StripFacts.

Module ProcessorFacts.
Import PyStr DocumentProcessor SpecText SpecDocument.
Local Open Scope list_scope.

(** X20. Both header predicates look at the stripped line only, so white
    space around a line changes nothing; and the predicate of the document
    processor accepts no line whose stripped text has fewer than 3 or more
    than 100 characters. *)
Theorem header_predicates_stripped :
  forall line : string,
    _is_section_header (strip line) = _is_section_header line
    /\ SectionExtractor._looks_like_header (strip line)
       = SectionExtractor._looks_like_header line
    /\ (_is_section_header line = true -> 3 <= len (strip line) <= 100).
Proof.
  intros line. split; [|split].
  - unfold _is_section_header. by rewrite StripFacts.strip_idem.
  - unfold SectionExtractor._looks_like_header.
    by rewrite StripFacts.strip_idem.
  - unfold _is_section_header.
    destruct ((len (strip line) <? 3) || (100 <? len (strip line))) eqn:E;
      [done|].
    intros _. apply orb_false_iff in E as [E1 E2].
    apply Nat.ltb_ge in E1, E2. lia.
Qed.

(** *** Pages *)

Lemma unlines_snoc (ls : list string) (x : string) :
  unlines (ls ++ [x]) = (unlines ls ++ x ++ nl)%string.
Proof.
  induction ls as [|l ls IH]; simpl.
  - by rewrite TextFacts.append_empty_r.
  - rewrite IH. by rewrite !TextFacts.append_assoc.
Qed.

Lemma page_lines_snoc (ls : list text_line) (l : text_line) :
  List.filter (fun t => negb (is_empty t))
    (map (fun l => strip (line_text_of l)) (ls ++ [l]))
  = List.filter (fun t => negb (is_empty t))
      (map (fun l => strip (line_text_of l)) ls)
    ++ (if negb (is_empty (strip (line_text_of l)))
        then [strip (line_text_of l)] else []).
Proof. rewrite map_app, List.filter_app. simpl. by destruct (negb _). Qed.

Lemma add_line_after (page_num : nat) (seen : list text_line)
      (l : text_line) :
  add_line page_num (state_after page_num seen) l
  = state_after page_num (seen ++ [l]).
Proof.
  unfold state_after, add_line.
  rewrite page_lines_snoc, flat_map_app. simpl.
  destruct (negb (is_empty (strip (line_text_of l)))); simpl.
  - rewrite unlines_snoc. f_equal.
    destruct (_is_section_header _); by rewrite ?app_nil_r.
  - by rewrite !app_nil_r.
Qed.

Lemma add_lines_after (page_num : nat) (ls : list text_line) :
  forall seen,
    fold_left (add_line page_num) ls (state_after page_num seen)
    = state_after page_num (seen ++ ls).
Proof.
  induction ls as [|l ls IH]; intros seen; cbn [fold_left].
  - by rewrite app_nil_r.
  - rewrite add_line_after, IH. by rewrite <- app_assoc.
Qed.

Lemma add_blocks_after (page_num : nat) (p : fitz_page) :
  forall seen,
    fold_left (add_block page_num) p (state_after page_num seen)
    = state_after page_num (seen ++ lines_of p).
Proof.
  induction p as [|b p IH]; intros seen; cbn [fold_left].
  - unfold lines_of. simpl. by rewrite app_nil_r.
  - destruct b as [ls|]; cbn [add_block].
    + rewrite add_lines_after, IH. unfold lines_of. simpl.
      by rewrite <- app_assoc.
    + apply IH.
Qed.

(** The loops over the blocks and the lines of a page, in closed form. *)
Lemma page_content_closed (page_num : nat) (p : fitz_page) :
  page_content page_num p
  = mk_page (page_num + 1) (unlines (page_lines p))
            (page_headers page_num p).
Proof.
  unfold page_content.
  change (EmptyString, @nil header) with (state_after page_num []).
  by rewrite add_blocks_after.
Qed.

Lemma imap_Forall2 {A B : Type} (R : A -> B -> Prop) (l : list A) :
  forall f : nat -> A -> B,
    (forall i x, R x (f i x)) -> Forall2 R l (imap f l).
Proof.
  induction l as [|x l IH]; intros f H; [constructor|].
  constructor; [apply H|]. apply IH. intros i y. apply H.
Qed.

Lemma imap_page_numbers (doc : list fitz_page) :
  forall k,
    map p_page_number (imap (fun i => page_content (i + k)) doc)
    = seq (k + 1) (length doc).
Proof.
  induction doc as [|p doc IH]; intros k; [done|].
  cbn [imap map length seq]. f_equal.
  - by rewrite page_content_closed.
  - replace (S (k + 1)) with (S k + 1) by lia.
    rewrite <- (IH (S k)). f_equal. apply imap_ext. intros i x _.
    simpl. f_equal. lia.
Qed.

Lemma page_headers_spec (page_num : nat) (p : fitz_page) :
  Forall
    (fun h =>
       h_page h = page_num + 1
       /\ In (h_title h) (page_lines p)
       /\ _is_section_header (h_title h) = true)
    (page_headers page_num p).
Proof.
  unfold page_headers, page_lines.
  apply Forall_flat_map, Forall_forall. intros l Hl. cbn zeta.
  destruct (negb (is_empty (strip (line_text_of l)))) eqn:E1; [|constructor].
  destruct (_is_section_header (strip (line_text_of l))) eqn:E2;
    [|constructor].
  constructor; [|constructor]. simpl. split; [done|]. split; [|done].
  apply filter_In. split; [|done].
  apply in_map_iff. exists l. split; [done|]. by apply list_elem_of_In.
Qed.


(** X21. What [extract_text_and_structure] returns for a document that
    opens: one page per page of the document, numbered from 1 in order;
    the text of a page is made of the stripped non-blank lines of its text
    blocks, each ended by a line break; and every header candidate of a
    page is one of these lines, is accepted by [_is_section_header] and
    carries the number of the page. *)
Theorem extract_text_and_structure_pages :
  forall doc : list fitz_page,
    let result := extract_text_and_structure (Some doc) in
    total_pages result = length doc
    /\ map p_page_number (pages result) = seq 1 (length doc)
    /\ Forall2
         (fun p page =>
            p_text page = unlines (page_lines p)
            /\ Forall
                 (fun h =>
                    h_page h = p_page_number page
                    /\ In (h_title h) (page_lines p)
                    /\ _is_section_header (h_title h) = true)
                 (p_sections page))
         doc (pages result).
Proof.
  intros doc. cbn [extract_text_and_structure total_pages pages].
  cbv zeta. split; [|split].
  - by rewrite length_imap.
  - change 1 with (0 + 1) at 1.
    rewrite <- (imap_page_numbers doc 0). f_equal.
    apply imap_ext. intros i x _. simpl. f_equal. lia.
  - apply imap_Forall2. intros i p. rewrite page_content_closed. simpl.
    split; [done|]. apply page_headers_spec.
Qed.

(** *** Header candidates are found again *)

Lemma rev_onto_twice (s : string) :
  forall acc b, rev_onto b (rev_onto acc s) = rev_onto (s ++ b) acc.
Proof.
  induction s as [|c s IH]; intros acc b; [done|].
  cbn [rev_onto]. by rewrite IH.
Qed.

Lemma rev_onto_app (cur : string) :
  forall b, rev_onto b cur = (rev_onto EmptyString cur ++ b)%string.
Proof.
  induction cur as [|c cur IH]; intros b; [done|].
  cbn [rev_onto]. rewrite (IH (String c b)), (IH (String c EmptyString)).
  by rewrite TextFacts.append_assoc.
Qed.

Lemma rev_rev_onto (cur s : string) :
  rev (rev_onto cur s) = (rev cur ++ s)%string.
Proof.
  unfold rev. rewrite rev_onto_twice, TextFacts.append_empty_r.
  apply rev_onto_app.
Qed.

Lemma split_line (l rest : string) :
  one_line l ->
  forall cur,
    split_go nl 0 cur (l ++ nl ++ rest)
    = (rev cur ++ l)%string :: split_go nl 0 EmptyString rest.
Proof.
  unfold one_line. induction l as [|c l IH]; intros Hl cur.
  - change (EmptyString ++ nl ++ rest)%string
      with (String (ascii_of_nat 10) rest).
    cbn [split_go startswith nl]. rewrite Ascii.eqb_refl. cbn [andb].
    rewrite TextFacts.append_empty_r. by destruct rest.
  - simpl in Hl. apply andb_true_iff in Hl as [Hc Hl].
    change (String c l ++ nl ++ rest)%string
      with (String c (l ++ nl ++ rest)).
    cbn [split_go startswith nl].
    unfold not_newline in Hc. apply negb_true_iff in Hc.
    rewrite Hc. cbn [andb]. rewrite (IH Hl). f_equal.
    change (String c cur) with (rev_onto cur (String c EmptyString)).
    rewrite rev_rev_onto. by rewrite TextFacts.append_assoc.
Qed.

(** Splitting such a text at the line breaks gives the lines back, and an
    empty piece after the last break. *)
Lemma split_unlines (ls : list string) :
  Forall one_line ls -> split nl (unlines ls) = ls ++ [EmptyString].
Proof.
  unfold split. induction 1 as [|l ls Hl Hls IH]; [done|].
  cbn [unlines fold_right]. rewrite split_line by exact Hl.
  fold (unlines ls). by rewrite IH.
Qed.

Lemma startswith_refl (s : string) : startswith s s = true.
Proof.
  induction s as [|c s IH]; [done|]. simpl. by rewrite Ascii.eqb_refl.
Qed.

Lemma contains_refl (s : string) : contains s s = true.
Proof. destruct s; simpl; [done|]. by rewrite Ascii.eqb_refl, startswith_refl. Qed.

Lemma after_title_found (t : string) (ls extra : list string) :
  In t ls ->
  exists rest,
    SectionExtractor.after_title (lower t) (ls ++ extra) = Some rest.
Proof.
  induction ls as [|l ls IH]; intros H; [destruct H|].
  cbn [app SectionExtractor.after_title].
  destruct (contains (lower t) (lower l)) eqn:E; [by eexists|].
  destruct H as [->|H]; [|by apply IH].
  by rewrite contains_refl in E.
Qed.

Lemma line_text_one_line (l : text_line) :
  Forall one_line (spans l) -> one_line (line_text_of l).
Proof.
  unfold line_text_of, one_line.
  assert (H : forall acc,
             all_chars not_newline acc = true ->
             Forall one_line (spans l) ->
             all_chars not_newline (fold_left append (spans l) acc) = true).
  { induction (spans l) as [|x xs IH]; intros acc Hacc Hs; [done|].
    apply Forall_cons in Hs as [Hx Hs]. cbn [fold_left].
    apply IH; [|done]. by rewrite TextFacts.all_chars_app, Hacc, Hx. }
  by apply H.
Qed.

Lemma page_lines_one_line (p : fitz_page) :
  Forall (fun l => Forall one_line (spans l)) (lines_of p) ->
  Forall one_line (page_lines p).
Proof.
  intros H. unfold page_lines.
  apply ListFacts.Forall_filter, Forall_map.
  eapply Forall_impl; [exact H|].
  intros l Hl. by apply TextFacts.all_chars_strip, line_text_one_line.
Qed.

Lemma imap_Forall {A B : Type} (Q : A -> Prop) (P : B -> Prop)
      (l : list A) :
  forall f : nat -> A -> B,
    Forall Q l -> (forall i x, Q x -> P (f i x)) -> Forall P (imap f l).
Proof.
  induction l as [|x l IH]; intros f Hl H; [constructor|].
  apply Forall_cons in Hl as [Hx Hl].
  constructor; [by apply H|]. apply IH; [done|]. intros i y. apply H.
Qed.

(** X22. In a document read from a PDF whose spans hold no line break,
    every header candidate of a page is found again by the section
    extractor: a line of the page contains its title, so the content of
    the explicit section is taken from the lines after that line and the
    answer for a title that is not found is not used. *)
Theorem headers_are_found (doc : list fitz_page) :
  one_line_spans doc ->
  Forall
    (fun page =>
       Forall
         (fun h =>
            exists rest n,
              SectionExtractor.after_title (lower (h_title h))
                (split nl (p_text page)) = Some rest
              /\ SectionExtractor._extract_section_content
                   (p_text page) (h_title h) (p_page_number page)
                 = join " " (firstn n (Spec.kept rest)))
         (p_sections page))
    (pages (extract_text_and_structure (Some doc))).
Proof.
  intros Hdoc. cbn [extract_text_and_structure pages]. cbv zeta.
  eapply imap_Forall; [exact Hdoc|].
  intros i p Hp. rewrite page_content_closed.
  cbn [p_text p_sections p_page_number].
  eapply Forall_impl; [apply page_headers_spec|].
  intros h (_ & Hin & _).
  rewrite split_unlines by (by apply page_lines_one_line).
  destruct (after_title_found (h_title h) (page_lines p) [EmptyString] Hin)
    as [rest Hrest].
  destruct (SectionFacts.collect_prefix rest []) as (n & Hn & _).
  exists rest, n. split; [done|].
  unfold SectionExtractor._extract_section_content.
  rewrite split_unlines by (by apply page_lines_one_line).
  rewrite Hrest. by rewrite Hn.
Qed.

Lemma headers_are_found_witness :
  Forall
    (fun page =>
       Forall
         (fun h =>
            exists rest n,
              SectionExtractor.after_title (lower (h_title h))
                (split nl (p_text page)) = Some rest
              /\ SectionExtractor._extract_section_content
                   (p_text page) (h_title h) (p_page_number page)
                 = join " " (firstn n (Spec.kept rest)))
         (p_sections page))
    (pages (extract_text_and_structure (Some [sample_fitz_page]))).
Proof.
  apply (headers_are_found [sample_fitz_page]).
  repeat constructor.
Defined.

End ProcessorFacts.

(** ** Chunks of a text *)

Module ChunkFacts.
Import PyStr DocumentProcessor SpecText SpecChunks.
Local Open Scope list_scope.

Lemma get_some (s : string) :
  forall i, i < len s -> exists c, String.get i s = Some c.
Proof.
  unfold len. induction s as [|x s IH]; intros i Hi; simpl in *; [lia|].
  destruct i as [|i]; [by eexists|]. apply IH. lia.
Qed.

Lemma get_len (s : string) :
  forall i c, String.get i s = Some c -> i < len s.
Proof.
  unfold len. induction s as [|x s IH]; intros i c H; simpl in *; [done|].
  destruct i as [|i]; [lia|]. apply IH in H. lia.
Qed.

Lemma get_drop (k : nat) :
  forall (s : string) (i : nat),
    String.get i (drop k s) = String.get (i + k) s.
Proof.
  induction k as [|k IH]; intros s i.
  - by rewrite Nat.add_0_r.
  - destruct s as [|x s]; [by destruct i|].
    cbn [drop]. rewrite IH. by rewrite Nat.add_succ_r.
Qed.

Lemma get_take (k : nat) :
  forall (s : string) (i : nat),
    i < k -> String.get i (take k s) = String.get i s.
Proof.
  induction k as [|k IH]; intros s i Hi; [lia|].
  destruct s as [|x s]; [done|]. cbn [take].
  destruct i as [|i]; [done|]. simpl. apply IH. lia.
Qed.

Lemma all_chars_get (p : ascii -> bool) (s : string) :
  forall i c,
    all_chars p s = true -> String.get i s = Some c -> p c = true.
Proof.
  induction s as [|x s IH]; intros i c H Hget; simpl in *; [done|].
  apply andb_true_iff in H as [Hx H].
  destruct i as [|i]; [by injection Hget as <-|]. by apply (IH i).
Qed.

Lemma rstrip_empty (s : string) :
  is_empty (rstrip s) = true -> all_chars is_space s = true.
Proof.
  induction s as [|x s IH]; [done|]. simpl.
  destruct (is_space x) eqn:E; simpl; [|done].
  destruct (is_empty (rstrip s)) eqn:E2; [|done].
  intros _. by apply IH.
Qed.

Lemma lstrip_spaces (s : string) :
  all_chars is_space (lstrip s) = true -> all_chars is_space s = true.
Proof.
  induction s as [|x s IH]; [done|]. simpl.
  destruct (is_space x) eqn:E; simpl; [done|]. by rewrite E.
Qed.

(** A text whose stripped form is empty is made of white space. *)
Lemma strip_empty (s : string) :
  is_empty (strip s) = true -> all_chars is_space s = true.
Proof. intros H. by apply lstrip_spaces, rstrip_empty. Qed.

(** A character of the text inside a window is a character of the slice
    for that window. *)
Lemma slice_get (text : string) (start end_ : Z) (j : nat) (c : ascii) :
  (0 <= start <= Z.of_nat j)%Z -> (Z.of_nat j < end_)%Z ->
  String.get j text = Some c ->
  String.get (j - Z.to_nat start) (slice text start end_) = Some c.
Proof.
  intros Hs He Hget. pose proof (get_len _ _ _ Hget) as Hj.
  unfold slice, clamp.
  destruct (Z.ltb_spec start 0); [lia|].
  destruct (Z.ltb_spec end_ 0); [lia|].
  rewrite get_take by lia. rewrite get_drop.
  replace (j - Z.to_nat start + Z.to_nat (Z.min start (Z.of_nat (len text))))
    with j by lia.
  done.
Qed.

Lemma scan_back_spec (text : string) (count : nat) :
  forall i : Z,
    (0 <= i - Z.of_nat count + 1)%Z -> (i < Z.of_nat (len text))%Z ->
    match scan_back text i count with
    | Found j => (i - Z.of_nat count < j <= i)%Z
    | NotFound => True
    | IndexError => False
    end.
Proof.
  induction count as [|k IH]; intros i Hlo Hhi; [done|].
  cbn [scan_back]. unfold char_at.
  destruct (Z.leb_spec 0 i); [|lia].
  destruct (get_some text (Z.to_nat i)) as [c Hc]; [lia|].
  rewrite Hc. destruct (is_sentence_end c); [lia|].
  specialize (IH (i - 1)%Z ltac:(lia) ltac:(lia)).
  destruct (scan_back text (i - 1) k); [lia|done|done].
Qed.

(** One round of the loop keeps the invariant. *)
Lemma window_inv (text : string) (chunk_size overlap start reached end_ : Z)
      (chunks : list chunk) :
  (0 <= overlap)%Z -> (start < Z.of_nat (len text))%Z ->
  (start + overlap < end_ <= start + chunk_size + 1)%Z ->
  loop_inv text chunk_size start reached chunks ->
  loop_inv text chunk_size (end_ - overlap) end_
           (with_window text start end_ chunks).
Proof.
  intros Hov Hstart Hend (Hse & Hcut & Hbefore & Hsorted & Hcov).
  unfold with_window.
  destruct (is_empty (strip (slice text start end_))) eqn:E; cbn [negb].
  - split; [lia|]. split; [done|]. split.
    { eapply Forall_impl; [exact Hbefore|]. intros c Hc. simpl in Hc. lia. }
    split; [done|].
    intros j c Hj Hget Hsp.
    destruct (Z.ltb_spec (Z.of_nat j) reached) as [Hlt|Hge];
      [by apply (Hcov j c)|].
    pose proof (slice_get text start end_ j c ltac:(lia) Hj Hget) as Hs.
    pose proof (all_chars_get _ _ _ _ (strip_empty _ E) Hs). congruence.
  - set (ch := mk_chunk _ _ _ _).
    split; [lia|]. split.
    { apply Forall_app. split; [done|]. constructor; [|constructor].
      unfold well_cut, ch. simpl. split; [lia|]. split; [lia|].
      split; [done|]. split; [|done].
      intros Heq. by rewrite Heq in E. }
    split.
    { apply Forall_app. split.
      - eapply Forall_impl; [exact Hbefore|]. intros c Hc. simpl in Hc. lia.
      - constructor; [|constructor]. unfold ch. simpl. lia. }
    split.
    { clear -Hsorted Hbefore.
      induction Hsorted as [|x l Hl IH Hx]; simpl.
      - repeat constructor.
      - apply Forall_cons in Hbefore as [Hb Hbefore].
        constructor; [by apply IH|].
        apply Forall_app. split; [done|].
        constructor; [|constructor]. unfold starts_before, ch. simpl. lia. }
    intros j c Hj Hget Hsp.
    destruct (Z.ltb_spec (Z.of_nat j) reached) as [Hlt|Hge].
    + destruct (Hcov j c Hlt Hget Hsp) as (ch' & Hin & Hpos).
      exists ch'. split; [|done]. apply in_app_iff. by left.
    + exists ch. split; [apply in_app_iff; right; by left|].
      unfold ch. simpl. lia.
Qed.

Lemma covered_past (text : string) (chunks : list chunk) (reached : Z) :
  (Z.of_nat (len text) <= reached)%Z ->
  covered_to text chunks reached ->
  covered_to text chunks (Z.of_nat (len text)).
Proof. intros H Hcov j c Hj. apply Hcov. lia. Qed.

(** From a state that satisfies the invariant the loop returns within as
    many rounds as there are characters left, with chunks that satisfy
    it to the end of the text. *)
Lemma chunk_loop_returns (text : string) (chunk_size overlap : Z) :
  (0 <= overlap)%Z -> (2 * overlap < chunk_size)%Z ->
  forall (fuel : nat) (start reached : Z) (chunks : list chunk),
    (Z.max 0 (Z.of_nat (len text) - start) < Z.of_nat fuel)%Z ->
    loop_inv text chunk_size start reached chunks ->
    exists result,
      chunk_loop fuel text chunk_size overlap start chunks = Returned result
      /\ Forall (well_cut text chunk_size) result
      /\ StronglySorted starts_before result
      /\ covered_to text result (Z.of_nat (len text)).
Proof.
  intros Hov Hcs.
  assert (Hhalf : (overlap <= chunk_size / 2 < chunk_size)%Z)
    by (Z.to_euclidean_division_equations; lia).
  induction fuel as [|fuel IH]; intros start reached chunks Hfuel Hinv.
  - lia.
  - cbn [chunk_loop].
    destruct (Z.ltb_spec start (Z.of_nat (len text))) as [Hlt|Hge].
    + pose proof Hinv as (Hse & _).
      assert (Hstep : forall end_,
                 (start + overlap < end_ <= start + chunk_size + 1)%Z ->
                 exists result,
                   chunk_loop fuel text chunk_size overlap (end_ - overlap)
                     (with_window text start end_ chunks) = Returned result
                   /\ Forall (well_cut text chunk_size) result
                   /\ StronglySorted starts_before result
                   /\ covered_to text result (Z.of_nat (len text))).
      { intros end_ Hend. apply (IH _ end_); [lia|].
        by apply (window_inv text chunk_size overlap start reached). }
      destruct (Z.ltb_spec (start + chunk_size) (Z.of_nat (len text)))
        as [Hin|Hout].
      * pose proof (scan_back_spec text
                      (Z.to_nat (start + chunk_size
                                 - (start + chunk_size / 2)))
                      (start + chunk_size)%Z ltac:(lia) Hin) as Hscan.
        destruct (scan_back text (start + chunk_size) _) as [j| |];
          [|apply Hstep; lia|done].
        apply Hstep. lia.
      * apply Hstep. lia.
    + destruct Hinv as (Hse & Hcut & _ & Hsorted & Hcov).
      exists chunks. split; [done|]. split; [done|]. split; [done|].
      apply (covered_past _ _ reached); [lia|done].
Qed.

Lemma chunk_loop_more (text : string) (chunk_size overlap : Z)
      (fuel : nat) :
  forall (start : Z) (chunks result : list chunk) (k : nat),
    chunk_loop fuel text chunk_size overlap start chunks = Returned result ->
    chunk_loop (fuel + k) text chunk_size overlap start chunks
    = Returned result.
Proof.
  induction fuel as [|fuel IH]; intros start chunks result k; [done|].
  cbn [chunk_loop Nat.add].
  destruct (start <? Z.of_nat (len text))%Z; [|done].
  destruct (if (start + chunk_size <? Z.of_nat (len text))%Z
            then _ else NotFound); [apply IH|apply IH|done].
Qed.

Lemma chunk_text_total (text : string) (chunk_size overlap : Z) :
  (0 <= overlap)%Z -> (2 * overlap < chunk_size)%Z ->
  exists chunks,
    (forall fuel, len text < fuel ->
       chunk_text fuel text chunk_size overlap = Returned chunks)
    /\ Forall (well_cut text chunk_size) chunks
    /\ StronglySorted starts_before chunks
    /\ covered_to text chunks (Z.of_nat (len text)).
Proof.
  intros Hov Hcs.
  destruct (chunk_loop_returns text chunk_size overlap Hov Hcs
              (S (len text)) 0 0 []) as (chunks & Hret & Hprops); [lia| |].
  { split; [lia|]. repeat split; try constructor.
    intros j c Hj. lia. }
  exists chunks. split; [|done].
  intros fuel Hfuel. unfold chunk_text.
  replace fuel with (S (len text) + (fuel - S (len text))) by lia.
  by apply chunk_loop_more.
Qed.

(** X23. With an overlap that is not negative and less than half the
    chunk size, as with the default arguments, [chunk_text] returns after
    at most as many rounds as the text has characters, and raises no
    error.  Every chunk it returns starts inside the text, spans at most
    [chunk_size + 1] positions, and holds the stripped text between its
    positions, which is not empty, with its length; the chunks start at
    strictly increasing positions. *)
Theorem chunk_text_returns (text : string) (chunk_size overlap : Z) :
  (0 <= overlap)%Z -> (2 * overlap < chunk_size)%Z ->
  exists chunks,
    (forall fuel, len text < fuel ->
       chunk_text fuel text chunk_size overlap = Returned chunks)
    /\ Forall (well_cut text chunk_size) chunks
    /\ StronglySorted starts_before chunks.
Proof.
  intros Hov Hcs.
  destruct (chunk_text_total text chunk_size overlap Hov Hcs)
    as (chunks & H1 & H2 & H3 & _).
  by exists chunks.
Qed.

Lemma chunk_text_returns_witness :
  exists chunks,
    (forall fuel, len sample_text < fuel ->
       chunk_text fuel sample_text default_chunk_size default_overlap
       = Returned chunks)
    /\ Forall (well_cut sample_text default_chunk_size) chunks
    /\ StronglySorted starts_before chunks.
Proof.
  apply (chunk_text_returns sample_text default_chunk_size default_overlap);
    unfold default_chunk_size, default_overlap; lia.
Defined.

(** X24. Under the same condition the chunks leave out nothing but white
    space: every character of the text that is not white space lies
    between the start and the end position of a chunk. *)
Theorem chunk_text_covers (text : string) (chunk_size overlap : Z) :
  (0 <= overlap)%Z -> (2 * overlap < chunk_size)%Z ->
  exists chunks,
    chunk_text (S (len text)) text chunk_size overlap = Returned chunks
    /\ forall (j : nat) (c : ascii),
        String.get j text = Some c -> is_space c = false ->
        exists ch,
          In ch chunks /\ (start_pos ch <= Z.of_nat j < end_pos ch)%Z.
Proof.
  intros Hov Hcs.
  destruct (chunk_text_total text chunk_size overlap Hov Hcs)
    as (chunks & H1 & _ & _ & H4).
  exists chunks. split; [apply H1; lia|].
  intros j c Hget Hsp. apply (H4 j c); [|done|done].
  pose proof (get_len _ _ _ Hget). lia.
Qed.

Lemma chunk_text_covers_witness :
  exists chunks,
    chunk_text (S (len sample_text)) sample_text default_chunk_size
      default_overlap = Returned chunks
    /\ forall (j : nat) (c : ascii),
        String.get j sample_text = Some c -> is_space c = false ->
        exists ch,
          In ch chunks /\ (start_pos ch <= Z.of_nat j < end_pos ch)%Z.
Proof.
  apply (chunk_text_covers sample_text default_chunk_size default_overlap);
    unfold default_chunk_size, default_overlap; lia.
Defined.

Lemma chunk_loop_stuck (text : string) (chunk_size : Z) :
  (0 < Z.of_nat (len text) <= chunk_size)%Z ->
  forall (fuel : nat) (chunks : list chunk),
    chunk_loop fuel text chunk_size chunk_size 0 chunks = Unfinished.
Proof.
  intros Hlen. induction fuel as [|fuel IH]; intros chunks; [done|].
  cbn [chunk_loop].
  destruct (Z.ltb_spec 0 (Z.of_nat (len text))); [|lia].
  destruct (Z.ltb_spec (0 + chunk_size) (Z.of_nat (len text))); [lia|].
  replace (0 + chunk_size - chunk_size)%Z with 0%Z by lia.
  apply IH.
Qed.

(** X25. With an overlap equal to the chunk size, [chunk_text] never
    returns on a text that is not empty and not longer than the chunk
    size: every round starts again at position 0, however many rounds are
    allowed. *)
Theorem chunk_text_never_returns (text : string) (chunk_size : Z) :
  (0 < Z.of_nat (len text) <= chunk_size)%Z ->
  forall fuel : nat,
    chunk_text fuel text chunk_size chunk_size = Unfinished.
Proof. intros H fuel. by apply chunk_loop_stuck. Qed.

Lemma chunk_text_never_returns_witness :
  chunk_text 1000 sample_text 100 100 = Unfinished.
Proof.
  apply (chunk_text_never_returns sample_text 100). vm_compute.
  split; [reflexivity|discriminate].
Defined.

End ChunkFacts.

(** ** The pipeline *)

Module PipelineFacts.
Import PyStr Main SpecRanking SpecSections SpecPipeline.
Local Open Scope list_scope.

Section Collection.
Variable sentence_model :
  option (string -> list string -> option (nat -> float)).
Variable tfidf_vectorizer : string -> list string -> option (nat -> float).
Variable pdf_dir :
  string -> option (option (list DocumentProcessor.fitz_page)).







End Collection.




End PipelineFacts.
